(** * A shallow embedding of the bond trading system

    The development follows the C++ headers under [tradingsystem/]:
    one module per header, with the names of the source.  Services are
    records holding the keyed store and the registered listeners; member
    functions become functions that take the service (and whatever else
    they mutate) and return the new state.

    Conventions of the embedding.
    - [long] is a 64-bit two's-complement integer, carried as [Z] with the
      wrap-around written out ([Long.wrap]).
    - [double] is carried as an exact rational ([Qc]).  Every price of the
      system is built by [ConvertBondPrice] from an integer, a number of
      32nds and an optional 1/256 part; these values, their sums,
      differences and halves are represented exactly.  A quantity held in
      a double comes from a [long]: it is converted exactly up to 2^53 in
      magnitude and rounded to the nearest double beyond
      ([Double.nearest_double]).
    - A call either returns, throws [std::runtime_error], or has no
      behaviour defined by the language ([Undefined]), e.g. [front()] of
      an empty vector.  [OutOfFuel] belongs to the model only: the one
      re-entrant call chain (inquiries) is unfolded with a budget.
      An exception ends the whole call chain; the state it leaves
      behind is not tracked.
    - A function-local [static] object is a slot of type [option]:
      [None] until control first passes through its declaration. *)

From Stdlib Require Import ZArith QArith Qcanon Qround Lia.
From stdpp Require Import numbers strings pretty list fin_maps gmap.

Local Open Scope Z_scope.

(** ** Machine integers *)

Module Long.

Definition LONG_MAX : Z := 2 ^ 63 - 1.
Definition LONG_MIN : Z := - 2 ^ 63.

Definition in_range (z : Z) : Prop := LONG_MIN <= z <= LONG_MAX.

(** Reduction of a mathematical integer to the representable one. *)
Definition wrap (z : Z) : Z := (z + 2 ^ 63) mod 2 ^ 64 - 2 ^ 63.

Definition add (a b : Z) : Z := wrap (a + b).
Definition neg (a : Z) : Z := wrap (- a).
Definition incr (a : Z) : Z := add a 1.

(** [%] of C++ truncates towards zero. *)
Definition rem (a b : Z) : Z := Z.rem a b.

Definition sub (a b : Z) : Z := wrap (a - b).
Definition mul (a b : Z) : Z := wrap (a * b).

End Long.

(** [int] is a 32-bit two's-complement integer. *)
Module Int.

Definition INT_MAX : Z := 2 ^ 31 - 1.
Definition INT_MIN : Z := - 2 ^ 31.

Definition in_range (z : Z) : Prop := INT_MIN <= z <= INT_MAX.

Definition wrap (z : Z) : Z := (z + 2 ^ 31) mod 2 ^ 32 - 2 ^ 31.

Definition mul (a b : Z) : Z := wrap (a * b).

End Int.

(** ** Doubles *)

Module Double.

Abbreviation double := Qc.

Definition of_Q (q : Q) : double := Q2Qc q.

(** The integer a [double] holds after conversion from the integer [z]:
    [z] itself while it fits the 53-bit significand, otherwise the nearest
    multiple of the spacing of the doubles around [z], a tie going to the
    even significand. *)
Definition nearest_double (z : Z) : Z :=
  let a := Z.abs z in
  if a <=? 2 ^ 53 then z
  else
    let ulp := 2 ^ (Z.log2 a - 52) in
    let q := a / ulp in
    let r := a mod ulp in
    let up := if 2 * r <? ulp then false else if ulp <? 2 * r then true else Z.odd q in
    Z.sgn z * ((if up then q + 1 else q) * ulp).

(** Implicit conversion [long -> double]. *)
Definition of_long (z : Z) : double := Q2Qc (inject_Z (nearest_double z)).

(** Implicit conversion [double -> long]: the fractional part is dropped
    (a value beyond the [long] range, for which C++ defines no result, is
    reduced like every other [long]). *)
Definition to_long (d : double) : Z :=
  Long.wrap (Z.quot (Qnum (this d)) (Zpos (Qden (this d)))).

Definition lt (a b : double) : bool := bool_decide (a < b)%Qc.
Definition gt (a b : double) : bool := bool_decide (b < a)%Qc.
Definition le (a b : double) : bool := bool_decide (a <= b)%Qc.

(** [static_cast<int>(double)]: the fractional part is dropped. *)
Definition to_int (d : double) : Z :=
  Int.wrap (Z.quot (Qnum (this d)) (Zpos (Qden (this d)))).

Definition ge (a b : double) : bool := bool_decide (b <= a)%Qc.

End Double.

Import Double.

(** ** Results of a call *)

Inductive outcome (A : Type) : Type :=
| Returns (a : A)
| Throws (what : string)
| Undefined
| OutOfFuel.

Arguments Returns {A} a.
Arguments Throws {A} what.
Arguments Undefined {A}.
Arguments OutOfFuel {A}.

#[global] Instance outcome_ret : MRet outcome := fun A a => Returns a.

#[global] Instance outcome_bind : MBind outcome := fun A B f c =>
  match c with
  | Returns a => f a
  | Throws what => Throws what
  | Undefined => Undefined
  | OutOfFuel => OutOfFuel
  end.

(** A function-local static object: initialised by the first pass through
    its declaration, left alone by every later one. *)
Definition static_local {A : Type} (slot : option A) (init : A) : A * option A :=
  match slot with
  | Some v => (v, slot)
  | None => (init, Some init)
  end.

(** ** soa.hpp *)

Module Soa.

(** Modelled from the spec: [soa.hpp] (the [Service], [ServiceListener] and
    [Connector] base classes) is absent.  A listener is its add-callback,
    an action of the delivered value on the rest of the system [W]; the
    remove- and update-callbacks are never called by a service. *)
Definition ServiceListener (V W : Type) : Type := V -> W -> outcome W.

(** The notification loop every service runs:
    [for (auto& lstn : listeners) lstn->ProcessAdd(data);]
    in registration order; an exception leaves the loop. *)
Fixpoint notify {V W : Type} (listeners : list (ServiceListener V W))
    (data : V) (w : W) : outcome W :=
  match listeners with
  | [] => Returns w
  | lstn :: rest => w' ← lstn data w; notify rest data w'
  end.

End Soa.

Import Soa.

(** ** products.hpp *)

Module Products.

(** Modelled from the spec: [products.hpp] is absent.  A product is an
    immutable reference entity identified by its product id. *)
Record Bond : Type := mkBond {
  GetProductId : string;
  GetTicker : string
}.

End Products.

Import Products.

(** ** utils/utils.hpp *)

Module Utils.

(** The value [ConvertBondPrice] returns once the three fields of the
    price string have been read:
    [whole + thirtySecond / 32.0 + twoHundredFiftySixth / 256.0], where
    the last field is 4 when the string ends in [+] and 0 otherwise. *)
Definition ConvertBondPrice_value (whole thirtySecond : Z) (plus : bool) : double :=
  let twoHundredFiftySixth := if plus then 4 else 0 in
  (of_long whole + of_long thirtySecond / of_Q 32 + of_long twoHundredFiftySixth / of_Q 256)%Qc.

Definition calculatePV01 (cusip : string) : double :=
  let pv01 := of_Q 0 in
  let pv01 := if String.eqb cusip "91282CJL6" then of_Q (1 # 100) else pv01 in
  let pv01 := if String.eqb cusip "91282CJK8" then of_Q (2 # 100) else pv01 in
  let pv01 := if String.eqb cusip "91282CJN2" then of_Q (4 # 100) else pv01 in
  let pv01 := if String.eqb cusip "91282CJM4" then of_Q (6 # 100) else pv01 in
  let pv01 := if String.eqb cusip "91282CJJ1" then of_Q (8 # 100) else pv01 in
  let pv01 := if String.eqb cusip "912810TW8" then of_Q (12 # 100) else pv01 in
  let pv01 := if String.eqb cusip "912810TV0" then of_Q (20 # 100) else pv01 in
  pv01.

(** [std::to_string] of an integer: its decimal digits, with a sign when
    negative. *)
Definition to_string (z : Z) : string := pretty z.

Definition FormatPrice (price : double) : string :=
  let wholePart := to_int price in
  let fractionalPart := ((price - of_long wholePart) * of_Q 32)%Qc in
  let fractionalPart32 := to_int fractionalPart in
  let fractionalPart64 := to_int ((fractionalPart - of_long fractionalPart32) * of_Q 2)%Qc in
  let formattedPrice := to_string wholePart +:+ "-" in
  let formattedPrice := formattedPrice +:+ (if fractionalPart32 <? 10 then "0" else "") in
  let formattedPrice := formattedPrice +:+ to_string fractionalPart32 in
  if fractionalPart64 =? 1 then formattedPrice +:+ "+" else formattedPrice.

(** [GetBond].  Of the constructor arguments the product id and the
    ticker are kept; [Bond()], returned for any other string, is
    [default]. *)
Definition GetBond (default : Bond) (cusip : string) : Bond :=
  if String.eqb cusip "91282CJL6" then mkBond "91282CJL6" "US2Y"
  else if String.eqb cusip "91282CJK8" then mkBond "91282CJK8" "US3Y"
  else if String.eqb cusip "91282CJN2" then mkBond "91282CJN2" "US5Y"
  else if String.eqb cusip "91282CJM4" then mkBond "91282CJM4" "US7Y"
  else if String.eqb cusip "91282CJJ1" then mkBond "91282CJJ1" "US10Y"
  else if String.eqb cusip "912810TW8" then mkBond "912810TW8" "US20Y"
  else if String.eqb cusip "912810TV0" then mkBond "912810TV0" "US30Y"
  else default.

End Utils.

(** ** marketdataservice.hpp *)

Module MarketData.

Inductive PricingSide : Type := BID | OFFER.

Record Order : Type := mkOrder {
  GetPrice : double;
  GetQuantity : Z;
  GetSide : PricingSide
}.

Record BidOffer : Type := mkBidOffer {
  GetBidOrder : Order;
  GetOfferOrder : Order
}.

Record OrderBook : Type := mkOrderBook {
  GetProduct : Bond;
  GetBidStack : list Order;
  GetOfferStack : list Order
}.

(** [for (const auto& bid : bids) if (bid.GetPrice() > bestBid->GetPrice()) bestBid = &bid;] *)
Fixpoint highest_bid (bestBid : Order) (bids : list Order) : Order :=
  match bids with
  | [] => bestBid
  | bid :: rest =>
      highest_bid (if gt (GetPrice bid) (GetPrice bestBid) then bid else bestBid) rest
  end.

(** [for (const auto& offer : asks) if (offer.GetPrice() < bestOffer->GetPrice()) bestOffer = &offer;] *)
Fixpoint lowest_offer (bestOffer : Order) (asks : list Order) : Order :=
  match asks with
  | [] => bestOffer
  | offer :: rest =>
      lowest_offer (if lt (GetPrice offer) (GetPrice bestOffer) then offer else bestOffer) rest
  end.

(** [OrderBook<T>::GetBidAsk].  [slot] is the function's static
    [bestBidOffer].  There is no emptiness test: [front()] is called on
    both stacks as they are. *)
Definition GetBidAsk (book : OrderBook) (slot : option BidOffer)
    : outcome (BidOffer * option BidOffer) :=
  match GetBidStack book, GetOfferStack book with
  | front_bid :: _, front_ask :: _ =>
      let bestBid := highest_bid front_bid (GetBidStack book) in
      let bestOffer := lowest_offer front_ask (GetOfferStack book) in
      Returns (static_local slot (mkBidOffer bestBid bestOffer))
  | _, _ => Undefined
  end.

Record MarketDataService (W : Type) : Type := mkMarketDataService {
  orderBooks : gmap string OrderBook;
  listeners : list (ServiceListener OrderBook W);
  bookDepth : Z
}.

Arguments mkMarketDataService {W}.
Arguments orderBooks {W}.
Arguments listeners {W}.
Arguments bookDepth {W}.

Section Service.
Context {W : Type}.

Definition GetData (svc : MarketDataService W) (key : string) : outcome OrderBook :=
  match orderBooks svc !! key with
  | Some book => Returns book
  | None => Throws ("OrderBook not found for key: " +:+ key)
  end.

Definition OnMessage (data : OrderBook) (svc : MarketDataService W) (w : W)
    : outcome (MarketDataService W * W) :=
  let productId := GetProductId (GetProduct data) in
  let svc' := mkMarketDataService (<[productId := data]> (orderBooks svc))
                (listeners svc) (bookDepth svc) in
  w' ← notify (listeners svc) data w;
  Returns (svc', w').

(** [MarketDataService<T>::GetBestBidOffer].  [orderBooks[_productId]]
    on a key that is not stored would need a default-constructed
    [OrderBook], which the class does not declare: no behaviour is given
    to that case. *)
Definition GetBestBidOffer (svc : MarketDataService W) (_productId : string)
    (slot : option BidOffer) : outcome (BidOffer * option BidOffer) :=
  match orderBooks svc !! _productId with
  | None => Undefined
  | Some book =>
      match GetBidStack book, GetOfferStack book with
      | front_bid :: _, front_ask :: _ =>
          let bestBid := highest_bid front_bid (GetBidStack book) in
          let bestOffer := lowest_offer front_ask (GetOfferStack book) in
          Returns (static_local slot (mkBidOffer bestBid bestOffer))
      | _, _ =>
          Throws ("Bid or offer stack is empty for product: " +:+ _productId)
      end
  end.

(** The iteration order of [unordered_map<double, long>] is not specified:
    [iteration] is whatever order the container yields its entries in. *)
Variable iteration : gmap double Z -> list (double * Z).

(** [priceToQuantity[order.GetPrice()] += order.GetQuantity();] *)
Definition add_order (priceToQuantity : gmap double Z) (order : Order) : gmap double Z :=
  <[GetPrice order :=
      Long.add (default 0 (priceToQuantity !! GetPrice order)) (GetQuantity order)]>
    priceToQuantity.

Definition AggregateOrders (orders : list Order) (type : PricingSide) : list Order :=
  let priceToQuantity := foldl add_order ∅ orders in
  (fun entry => mkOrder entry.1 entry.2 type) <$> iteration priceToQuantity.

(** [MarketDataService<T>::AggregateDepth]; [slot] is the static
    [aggregatedOrderBook]. *)
Definition AggregateDepth (svc : MarketDataService W) (productId : string)
    (slot : option OrderBook) : outcome (OrderBook * option OrderBook) :=
  match orderBooks svc !! productId with
  | None => Undefined
  | Some book =>
      let product := GetProduct book in
      let bidStack := AggregateOrders (GetBidStack book) BID in
      let offerStack := AggregateOrders (GetOfferStack book) OFFER in
      Returns (static_local slot (mkOrderBook product bidStack offerStack))
  end.

End Service.

(** [MarketDataConnector]: the tuple [ParseLine] returns for a line of
    the market data file (product id, price, quantity, side). *)
Definition OrderData : Type := string * double * Z * PricingSide.

Definition CreateOrder (orderData : OrderData) : Order :=
  let '(_, price, quantity, side) := orderData in
  mkOrder price quantity side.

Section Connector.
Context {W : Type}.

(** [Bond()], see [Utils.GetBond]. *)
Variable default_bond : Bond.

(** The loop of [MarketDataConnector<T>::Subscribe] over the parsed
    lines, with its locals [_count], [_bidStack] and [_offerStack];
    [_thread] is an [int], [_count % _thread] with a zero [_thread] has
    no defined behaviour. *)
Fixpoint Subscribe_loop (_thread : Z) (lines : list OrderData)
    (_count : Z) (_bidStack _offerStack : list Order)
    (mkt : MarketDataService W) (w : W) : outcome (MarketDataService W * W) :=
  match lines with
  | [] => Returns (mkt, w)
  | orderData :: rest =>
      let order := CreateOrder orderData in
      let side := orderData.2 in
      let _bidStack := match side with BID => _bidStack ++ [order] | OFFER => _bidStack end in
      let _offerStack :=
        match side with BID => _offerStack | OFFER => _offerStack ++ [order] end in
      let _count := Long.incr _count in
      if Z.eqb _thread 0 then Undefined
      else if Z.eqb (Long.rem _count _thread) 0 then
        let _product := Utils.GetBond default_bond orderData.1.1.1 in
        let _orderBook := mkOrderBook _product _bidStack _offerStack in
        '(mkt', w') ← OnMessage _orderBook mkt w;
        Subscribe_loop _thread rest _count [] [] mkt' w'
      else Subscribe_loop _thread rest _count _bidStack _offerStack mkt w
  end.

Definition Subscribe (lines : list OrderData) (mkt : MarketDataService W) (w : W)
    : outcome (MarketDataService W * W) :=
  let _bookDepth := bookDepth mkt in
  let _thread := Int.mul _bookDepth 2 in
  Subscribe_loop _thread lines 0 [] [] mkt w.

(** The constructor, with the listeners registered during assembly. *)
Definition new_MarketDataService (ls : list (ServiceListener OrderBook W))
    : MarketDataService W :=
  mkMarketDataService ∅ ls 5.

End Connector.

End MarketData.

(** ** executionservice.hpp *)

Module Execution.

Inductive OrderType : Type := FOK | IOC | MARKET | LIMIT | STOP.

Inductive Market : Type := BROKERTEC | ESPEED | CME.

(** The two quantities are stored as [double] and read back as [long]. *)
Record ExecutionOrder : Type := mkExecutionOrder {
  GetProduct : Bond;
  GetPricingSide : MarketData.PricingSide;
  GetOrderId : string;
  GetOrderType : OrderType;
  GetPrice : double;
  visibleQuantity : double;
  hiddenQuantity : double;
  GetParentOrderId : string;
  IsChildOrder : bool
}.

Definition GetVisibleQuantity (order : ExecutionOrder) : Z :=
  to_long (visibleQuantity order).

Definition GetHiddenQuantity (order : ExecutionOrder) : Z :=
  to_long (hiddenQuantity order).

Record ExecutionService (W : Type) : Type := mkExecutionService {
  exeOrd : gmap string ExecutionOrder;
  listeners : list (ServiceListener ExecutionOrder W)
}.

Arguments mkExecutionService {W}.
Arguments exeOrd {W}.
Arguments listeners {W}.

Section Service.
Context {W : Type}.

Definition GetData (svc : ExecutionService W) (key : string) : outcome ExecutionOrder :=
  match exeOrd svc !! key with
  | Some order => Returns order
  | None => Throws ("Order not found for key: " +:+ key)
  end.

Definition OnMessage (data : ExecutionOrder) (svc : ExecutionService W) (w : W)
    : outcome (ExecutionService W * W) :=
  let productId := GetProductId (GetProduct data) in
  let svc' := mkExecutionService (<[productId := data]> (exeOrd svc)) (listeners svc) in
  w' ← notify (listeners svc) data w;
  Returns (svc', w').

Definition ExecuteOrder (order : ExecutionOrder) (market : Market)
    (svc : ExecutionService W) (w : W) : outcome (ExecutionService W * W) :=
  OnMessage order svc w.

End Service.

End Execution.

(** ** algoexecutionservice.hpp *)

Module AlgoExecution.

Import MarketData.

(** [AlgoExecution] holds a pointer to an [ExecutionOrder] that is never
    written after its construction; it is carried by value. *)
Record AlgoExecution : Type := mkAlgoExecution {
  GetExecutionOrder : Execution.ExecutionOrder
}.

(** The constructor takes the quantities as [long] and hands them to
    [ExecutionOrder], whose parameters are [double]. *)
Definition new_AlgoExecution (_product : Bond) (_side : PricingSide) (_orderId : string)
    (_orderType : Execution.OrderType) (_price : double)
    (_visibleQuantity _hiddenQuantity : Z) (_parentOrderId : string)
    (_isChildOrder : bool) : AlgoExecution :=
  mkAlgoExecution
    (Execution.mkExecutionOrder _product _side _orderId _orderType _price
       (of_long _visibleQuantity) (of_long _hiddenQuantity) _parentOrderId _isChildOrder).

Record AlgoExecutionService (W : Type) : Type := mkAlgoExecutionService {
  algoExe : gmap string AlgoExecution;
  listeners : list (ServiceListener AlgoExecution W);
  spread : double;
  side : Z
}.

Arguments mkAlgoExecutionService {W}.
Arguments algoExe {W}.
Arguments listeners {W}.
Arguments spread {W}.
Arguments side {W}.

Section Service.
Context {W : Type}.

(** The constructor, with the listeners registered during assembly. *)
Definition new_AlgoExecutionService (ls : list (ServiceListener AlgoExecution W))
    : AlgoExecutionService W :=
  mkAlgoExecutionService ∅ ls (of_Q (1 # 128)) 0.

Definition GetData (svc : AlgoExecutionService W) (key : string) : outcome AlgoExecution :=
  match algoExe svc !! key with
  | Some a => Returns a
  | None => Throws ("AlgoExe not found for key: " +:+ key)
  end.

Definition OnMessage (data : AlgoExecution) (svc : AlgoExecutionService W) (w : W)
    : outcome (AlgoExecutionService W * W) :=
  let productId := GetProductId (Execution.GetProduct (GetExecutionOrder data)) in
  let svc' := mkAlgoExecutionService (<[productId := data]> (algoExe svc))
                (listeners svc) (spread svc) (side svc) in
  w' ← notify (listeners svc) data w;
  Returns (svc', w').

(** [orderId] is the string [GenerateRandomID()] returns for this call
    (clock and random device: an input of the model). *)
Definition CreateExecutionOrder (orderBook : OrderBook) (side : PricingSide)
    (price : double) (quantity : Z) (orderId : string) : AlgoExecution :=
  let product := GetProduct orderBook in
  new_AlgoExecution product side orderId Execution.MARKET price quantity 0 "" false.

Definition DetermineOrderSide (svc : AlgoExecutionService W) : PricingSide :=
  if Z.eqb (Long.rem (side svc) 2) 0 then BID else OFFER.

(** [AlgoExecutionService<T>::AlgoExecuteOrder].  [slot] is the static
    object of [OrderBook<T>::GetBidAsk]. *)
Definition AlgoExecuteOrder (orderBook : OrderBook) (orderId : string)
    (slot : option BidOffer) (svc : AlgoExecutionService W) (w : W)
    : outcome (option BidOffer * AlgoExecutionService W * W) :=
  '(bidOffer, slot') ← GetBidAsk orderBook slot;
  let bidOrder := GetBidOrder bidOffer in
  let offerOrder := GetOfferOrder bidOffer in
  let bidPrice := GetPrice bidOrder in
  let offerPrice := GetPrice offerOrder in
  if le (offerPrice - bidPrice)%Qc (spread svc) then
    let _side := DetermineOrderSide svc in
    let price := match _side with BID => bidPrice | OFFER => offerPrice end in
    let quantity :=
      match _side with BID => GetQuantity bidOrder | OFFER => GetQuantity offerOrder end in
    let algoExecution := CreateExecutionOrder orderBook _side price quantity orderId in
    '(svc', w') ← OnMessage algoExecution svc w;
    Returns (slot',
             mkAlgoExecutionService (algoExe svc') (listeners svc') (spread svc')
               (Long.incr (side svc')),
             w')
  else Returns (slot', svc, w).

(** [MDAlgoListener<T>::ProcessAdd], the listener registered with the
    market data service. *)
Definition MDAlgoListener_ProcessAdd (orderId : string)
    : ServiceListener OrderBook (option BidOffer * AlgoExecutionService W * W) :=
  fun data st => AlgoExecuteOrder data orderId st.1.1 st.1.2 st.2.

End Service.

(** [AlgoExeExecutionListener<T>::ProcessAdd] of executionservice.hpp, the
    listener the execution service registers with this service. *)
Definition AlgoExeExecutionListener_ProcessAdd {W : Type}
    : ServiceListener AlgoExecution (Execution.ExecutionService W * W) :=
  fun data st => Execution.ExecuteOrder (GetExecutionOrder data) Execution.CME st.1 st.2.

End AlgoExecution.

(** ** tradebookingservice.hpp *)

Module TradeBooking.

Inductive Side : Type := BUY | SELL.

Record Trade : Type := mkTrade {
  GetProduct : Bond;
  GetTradeId : string;
  GetPrice : double;
  GetBook : string;
  GetQuantity : Z;
  GetSide : Side
}.

Record TradeBookingService (W : Type) : Type := mkTradeBookingService {
  trades : gmap string Trade;
  listeners : list (ServiceListener Trade W)
}.

Arguments mkTradeBookingService {W}.
Arguments trades {W}.
Arguments listeners {W}.

(** [ExecutionBookingListener]: its [booking] pointer is the service the
    callbacks below are applied to. *)
Record ExecutionBookingListener : Type := mkExecutionBookingListener {
  count : Z
}.

Definition new_ExecutionBookingListener : ExecutionBookingListener :=
  mkExecutionBookingListener 0.

Definition DetermineSideFromPricingSide (pricingSide : MarketData.PricingSide) : Side :=
  match pricingSide with
  | MarketData.BID => SELL
  | MarketData.OFFER => BUY
  end.

Definition DetermineBookFromCount (count : Z) : string :=
  match Long.rem count 3 with
  | 0 => "TRSY1"
  | 1 => "TRSY2"
  | 2 => "TRSY3"
  | _ => "TRSY1"
  end.

Definition CreateTradeFromExecutionOrder (order : Execution.ExecutionOrder)
    (book : string) (side : Side) : Trade :=
  let product := Execution.GetProduct order in
  let tradeId := Execution.GetOrderId order in
  let price := Execution.GetPrice order in
  let quantity :=
    Long.add (Execution.GetVisibleQuantity order) (Execution.GetHiddenQuantity order) in
  mkTrade product tradeId price book quantity side.

Section Service.
Context {W : Type}.

Definition GetData (svc : TradeBookingService W) (key : string) : outcome Trade :=
  match trades svc !! key with
  | Some t => Returns t
  | None => Throws ("Trade not found for key: " +:+ key)
  end.

Definition OnMessage (data : Trade) (svc : TradeBookingService W) (w : W)
    : outcome (TradeBookingService W * W) :=
  let tradeId := GetTradeId data in
  let svc' := mkTradeBookingService (<[tradeId := data]> (trades svc)) (listeners svc) in
  w' ← notify (listeners svc) data w;
  Returns (svc', w').

Definition BookTrade (trade : Trade) (svc : TradeBookingService W) (w : W)
    : outcome (TradeBookingService W * W) :=
  let tradetobook := trade in
  OnMessage tradetobook svc w.

(** [ExecutionBookingListener<T>::ProcessAdd] *)
Definition ProcessAdd (data : Execution.ExecutionOrder) (lstn : ExecutionBookingListener)
    (svc : TradeBookingService W) (w : W)
    : outcome (ExecutionBookingListener * TradeBookingService W * W) :=
  let lstn' := mkExecutionBookingListener (Long.incr (count lstn)) in
  let side := DetermineSideFromPricingSide (Execution.GetPricingSide data) in
  let book := DetermineBookFromCount (count lstn') in
  let trade := CreateTradeFromExecutionOrder data book side in
  '(svc', w') ← BookTrade trade svc w;
  Returns (lstn', svc', w').

End Service.

(** The booking listener as registered with the execution service: it
    acts on its own counter and on the trade booking service. *)
Definition ExecutionBookingListener_ProcessAdd {W : Type}
    : ServiceListener Execution.ExecutionOrder
        (ExecutionBookingListener * TradeBookingService W * W) :=
  fun data st => ProcessAdd data st.1.1 st.1.2 st.2.

Definition new_TradeBookingService {W : Type} (ls : list (ServiceListener Trade W))
    : TradeBookingService W :=
  mkTradeBookingService ∅ ls.

End TradeBooking.

(** ** positionservice.hpp *)

Module Position.

Import TradeBooking.

(** [positions] is a [std::map<string, long>]. *)
Record Position : Type := mkPosition {
  GetProduct : Bond;
  GetPositions : gmap string Z
}.

(** [Position(const T& _product)]: no book yet. *)
Definition new_Position (_product : Bond) : Position := mkPosition _product ∅.

(** [for (const auto& pair : positions) aggregate += pair.second;] *)
Definition GetAggregatePosition (position : Position) : Z :=
  map_fold (fun (_ : string) (quantity aggregate : Z) => Long.add aggregate quantity)
    0 (GetPositions position).

Definition AddPosition (book : string) (quantity : Z) (position : Position) : Position :=
  match GetPositions position !! book with
  | Some held =>
      mkPosition (GetProduct position)
        (<[book := Long.add held quantity]> (GetPositions position))
  | None =>
      mkPosition (GetProduct position) (<[book := quantity]> (GetPositions position))
  end.

Record PositionService (W : Type) : Type := mkPositionService {
  positions : gmap string Position;
  listeners : list (ServiceListener Position W)
}.

Arguments mkPositionService {W}.
Arguments positions {W}.
Arguments listeners {W}.

Definition UpdatePositionFromTrade (trade : Trade) (position : Position) : Position :=
  let book := TradeBooking.GetBook trade in
  let quantity := TradeBooking.GetQuantity trade in
  match TradeBooking.GetSide trade with
  | BUY => AddPosition book quantity position
  | SELL => AddPosition book (Long.neg quantity) position
  end.

(** [for (const auto& p : fromPosition.GetPositions()) toPosition.AddPosition(p.first, p.second);] *)
Definition MergePositions (fromPosition toPosition : Position) : Position :=
  map_fold (fun (book : string) (quantity : Z) (to : Position) => AddPosition book quantity to)
    toPosition (GetPositions fromPosition).

Section Service.
Context {W : Type}.

Definition new_PositionService (ls : list (ServiceListener Position W))
    : PositionService W :=
  mkPositionService ∅ ls.

Definition GetData (svc : PositionService W) (key : string) : outcome Position :=
  match positions svc !! key with
  | Some p => Returns p
  | None => Throws ("Position not found for key: " +:+ key)
  end.

Definition OnMessage (data : Position) (svc : PositionService W) (w : W)
    : outcome (PositionService W * W) :=
  let productId := GetProductId (GetProduct data) in
  let svc' := mkPositionService (<[productId := data]> (positions svc)) (listeners svc) in
  w' ← notify (listeners svc) data w;
  Returns (svc', w').

(** The store after [AddTrade], and the record handed to the listeners. *)
Definition AddTrade_store (trade : Trade) (store : gmap string Position)
    : Position * gmap string Position :=
  let product := TradeBooking.GetProduct trade in
  let productId := GetProductId product in
  let newPosition := UpdatePositionFromTrade trade (new_Position product) in
  match store !! productId with
  | Some held =>
      let newPosition := MergePositions held newPosition in
      (newPosition, <[productId := newPosition]> store)
  | None => (newPosition, <[productId := newPosition]> store)
  end.

Definition AddTrade (trade : Trade) (svc : PositionService W) (w : W)
    : outcome (PositionService W * W) :=
  let '(newPosition, store) := AddTrade_store trade (positions svc) in
  w' ← notify (listeners svc) newPosition w;
  Returns (mkPositionService store (listeners svc), w').

(** [TradeBookingPosListener<T>::ProcessAdd], the listener registered with
    the trade booking service. *)
Definition TradeBookingPosListener_ProcessAdd
    : ServiceListener Trade (PositionService W * W) :=
  fun data st => AddTrade data st.1 st.2.

End Service.

(** [Position<T>::GetPosition]: [return positions[book];], which enters
    a book that is not there with quantity 0. *)
Definition GetPosition (book : string) (position : Position) : Z * Position :=
  match GetPositions position !! book with
  | Some quantity => (quantity, position)
  | None => (0, mkPosition (GetProduct position) (<[book := 0]> (GetPositions position)))
  end.

End Position.

(** ** riskservice.hpp *)

Module Risk.

Record PV01 (T : Type) : Type := mkPV01 {
  GetProduct : T;
  GetPV01 : double;
  GetQuantity : Z
}.

Arguments mkPV01 {T}.
Arguments GetProduct {T}.
Arguments GetPV01 {T}.
Arguments GetQuantity {T}.

Record RiskService (W : Type) : Type := mkRiskService {
  pvs : gmap string (PV01 Bond);
  listeners : list (ServiceListener (PV01 Bond) W)
}.

Arguments mkRiskService {W}.
Arguments pvs {W}.
Arguments listeners {W}.

Section Service.
Context {W : Type}.

Definition new_RiskService (ls : list (ServiceListener (PV01 Bond) W)) : RiskService W :=
  mkRiskService ∅ ls.

Definition GetData (svc : RiskService W) (key : string) : outcome (PV01 Bond) :=
  match pvs svc !! key with
  | Some p => Returns p
  | None => Throws ("PV01 not found for key: " +:+ key)
  end.

Definition OnMessage (data : PV01 Bond) (svc : RiskService W) (w : W)
    : outcome (RiskService W * W) :=
  let productId := GetProductId (GetProduct data) in
  let svc' := mkRiskService (<[productId := data]> (pvs svc)) (listeners svc) in
  w' ← notify (listeners svc) data w;
  Returns (svc', w').

(** [RiskService<T>::AddPosition] *)
Definition AddPosition (position : Position.Position) (svc : RiskService W) (w : W)
    : outcome (RiskService W * W) :=
  let product := Position.GetProduct position in
  let iD := GetProductId product in
  let val := Utils.calculatePV01 iD in
  let qty := Position.GetAggregatePosition position in
  let pv01 := mkPV01 product val qty in
  let svc' := mkRiskService (<[iD := pv01]> (pvs svc)) (listeners svc) in
  w' ← notify (listeners svc) pv01 w;
  Returns (svc', w').

(** [PositionRiskListner<T>::ProcessAdd], the listener registered with the
    position service. *)
Definition PositionRiskListner_ProcessAdd
    : ServiceListener Position.Position (RiskService W * W) :=
  fun _data st => AddPosition _data st.1 st.2.

End Service.

End Risk.

(** ** inquiryservice.hpp *)

Module Inquiry.

Inductive InquiryState : Type := RECEIVED | QUOTED | DONE | REJECTED | CUSTOMER_REJECTED.

Record Inquiry : Type := mkInquiry {
  GetInquiryId : string;
  GetProduct : Bond;
  GetSide : TradeBooking.Side;
  GetQuantity : Z;
  GetPrice : double;
  GetState : InquiryState
}.

Definition SetState (_state : InquiryState) (i : Inquiry) : Inquiry :=
  mkInquiry (GetInquiryId i) (GetProduct i) (GetSide i) (GetQuantity i) (GetPrice i) _state.

Definition SetPrice (_price : double) (i : Inquiry) : Inquiry :=
  mkInquiry (GetInquiryId i) (GetProduct i) (GetSide i) (GetQuantity i) _price (GetState i).

Definition state_name (state : InquiryState) : string :=
  match state with
  | RECEIVED => "RECEIVED"
  | QUOTED => "QUOTED"
  | DONE => "DONE"
  | REJECTED => "REJECTED"
  | CUSTOMER_REJECTED => "CUSTOMER_REJECTED"
  end.

(** [Inquiry<T>::HDFormat] *)
Definition HDFormat (i : Inquiry) : list string :=
  let stateStr := state_name (GetState i) in
  [GetInquiryId i;
   GetProductId (GetProduct i);
   match GetSide i with TradeBooking.BUY => "BUY" | TradeBooking.SELL => "SELL" end;
   Utils.to_string (GetQuantity i);
   Utils.FormatPrice (GetPrice i);
   stateStr].

(** A registered listener is either the service's own [InquiryListener]
    ([inqlstn], which calls back into the service) or a listener of
    another service acting on the rest of the system. *)
Inductive listener (W : Type) : Type :=
| inqlstn
| external (l : ServiceListener Inquiry W).

Arguments inqlstn {W}.
Arguments external {W} l.

Record InquiryService (W : Type) : Type := mkInquiryService {
  inquiries : gmap string Inquiry;
  listeners : list (listener W)
}.

Arguments mkInquiryService {W}.
Arguments inquiries {W}.
Arguments listeners {W}.

(** An [Inquiry<T>&]: the caller's own object, or the element of
    [inquiries] that [GetData] returned a reference to. *)
Inductive reference : Type :=
| local (i : Inquiry)
| stored (key : string).

Section Service.
Context {W : Type}.

(** The constructor registers [inqlstn] itself. *)
Definition new_InquiryService : InquiryService W := mkInquiryService ∅ [inqlstn].

Definition AddListener (l : listener W) (svc : InquiryService W) : InquiryService W :=
  mkInquiryService (inquiries svc) (listeners svc ++ [l]).

Definition GetData (svc : InquiryService W) (key : string) : outcome Inquiry :=
  match inquiries svc !! key with
  | Some i => Returns i
  | None => Throws ("inquiry not found for key: " +:+ key)
  end.

(** Reading through a reference. *)
Definition deref (data : reference) (svc : InquiryService W) : outcome Inquiry :=
  match data with
  | local i => Returns i
  | stored key =>
      match inquiries svc !! key with
      | Some i => Returns i
      | None => Undefined
      end
  end.

(** Writing through a reference into the store. *)
Definition update (key : string) (f : Inquiry -> Inquiry) (svc : InquiryService W)
    : InquiryService W :=
  mkInquiryService (alter f key (inquiries svc)) (listeners svc).

(** [InquiryConnector<T>::Publish], called by [SendQuote] on the stored
    element; [onMessage] is [InquiryService<T>::OnMessage]. *)
Definition Publish
    (onMessage : reference -> InquiryService W * W -> outcome (InquiryService W * W))
    (key : string) (st : InquiryService W * W) : outcome (InquiryService W * W) :=
  data ← deref (stored key) st.1;
  let _state := GetState data in
  match _state with
  | RECEIVED =>
      st1 ← onMessage (stored key) (update key (SetState QUOTED) st.1, st.2);
      onMessage (stored key) (update key (SetState DONE) st1.1, st1.2)
  | _ => Returns st
  end.

Definition SendQuote
    (onMessage : reference -> InquiryService W * W -> outcome (InquiryService W * W))
    (inquiryId : string) (price : double) (st : InquiryService W * W)
    : outcome (InquiryService W * W) :=
  _ ← GetData st.1 inquiryId;
  Publish onMessage inquiryId (update inquiryId (SetPrice price) st.1, st.2).

(** [InquiryListener<T>::ProcessAdd] *)
Definition ProcessAdd
    (onMessage : reference -> InquiryService W * W -> outcome (InquiryService W * W))
    (data : Inquiry) (st : InquiryService W * W) : outcome (InquiryService W * W) :=
  let state := GetState data in
  match state with
  | RECEIVED => SendQuote onMessage (GetInquiryId data) (of_Q 100) st
  | _ => Returns st
  end.

(** The notification loop of [OnMessage]; [data] is read again for every
    listener, as each receives the reference. *)
Fixpoint notify_all
    (onMessage : reference -> InquiryService W * W -> outcome (InquiryService W * W))
    (ls : list (listener W)) (data : reference) (st : InquiryService W * W)
    : outcome (InquiryService W * W) :=
  match ls with
  | [] => Returns st
  | lstn :: rest =>
      seen ← deref data st.1;
      st' ← match lstn with
            | inqlstn => ProcessAdd onMessage seen st
            | external l => w' ← l seen st.2; Returns (st.1, w')
            end;
      notify_all onMessage rest data st'
  end.

(** [InquiryService<T>::OnMessage] *)
Fixpoint OnMessage (fuel : nat) (data : reference) (st : InquiryService W * W)
    : outcome (InquiryService W * W) :=
  match fuel with
  | O => OutOfFuel
  | S fuel' =>
      seen ← deref data st.1;
      let inquiryId := GetInquiryId seen in
      let svc' := mkInquiryService (<[inquiryId := seen]> (inquiries st.1)) (listeners st.1) in
      notify_all (OnMessage fuel') (listeners svc') data (svc', st.2)
  end.

(** [InquiryService<T>::RejectInquiry] *)
Definition RejectInquiry (inquiryId : string) (st : InquiryService W * W)
    : outcome (InquiryService W * W) :=
  _ ← GetData st.1 inquiryId;
  Returns (update inquiryId (SetState REJECTED) st.1, st.2).

End Service.

End Inquiry.


(** ** pricingservice.hpp *)

Module Pricing.

(** [Price<T>] refers to its product by reference; within the call chain
    that delivers a price the referent is alive, and the price is carried
    by value. *)
Record Price : Type := mkPrice {
  GetProduct : Bond;
  GetMid : double;
  GetBidOfferSpread : double
}.

Definition GuiOut (price : Price) : list string :=
  let productID := GetProductId (GetProduct price) in
  let midPrice := Utils.FormatPrice (GetMid price) in
  let spread := Utils.FormatPrice (GetBidOfferSpread price) in
  [productID; midPrice; spread].

(** [Price::operator=]: the mid and the spread are copied, the product
    stays. *)
Definition assign (this other : Price) : Price :=
  mkPrice (GetProduct this) (GetMid other) (GetBidOfferSpread other).

Record PricingService (W : Type) : Type := mkPricingService {
  prices : gmap string Price;
  listeners : list (ServiceListener Price W)
}.

Arguments mkPricingService {W}.
Arguments prices {W}.
Arguments listeners {W}.

Section Service.
Context {W : Type}.

Definition new_PricingService (ls : list (ServiceListener Price W)) : PricingService W :=
  mkPricingService ∅ ls.

Definition GetData (svc : PricingService W) (key : string) : outcome Price :=
  match prices svc !! key with
  | Some p => Returns p
  | None => Throws ("Price not found for key: " +:+ key)
  end.

Definition OnMessage (data : Price) (svc : PricingService W) (w : W)
    : outcome (PricingService W * W) :=
  let productId := GetProductId (GetProduct data) in
  let store :=
    match prices svc !! productId with
    | Some held =>
        <[productId :=
            assign held (mkPrice (GetProduct data) (GetMid data) (GetBidOfferSpread data))]>
          (prices svc)
    | None => <[productId := data]> (prices svc)
    end in
  w' ← notify (listeners svc) data w;
  Returns (mkPricingService store (listeners svc), w').

(** [Bond()], see [Utils.GetBond]. *)
Variable default_bond : Bond.

(** [PricingConnector<T>::ProcessCells] on the cells of a line, the two
    prices already converted by [ConvertBondPrice]. *)
Definition ProcessCells (_productId : string) (bid ask : double)
    (svc : PricingService W) (w : W) : outcome (PricingService W * W) :=
  let mid := ((bid + ask) / of_Q 2)%Qc in
  let spread := (ask - bid)%Qc in
  let _product := Utils.GetBond default_bond _productId in
  let _price := mkPrice _product mid spread in
  OnMessage _price svc w.

Fixpoint Subscribe (lines : list (string * double * double))
    (svc : PricingService W) (w : W) : outcome (PricingService W * W) :=
  match lines with
  | [] => Returns (svc, w)
  | (_productId, bid, ask) :: rest =>
      '(svc', w') ← ProcessCells _productId bid ask svc w;
      Subscribe rest svc' w'
  end.

End Service.

End Pricing.

(** ** streamingservice.hpp *)

Module Streaming.

Record PriceStreamOrder : Type := mkPriceStreamOrder {
  GetPrice : double;
  GetVisibleQuantity : Z;
  GetHiddenQuantity : Z;
  GetSide : MarketData.PricingSide
}.

Record PriceStream : Type := mkPriceStream {
  GetProduct : Bond;
  GetBidOrder : PriceStreamOrder;
  GetOfferOrder : PriceStreamOrder
}.

Definition side_name (side : MarketData.PricingSide) : string :=
  match side with MarketData.BID => "BID" | MarketData.OFFER => "OFFER" end.

Definition HDFormat (stream : PriceStream) : list string :=
  let bidOrder := GetBidOrder stream in
  let offerOrder := GetOfferOrder stream in
  [Utils.FormatPrice (GetPrice bidOrder);
   Utils.to_string (GetVisibleQuantity bidOrder);
   Utils.to_string (GetHiddenQuantity bidOrder);
   side_name (GetSide bidOrder);
   Utils.FormatPrice (GetPrice offerOrder);
   Utils.to_string (GetVisibleQuantity offerOrder);
   Utils.to_string (GetHiddenQuantity offerOrder);
   side_name (GetSide offerOrder)].

Record StreamingService (W : Type) : Type := mkStreamingService {
  pStreams : gmap string PriceStream;
  listeners : list (ServiceListener PriceStream W)
}.

Arguments mkStreamingService {W}.
Arguments pStreams {W}.
Arguments listeners {W}.

Section Service.
Context {W : Type}.

Definition new_StreamingService (ls : list (ServiceListener PriceStream W))
    : StreamingService W :=
  mkStreamingService ∅ ls.

Definition GetData (svc : StreamingService W) (key : string) : outcome PriceStream :=
  match pStreams svc !! key with
  | Some p => Returns p
  | None => Throws ("PriceStream not found for key: " +:+ key)
  end.

Definition PublishPrice (_priceStream : PriceStream) (svc : StreamingService W) (w : W)
    : outcome (StreamingService W * W) :=
  w' ← notify (listeners svc) _priceStream w;
  Returns (svc, w').

Definition OnMessage (data : PriceStream) (svc : StreamingService W) (w : W)
    : outcome (StreamingService W * W) :=
  let productId := GetProductId (GetProduct data) in
  let svc' := mkStreamingService (<[productId := data]> (pStreams svc)) (listeners svc) in
  PublishPrice data svc' w.

End Service.

End Streaming.

(** ** algostreamingservice.hpp *)

Module AlgoStreaming.

Import MarketData.

(** [AlgoStream] holds a pointer to a [PriceStream] that is never written
    after its construction; it is carried by value. *)
Record AlgoStream : Type := mkAlgoStream {
  GetPriceStream : Streaming.PriceStream
}.

Definition new_AlgoStream (_product : Bond)
    (_bidOrder _offerOrder : Streaming.PriceStreamOrder) : AlgoStream :=
  mkAlgoStream (Streaming.mkPriceStream _product _bidOrder _offerOrder).

(** The store is named [as] in the source. *)
Record AlgoStreamingService (W : Type) : Type := mkAlgoStreamingService {
  as_ : gmap string AlgoStream;
  listeners : list (ServiceListener AlgoStream W);
  count : Z
}.

Arguments mkAlgoStreamingService {W}.
Arguments as_ {W}.
Arguments listeners {W}.
Arguments count {W}.

Section Service.
Context {W : Type}.

Definition new_AlgoStreamingService (ls : list (ServiceListener AlgoStream W))
    : AlgoStreamingService W :=
  mkAlgoStreamingService ∅ ls 0.

Definition GetData (svc : AlgoStreamingService W) (key : string) : outcome AlgoStream :=
  match as_ svc !! key with
  | Some a => Returns a
  | None => Throws ("Algostream not found for key: " +:+ key)
  end.

Definition OnMessage (data : AlgoStream) (svc : AlgoStreamingService W) (w : W)
    : outcome (AlgoStreamingService W * W) :=
  let productId := GetProductId (Streaming.GetProduct (GetPriceStream data)) in
  let svc' := mkAlgoStreamingService (<[productId := data]> (as_ svc))
                (listeners svc) (count svc) in
  w' ← notify (listeners svc) data w;
  Returns (svc', w').

(** [AlgoStreamingService<T>::PublishPrice]; the counter is incremented
    before [OnMessage] is called. *)
Definition PublishPrice (price : Pricing.Price) (svc : AlgoStreamingService W) (w : W)
    : outcome (AlgoStreamingService W * W) :=
  let product := Pricing.GetProduct price in
  let mid := Pricing.GetMid price in
  let bidOfferSpread := Pricing.GetBidOfferSpread price in
  let bidPrice := (mid - bidOfferSpread / of_Q 2)%Qc in
  let offerPrice := (mid + bidOfferSpread / of_Q 2)%Qc in
  let visibleQuantity := Long.mul (Long.add (Long.rem (count svc) 2) 1) 10000000 in
  let hiddenQuantity := Long.mul visibleQuantity 2 in
  let svc1 := mkAlgoStreamingService (as_ svc) (listeners svc) (Long.incr (count svc)) in
  let bidOrder := Streaming.mkPriceStreamOrder bidPrice visibleQuantity hiddenQuantity BID in
  let offerOrder :=
    Streaming.mkPriceStreamOrder offerPrice visibleQuantity hiddenQuantity OFFER in
  let algoStream := new_AlgoStream product bidOrder offerOrder in
  OnMessage algoStream svc1 w.

(** [PricingASListener<T>::ProcessAdd], registered with the pricing
    service. *)
Definition PricingASListener_ProcessAdd
    : ServiceListener Pricing.Price (AlgoStreamingService W * W) :=
  fun _data st => PublishPrice _data st.1 st.2.

End Service.

(** [ASStreamingListener<T>::ProcessAdd] of streamingservice.hpp,
    registered with this service. *)
Definition ASStreamingListener_ProcessAdd {W : Type}
    : ServiceListener AlgoStream (Streaming.StreamingService W * W) :=
  fun data st => Streaming.OnMessage (GetPriceStream data) st.1 st.2.

End AlgoStreaming.

(** ** GUIService.hpp *)

Module GUI.

(** The GUI service with its connector.  [file] is the content appended
    to the output file, one string per write. *)
Record GUIService (W : Type) : Type := mkGUIService {
  guis : gmap string Pricing.Price;
  listeners : list (ServiceListener Pricing.Price W);
  throttle : Z;
  millisec : Z;
  lastPublishTimeMillisec : Z;
  file : list string
}.

Arguments mkGUIService {W}.
Arguments guis {W}.
Arguments listeners {W}.
Arguments throttle {W}.
Arguments millisec {W}.
Arguments lastPublishTimeMillisec {W}.
Arguments file {W}.

(** What the clock gives when [Publish] asks: [GetCurrentTimeMillis()]
    and, if a line is written, [CurrentDateTimeWithMillis()]. *)
Record Clock : Type := mkClock {
  currentTime : Z;
  stamp : string
}.

Definition newline : string := String (Ascii.ascii_of_nat 10) EmptyString.

Section Service.
Context {W : Type}.

Definition new_GUIService (ls : list (ServiceListener Pricing.Price W)) : GUIService W :=
  mkGUIService ∅ ls 300 0 0 [].

(** The text of one write. *)
Definition output_line (stamp : string) (data : Pricing.Price) : string :=
  foldl (fun output s => output +:+ s +:+ ",") (stamp +:+ ",") (Pricing.GuiOut data)
    +:+ newline.

(** [GUIConnector<T>::Publish] (the output file opens). *)
Definition Publish (clock : Clock) (data : Pricing.Price) (gui : GUIService W)
    : GUIService W :=
  let throttle := throttle gui in
  let currentTime := currentTime clock in
  if Z.leb throttle (Long.sub currentTime (lastPublishTimeMillisec gui)) then
    mkGUIService (guis gui) (listeners gui) (GUI.throttle gui) (millisec gui)
      currentTime (file gui ++ [output_line (stamp clock) data])
  else gui.

Definition OnMessage (clock : Clock) (data : Pricing.Price) (gui : GUIService W) (w : W)
    : outcome (GUIService W * W) :=
  let productId := GetProductId (Pricing.GetProduct data) in
  let store :=
    match guis gui !! productId with
    | Some held => <[productId := Pricing.assign held data]> (guis gui)
    | None => <[productId := data]> (guis gui)
    end in
  let gui1 := mkGUIService store (listeners gui)
                (throttle gui) (millisec gui) (lastPublishTimeMillisec gui) (file gui) in
  let gui2 := Publish clock data gui1 in
  w' ← notify (listeners gui) data w;
  Returns (gui2, w').

End Service.

End GUI.

(** ** historicaldataservice.hpp *)

Module HistoricalData.

Inductive ServiceType : Type := POSITION | RISK | EXECUTION | STREAMING | INQUIRY | DEFAULT.

(** What the template asks of its data type [T]: [GetProduct()] and
    [HDFormat()]. *)
Class Persisted (T : Type) : Type := {
  GetProduct : T -> Bond;
  HDFormat : T -> list string
}.

#[global] Instance Inquiry_Persisted : Persisted Inquiry.Inquiry := {|
  GetProduct := Inquiry.GetProduct;
  HDFormat := Inquiry.HDFormat
|}.

(** The service with its connector.  [file] is the content appended to
    the connector's output file, one string per line written; [readings]
    counts the calls of [CurrentDateTimeWithMillis] made so far.  The
    listener list of the service is never read by [OnMessage] and is left
    out. *)
Record HistoricalDataService (T : Type) : Type := mkHistoricalDataService {
  hd : gmap string T;
  type : ServiceType;
  file : list string;
  readings : nat
}.

Arguments mkHistoricalDataService {T}.
Arguments hd {T}.
Arguments type {T}.
Arguments file {T}.
Arguments readings {T}.

Definition filePathMap (_type : ServiceType) : option string :=
  match _type with
  | POSITION => Some "../data/out/positions.txt"
  | RISK => Some "../data/out/risk.txt"
  | EXECUTION => Some "../data/out/executions.txt"
  | STREAMING => Some "../data/out/streaming.txt"
  | INQUIRY => Some "../data/out/allinquiries.txt"
  | DEFAULT => None
  end.

Section Service.
Context {T : Type} `{Persisted T}.

(** What [CurrentDateTimeWithMillis()] returns at its n-th call. *)
Variable CurrentDateTimeWithMillis : nat -> string.

Definition new_HistoricalDataService (_type : ServiceType) : HistoricalDataService T :=
  mkHistoricalDataService ∅ _type [] 0.

Definition GetData (svc : HistoricalDataService T) (key : string) : outcome T :=
  match hd svc !! key with
  | Some d => Returns d
  | None => Throws ("Historical data not found for key: " +:+ key)
  end.

Definition OnMessage (data : T) (svc : HistoricalDataService T) : HistoricalDataService T :=
  let productId := GetProductId (GetProduct data) in
  mkHistoricalDataService (<[productId := data]> (hd svc)) (type svc) (file svc) (readings svc).

(** The text of one line. *)
Definition record_line (stamp : string) (_strings : list string) : string :=
  foldl (fun out s => out +:+ s +:+ ",") (stamp +:+ ",") _strings +:+ GUI.newline.

(** [HistoricalDataConnector<T>::Publish] (the output file opens). *)
Definition Publish (data : T) (svc : HistoricalDataService T) : HistoricalDataService T :=
  let _type := type svc in
  match filePathMap _type with
  | Some filePath =>
      mkHistoricalDataService (hd svc) (type svc)
        (file svc ++ [record_line (CurrentDateTimeWithMillis (readings svc)) (HDFormat data)])
        (S (readings svc))
  | None => svc
  end.

Definition PersistData (persistKey : string) (data : T) (svc : HistoricalDataService T)
    : HistoricalDataService T :=
  Publish data (OnMessage data svc).

(** [HistoricalDataListener<T>::ProcessAdd] *)
Definition HistoricalDataListener_ProcessAdd : ServiceListener T (HistoricalDataService T) :=
  fun data svc =>
    let _persistKey := GetProductId (GetProduct data) in
    Returns (PersistData _persistKey data svc).

End Service.

End HistoricalData.

(** * Vocabulary of the statements *)

(** Successive invocations of a function that owns a static object:
    the slot is threaded from one call to the next within a run. *)
Fixpoint later_calls {A B : Type} (call : A -> option B -> outcome (B * option B))
    (args : list A) (slot : option B) : outcome (list B) :=
  match args with
  | [] => Returns []
  | a :: rest =>
      '(v, slot') ← call a slot;
      vs ← later_calls call rest slot';
      Returns (v :: vs)
  end.

(** The scan both best-price loops perform, over the comparison used. *)
Fixpoint scan (better : double -> double -> bool) (best : MarketData.Order)
    (stack : list MarketData.Order) : MarketData.Order :=
  match stack with
  | [] => best
  | o :: rest =>
      scan better
        (if better (MarketData.GetPrice o) (MarketData.GetPrice best) then o else best) rest
  end.

(** [best] is the first order of [stack] whose price no other beats:
    it sits at some index [k], nothing in the stack is better, and
    everything before [k] is strictly worse. *)
Definition first_best (better : double -> double -> bool)
    (stack : list MarketData.Order) (best : MarketData.Order) : Prop :=
  exists k : nat,
    stack !! k = Some best /\
    (forall (j : nat) (o : MarketData.Order), stack !! j = Some o ->
       better (MarketData.GetPrice o) (MarketData.GetPrice best) = false) /\
    (forall (j : nat) (o : MarketData.Order), (j < k)%nat -> stack !! j = Some o ->
       better (MarketData.GetPrice best) (MarketData.GetPrice o) = true).

(** A listener that records what it is handed. *)
Definition recorder {V : Type} : ServiceListener V (list V) :=
  fun data log => Returns (log ++ [data]).

(** Sample data, in the notation of the market data file: [99-16] is
    99 and 16/32, [99-16+] adds 1/64. *)
Definition US2Y : Bond := mkBond "91282CJL6" "US2Y".
Definition US3Y : Bond := mkBond "91282CJK8" "US3Y".

Definition price_99_16 : double := Utils.ConvertBondPrice_value 99 16 false.
Definition price_99_16_plus : double := Utils.ConvertBondPrice_value 99 16 true.
Definition price_99_17 : double := Utils.ConvertBondPrice_value 99 17 false.

(** Best bid 99-16, best offer 99-17: a spread of 1/32. *)
Definition book_wide : MarketData.OrderBook :=
  MarketData.mkOrderBook US2Y
    [MarketData.mkOrder price_99_16 1000000 MarketData.BID]
    [MarketData.mkOrder price_99_17 2000000 MarketData.OFFER].

(** Best bid and best offer both 99-16+: a spread of 0. *)
Definition book_tight : MarketData.OrderBook :=
  MarketData.mkOrderBook US3Y
    [MarketData.mkOrder price_99_16 3000000 MarketData.BID;
     MarketData.mkOrder price_99_16_plus 4000000 MarketData.BID]
    [MarketData.mkOrder price_99_17 5000000 MarketData.OFFER;
     MarketData.mkOrder price_99_16_plus 6000000 MarketData.OFFER].

(** A book whose ten lines were all offers: the bid stack is empty. *)
Definition book_no_bids : MarketData.OrderBook :=
  MarketData.mkOrderBook US2Y [] [MarketData.mkOrder price_99_17 2000000 MarketData.OFFER].

Definition market_with (books : list MarketData.OrderBook) : MarketData.MarketDataService unit :=
  MarketData.mkMarketDataService
    (list_to_map ((fun b => (GetProductId (MarketData.GetProduct b), b)) <$> books)) [] 5.

(** The (price, quantity) pairs of one side of a book, as a set. *)
Definition levels (stack : list MarketData.Order) : gset (double * Z) :=
  list_to_set ((fun o => (MarketData.GetPrice o, MarketData.GetQuantity o)) <$> stack).

(** The execution engine as assembled for a run, with one listener that
    records the algo executions it is handed. *)
Definition engine : AlgoExecution.AlgoExecutionService (list AlgoExecution.AlgoExecution) :=
  AlgoExecution.new_AlgoExecutionService [recorder].

(** Execution orders handed one after the other to the booking listener. *)
Fixpoint process_all {W : Type} (orders : list Execution.ExecutionOrder)
    (lstn : TradeBooking.ExecutionBookingListener)
    (svc : TradeBooking.TradeBookingService W) (w : W)
    : outcome (TradeBooking.ExecutionBookingListener * TradeBooking.TradeBookingService W * W) :=
  match orders with
  | [] => Returns (lstn, svc, w)
  | data :: rest =>
      '(lstn', svc', w') ← TradeBooking.ProcessAdd data lstn svc w;
      process_all rest lstn' svc' w'
  end.

(** The signed quantity of a trade: [+quantity] for BUY, [-quantity] for
    SELL, as a mathematical integer. *)
Definition signed (t : TradeBooking.Trade) : Z :=
  match TradeBooking.GetSide t with
  | TradeBooking.BUY => TradeBooking.GetQuantity t
  | TradeBooking.SELL => - TradeBooking.GetQuantity t
  end.

(** The trade is for product [productId] on book [book]. *)
Definition on_book (productId book : string) (t : TradeBooking.Trade) : bool :=
  bool_decide (GetProductId (TradeBooking.GetProduct t) = productId /\
               TradeBooking.GetBook t = book).

Definition traded (productId book : string) (ts : list TradeBooking.Trade) : bool :=
  existsb (on_book productId book) ts.

(** Sum of the signed quantities of the trades of [ts] on that book. *)
Fixpoint book_sum (productId book : string) (ts : list TradeBooking.Trade) : Z :=
  match ts with
  | [] => 0
  | t :: rest =>
      (if on_book productId book t then signed t else 0) + book_sum productId book rest
  end.

Definition Zsum (l : list Z) : Z := foldr Z.add 0 l.

(** Sum of the book-level quantities of a position. *)
Definition book_total (position : Position.Position) : Z :=
  Zsum (map_to_list (Position.GetPositions position)).*2.

(** Trades handed one after the other to [PositionService::AddTrade]. *)
Fixpoint run_trades {W : Type} (ts : list TradeBooking.Trade)
    (svc : Position.PositionService W) (w : W) : outcome (Position.PositionService W * W) :=
  match ts with
  | [] => Returns (svc, w)
  | t :: rest => '(svc', w') ← Position.AddTrade t svc w; run_trades rest svc' w'
  end.

(** The position store after a sequence of trades. *)
Definition store_after (ts : list TradeBooking.Trade) (store : gmap string Position.Position)
    : gmap string Position.Position :=
  foldl (fun s t => (Position.AddTrade_store t s).2) store ts.

(** The quantity the store holds for a product on a book, if any. *)
Definition held (store : gmap string Position.Position) (productId book : string) : option Z :=
  store !! productId ≫= fun position => Position.GetPositions position !! book.

(** The quantity a trade adds to its book: [quantity] or [-quantity],
    the negation being taken in [long]. *)
Definition delta (t : TradeBooking.Trade) : Z :=
  match TradeBooking.GetSide t with
  | TradeBooking.BUY => TradeBooking.GetQuantity t
  | TradeBooking.SELL => Long.neg (TradeBooking.GetQuantity t)
  end.

(** The position service wired to the risk service, the risk service to
    one listener that records the PV01 values it is handed. *)
Definition risk_log : Type := list (Risk.PV01 Bond).

Definition position_to_risk : Position.PositionService (Risk.RiskService risk_log * risk_log) :=
  Position.new_PositionService [Risk.PositionRiskListner_ProcessAdd].

Definition risk_recorded : Risk.RiskService risk_log := Risk.new_RiskService [recorder].

(** Sum of the quantities of the orders of [stack] at price [p], and
    whether there is any. *)
Fixpoint level_sum (p : double) (stack : list MarketData.Order) : Z :=
  match stack with
  | [] => 0
  | o :: rest =>
      (if bool_decide (MarketData.GetPrice o = p) then MarketData.GetQuantity o else 0)
        + level_sum p rest
  end.

Definition quoted_at (p : double) (stack : list MarketData.Order) : bool :=
  existsb (fun o => bool_decide (MarketData.GetPrice o = p)) stack.

#[global] Instance PricingSide_eq_dec : EqDecision MarketData.PricingSide.
Proof. solve_decision. Defined.

(** The order book made of a batch of parsed lines: the product named by
    the last line, the bid lines and the offer lines in file order. *)
Definition book_of_batch (default : Bond) (batch : list MarketData.OrderData)
    : MarketData.OrderBook :=
  MarketData.mkOrderBook
    (Utils.GetBond default (from_option (fun d => d.1.1.1) "" (last batch)))
    (MarketData.CreateOrder <$> filter (fun d => d.2 = MarketData.BID) batch)
    (MarketData.CreateOrder <$> filter (fun d => d.2 = MarketData.OFFER) batch).

(** Order books delivered one after the other to the market data service. *)
Fixpoint publish_all {W : Type} (books : list MarketData.OrderBook)
    (mkt : MarketData.MarketDataService W) (w : W)
    : outcome (MarketData.MarketDataService W * W) :=
  match books with
  | [] => Returns (mkt, w)
  | book :: rest =>
      '(mkt', w') ← MarketData.OnMessage book mkt w; publish_all rest mkt' w'
  end.

(** The first [length l / n] consecutive groups of [n] elements of [l]. *)
Definition full_batches {A : Type} (n : nat) (l : list A) : list (list A) :=
  reshape (replicate (length l / n) n) l.

(** The trade is for product [productId], on whatever book. *)
Definition on_product (productId : string) (t : TradeBooking.Trade) : bool :=
  bool_decide (GetProductId (TradeBooking.GetProduct t) = productId).

(** Sum of the signed quantities of the trades of [ts] in that product. *)
Fixpoint product_sum (productId : string) (ts : list TradeBooking.Trade) : Z :=
  match ts with
  | [] => 0
  | t :: rest => (if on_product productId t then signed t else 0) + product_sum productId rest
  end.

(** Sum of the book-level quantities a store holds for a product. *)
Definition total_held (store : gmap string Position.Position) (productId : string) : Z :=
  from_option book_total 0 (store !! productId).

(** The execution leg of the system as [TradingSystem::Initialize] wires
    it, from the market data service down to the risk service (the
    history sinks, which only write files, are left out; the risk service
    has the recording listener in their place). *)
Definition risk_world : Type := Risk.RiskService risk_log * risk_log.
Definition position_world : Type := Position.PositionService risk_world * risk_world.
Definition booking_world : Type :=
  TradeBooking.ExecutionBookingListener * TradeBooking.TradeBookingService position_world
  * position_world.
Definition execution_world : Type := Execution.ExecutionService booking_world * booking_world.
Definition engine_world : Type :=
  option MarketData.BidOffer * AlgoExecution.AlgoExecutionService execution_world
  * execution_world.

Definition booking_to_position : TradeBooking.TradeBookingService position_world :=
  TradeBooking.new_TradeBookingService [Position.TradeBookingPosListener_ProcessAdd].

Definition execution_to_booking : Execution.ExecutionService booking_world :=
  Execution.mkExecutionService ∅ [TradeBooking.ExecutionBookingListener_ProcessAdd].

Definition engine_to_execution : AlgoExecution.AlgoExecutionService execution_world :=
  AlgoExecution.new_AlgoExecutionService [AlgoExecution.AlgoExeExecutionListener_ProcessAdd].

Definition market_to_engine (orderId : string) : MarketData.MarketDataService engine_world :=
  MarketData.new_MarketDataService [AlgoExecution.MDAlgoListener_ProcessAdd orderId].


(** Prices delivered one after the other to the GUI service, each with
    what the clock reads during its call. *)
Fixpoint gui_run {W : Type} (events : list (GUI.Clock * Pricing.Price))
    (gui : GUI.GUIService W) (w : W) : outcome (GUI.GUIService W * W) :=
  match events with
  | [] => Returns (gui, w)
  | (clock, data) :: rest =>
      '(gui', w') ← GUI.OnMessage clock data gui w; gui_run rest gui' w'
  end.

(** The quantity [AlgoStreamingService::PublishPrice] shows for the
    update counted [count]. *)
Definition shown (count : Z) : Z := if Z.even count then 10000000 else 20000000.

(** A line of the price file as [PricingConnector] reads it: the product
    id and the fields of the bid and of the ask price string. *)
Definition price_line : Type := string * (Z * Z * bool) * (Z * Z * bool).

Definition quote (fields : Z * Z * bool) : double :=
  Utils.ConvertBondPrice_value fields.1.1 fields.1.2 fields.2.

Definition price_cells (line : price_line) : string * double * double :=
  (line.1.1, quote line.1.2, quote line.2).

(** The two-sided stream for a price line, both orders showing
    [shown count] with twice as much hidden. *)
Definition stream_of (default : Bond) (count : Z) (line : price_line) : Streaming.PriceStream :=
  Streaming.mkPriceStream (Utils.GetBond default line.1.1)
    (Streaming.mkPriceStreamOrder (quote line.1.2) (shown count) (2 * shown count)
       MarketData.BID)
    (Streaming.mkPriceStreamOrder (quote line.2) (shown count) (2 * shown count)
       MarketData.OFFER).

(** The streams of consecutive lines, the first one counted [count]. *)
Fixpoint streams_of (default : Bond) (count : Z) (lines : list price_line)
    : list Streaming.PriceStream :=
  match lines with
  | [] => []
  | line :: rest => stream_of default count line :: streams_of default (count + 1) rest
  end.

(** Values handed one after the other to a list of listeners. *)
Fixpoint deliver {V W : Type} (ls : list (ServiceListener V W)) (items : list V) (w : W)
    : outcome W :=
  match items with
  | [] => Returns w
  | item :: rest => w' ← notify ls item w; deliver ls rest w'
  end.

(** A keyed store after the streams were stored in order. *)
Definition stored_streams (streams : list Streaming.PriceStream)
    (store : gmap string Streaming.PriceStream) : gmap string Streaming.PriceStream :=
  foldl (fun m s => <[GetProductId (Streaming.GetProduct s) := s]> m) store streams.

Definition stored_algo_streams (streams : list Streaming.PriceStream)
    (store : gmap string AlgoStreaming.AlgoStream) : gmap string AlgoStreaming.AlgoStream :=
  foldl (fun m s => <[GetProductId (Streaming.GetProduct s) := AlgoStreaming.mkAlgoStream s]> m)
    store streams.

(** The bid and the offer orders of the lines read so far, in file order. *)
Definition bids_of (pending : list MarketData.OrderData) : list MarketData.Order :=
  MarketData.CreateOrder <$> filter (fun d => d.2 = MarketData.BID) pending.

Definition offers_of (pending : list MarketData.OrderData) : list MarketData.Order :=
  MarketData.CreateOrder <$> filter (fun d => d.2 = MarketData.OFFER) pending.

(** Sum of the values of a map of quantities. *)
Definition map_total (m : gmap string Z) : Z := Zsum (map_to_list m).*2.


(** Both stacks of the book have an order. *)
Definition two_sided (book : MarketData.OrderBook) : Prop :=
  MarketData.GetBidStack book <> [] /\ MarketData.GetOfferStack book <> [].

(** A price [ConvertBondPrice] can return: built from two [int] fields and
    the optional [+]. *)
Definition bond_price (p : double) : Prop :=
  exists (whole thirtySecond : Z) (plus : bool),
    Int.in_range whole /\ Int.in_range thirtySecond /\
    p = Utils.ConvertBondPrice_value whole thirtySecond plus.

(** The system when the market data file is opened.  The trade file has
    been read before, so the trade, position and risk stores hold what it
    left ([trades], [store], [pvs], and [log] with the recording
    listener); nothing has been executed yet. *)
Definition before_market_data (trades : gmap string TradeBooking.Trade)
    (store : gmap string Position.Position) (pvs : gmap string (Risk.PV01 Bond))
    (log : risk_log) : engine_world :=
  (None, engine_to_execution,
   (execution_to_booking,
    (TradeBooking.new_ExecutionBookingListener,
     TradeBooking.mkTradeBookingService trades [Position.TradeBookingPosListener_ProcessAdd],
     (Position.mkPositionService store [Risk.PositionRiskListner_ProcessAdd],
      (Risk.mkRiskService pvs [recorder], log))))).
(** * Properties *)

(** ** Machine integers and doubles *)

Section LongFacts.

Lemma wrap_in_range (z : Z) : Long.in_range z -> Long.wrap z = z.
Proof.
  unfold Long.in_range, Long.LONG_MIN, Long.LONG_MAX, Long.wrap. intros Hz.
  rewrite Z.mod_small; lia.
Qed.

Lemma wrap_range (z : Z) : Long.in_range (Long.wrap z).
Proof.
  unfold Long.in_range, Long.LONG_MIN, Long.LONG_MAX, Long.wrap.
  pose proof (Z.mod_pos_bound (z + 2 ^ 63) (2 ^ 64)). lia.
Qed.

Lemma wrap_wrap (z : Z) : Long.wrap (Long.wrap z) = Long.wrap z.
Proof. apply wrap_in_range, wrap_range. Qed.

Lemma wrap_add_l (a b : Z) : Long.wrap (Long.wrap a + b) = Long.wrap (a + b).
Proof.
  unfold Long.wrap. f_equal.
  replace ((a + 2 ^ 63) mod 2 ^ 64 - 2 ^ 63 + b + 2 ^ 63)
    with ((a + 2 ^ 63) mod 2 ^ 64 + b) by lia.
  rewrite Zplus_mod_idemp_l. f_equal. lia.
Qed.

Lemma wrap_add_r (a b : Z) : Long.wrap (a + Long.wrap b) = Long.wrap (a + b).
Proof. rewrite (Z.add_comm a), wrap_add_l. f_equal. lia. Qed.

Lemma add_in_range (a b : Z) : Long.in_range (a + b) -> Long.add a b = a + b.
Proof. apply wrap_in_range. Qed.

Lemma incr_in_range (a : Z) : 0 <= a < Long.LONG_MAX -> Long.incr a = a + 1.
Proof.
  intros Ha. apply add_in_range.
  unfold Long.in_range, Long.LONG_MIN, Long.LONG_MAX in *. lia.
Qed.

End LongFacts.

Section DoubleFacts.

Lemma gt_true (a b : double) : gt a b = true <-> (b < a)%Qc.
Proof. unfold gt. apply bool_decide_eq_true. Qed.

Lemma gt_false (a b : double) : gt a b = false <-> (a <= b)%Qc.
Proof.
  unfold gt. rewrite bool_decide_eq_false. split.
  - apply Qcnot_lt_le.
  - apply Qcle_not_lt.
Qed.

Lemma lt_true (a b : double) : lt a b = true <-> (a < b)%Qc.
Proof. unfold lt. apply bool_decide_eq_true. Qed.

Lemma lt_false (a b : double) : lt a b = false <-> (b <= a)%Qc.
Proof.
  unfold lt. rewrite bool_decide_eq_false. split.
  - apply Qcnot_lt_le.
  - apply Qcle_not_lt.
Qed.

(** Up to 2^53 in magnitude the conversion is exact. *)
Lemma nearest_double_exact (z : Z) : Z.abs z <= 2 ^ 53 -> nearest_double z = z.
Proof. intros Hz. unfold nearest_double. by rewrite (proj2 (Z.leb_le _ _) Hz). Qed.

Lemma Qred_inject_Z (z : Z) : Qred (inject_Z z) = inject_Z z.
Proof.
  unfold inject_Z, Qred. simpl.
  pose proof (Z.ggcd_gcd z 1) as Hg. pose proof (Z.ggcd_correct_divisors z 1) as Hd.
  rewrite Z.gcd_1_r in Hg.
  destruct (Z.ggcd z 1) as [g [aa bb]]. simpl in *. subst g.
  destruct Hd as [Ha Hb]. f_equal; [lia |].
  assert (bb = 1) by lia. subst bb. reflexivity.
Qed.

(** What comes back from a [double] field that was given a [long]. *)
Lemma to_long_of_long_rounded (z : Z) : to_long (of_long z) = Long.wrap (nearest_double z).
Proof.
  unfold to_long, of_long. simpl. rewrite Qred_inject_Z. simpl. by rewrite Z.quot_1_r.
Qed.

(** A [long] of at most 53 bits survives the trip through a [double]
    field. *)
Lemma to_long_of_long (z : Z) : Z.abs z <= 2 ^ 53 -> to_long (of_long z) = z.
Proof.
  intros Hz. rewrite to_long_of_long_rounded, nearest_double_exact by done.
  apply wrap_in_range. unfold Long.in_range, Long.LONG_MIN, Long.LONG_MAX. lia.
Qed.

(** Beyond 53 bits it need not: 2^53 + 1 comes back as 2^53. *)
Example to_long_of_long_rounds :
  to_long (of_long (2 ^ 53 + 1)) = 2 ^ 53 /\ to_long (of_long (2 ^ 53 + 3)) = 2 ^ 53 + 4.
Proof. rewrite !to_long_of_long_rounded. split; vm_compute; reflexivity. Qed.

End DoubleFacts.

(** ** Order books: best bid and offer *)

Section Scan.

Import MarketData.

Variable better : double -> double -> bool.
Hypothesis better_irrefl : forall a, better a a = false.
Hypothesis better_step : forall a b c,
  better a b = false -> better c b = true -> better a c = false /\ better c a = true.

Lemma scan_first_best (rest seen : list Order) (best : Order) (i : nat) :
  seen !! i = Some best ->
  (forall j o, seen !! j = Some o -> better (GetPrice o) (GetPrice best) = false) ->
  (forall j o, (j < i)%nat -> seen !! j = Some o ->
     better (GetPrice best) (GetPrice o) = true) ->
  first_best better (seen ++ rest) (scan better best rest).
Proof.
  revert seen best i.
  induction rest as [|o rest IH]; intros seen best i Hi Hall Hbefore.
  - rewrite app_nil_r. exists i. auto.
  - simpl. rewrite cons_middle, app_assoc.
    destruct (better (GetPrice o) (GetPrice best)) eqn:Hcmp.
    + apply (IH (seen ++ [o]) o (length seen)).
      * by rewrite lookup_app_r, Nat.sub_diag.
      * intros j o' Hj. apply lookup_app_Some in Hj as [Hj | [_ Hj]].
        -- by apply (better_step _ (GetPrice best)); [eapply Hall |].
        -- apply list_lookup_singleton_Some in Hj as [_ <-]. apply better_irrefl.
      * intros j o' Hlt Hj. rewrite lookup_app_l in Hj by done.
        by apply (better_step _ (GetPrice best)); [eapply Hall |].
    + apply lookup_lt_Some in Hi as Hlen.
      apply (IH (seen ++ [o]) best i).
      * by rewrite lookup_app_l.
      * intros j o' Hj. apply lookup_app_Some in Hj as [Hj | [_ Hj]].
        -- by eapply Hall.
        -- by apply list_lookup_singleton_Some in Hj as [_ <-].
      * intros j o' Hlt Hj. rewrite lookup_app_l in Hj by lia. by eapply Hbefore.
Qed.

(** Started on the front element, as both functions do. *)
Lemma scan_from_front (front : Order) (tail : list Order) :
  first_best better (front :: tail) (scan better front (front :: tail)).
Proof.
  simpl. rewrite better_irrefl.
  apply (scan_first_best tail [front] front 0%nat).
  - done.
  - intros [|j] o Hj; simplify_eq/=. apply better_irrefl.
  - intros; lia.
Qed.

End Scan.

Section BestBidOffer.

Import MarketData.

Lemma highest_bid_scan (best : Order) (bids : list Order) :
  highest_bid best bids = scan gt best bids.
Proof. revert best. induction bids as [|b bids IH]; intros best; simpl; auto. Qed.

Lemma lowest_offer_scan (best : Order) (asks : list Order) :
  lowest_offer best asks = scan lt best asks.
Proof. revert best. induction asks as [|a asks IH]; intros best; simpl; auto. Qed.

Lemma gt_irrefl (a : double) : gt a a = false.
Proof. apply gt_false, Qcle_refl. Qed.

Lemma lt_irrefl (a : double) : lt a a = false.
Proof. apply lt_false, Qcle_refl. Qed.

Lemma gt_step (a b c : double) :
  gt a b = false -> gt c b = true -> gt a c = false /\ gt c a = true.
Proof.
  rewrite gt_false, !gt_true, gt_false. intros Hab Hbc. split.
  - apply Qclt_le_weak. by eapply Qcle_lt_trans.
  - by eapply Qcle_lt_trans.
Qed.

Lemma lt_step (a b c : double) :
  lt a b = false -> lt c b = true -> lt a c = false /\ lt c a = true.
Proof.
  rewrite lt_false, !lt_true, lt_false. intros Hab Hbc. split.
  - apply Qclt_le_weak. by eapply Qclt_le_trans.
  - by eapply Qclt_le_trans.
Qed.

(** What the two loops compute on non-empty stacks. *)
Lemma highest_bid_first_best (front : Order) (tail : list Order) :
  first_best gt (front :: tail) (highest_bid front (front :: tail)).
Proof. rewrite highest_bid_scan. apply scan_from_front; [apply gt_irrefl | apply gt_step]. Qed.

Lemma lowest_offer_first_best (front : Order) (tail : list Order) :
  first_best lt (front :: tail) (lowest_offer front (front :: tail)).
Proof. rewrite lowest_offer_scan. apply scan_from_front; [apply lt_irrefl | apply lt_step]. Qed.

(** In terms of prices: the best bid is a maximum, first among equals. *)
Lemma first_best_gt_max (stack : list Order) (best : Order) :
  first_best gt stack best ->
  best ∈ stack /\ forall o, o ∈ stack -> (GetPrice o <= GetPrice best)%Qc.
Proof.
  intros (k & Hk & Hall & _). split.
  - apply list_elem_of_lookup. eauto.
  - intros o [j Hj]%list_elem_of_lookup. apply gt_false. eauto.
Qed.

Lemma first_best_lt_min (stack : list Order) (best : Order) :
  first_best lt stack best ->
  best ∈ stack /\ forall o, o ∈ stack -> (GetPrice best <= GetPrice o)%Qc.
Proof.
  intros (k & Hk & Hall & _). split.
  - apply list_elem_of_lookup. eauto.
  - intros o [j Hj]%list_elem_of_lookup. apply lt_false. eauto.
Qed.

(** The first pass through [GetBidAsk] in a run (the static object is
    not yet constructed) returns the best bid and offer of its book. *)
Lemma GetBidAsk_first_call (book : OrderBook) (front_bid front_ask : Order)
    (bids asks : list Order) :
  GetBidStack book = front_bid :: bids ->
  GetOfferStack book = front_ask :: asks ->
  exists bo : BidOffer,
    GetBidAsk book None = Returns (bo, Some bo) /\
    first_best gt (GetBidStack book) (GetBidOrder bo) /\
    first_best lt (GetOfferStack book) (GetOfferOrder bo).
Proof.
  intros Hb Ha. unfold GetBidAsk. rewrite Hb, Ha.
  eexists. split; [reflexivity |]. simpl. split.
  - apply highest_bid_first_best.
  - apply lowest_offer_first_best.
Qed.

Lemma GetBestBidOffer_first_call {W : Type} (svc : MarketDataService W) (productId : string)
    (book : OrderBook) (front_bid front_ask : Order) (bids asks : list Order) :
  orderBooks svc !! productId = Some book ->
  GetBidStack book = front_bid :: bids ->
  GetOfferStack book = front_ask :: asks ->
  exists bo : BidOffer,
    GetBestBidOffer svc productId None = Returns (bo, Some bo) /\
    first_best gt (GetBidStack book) (GetBidOrder bo) /\
    first_best lt (GetOfferStack book) (GetOfferOrder bo).
Proof.
  intros Hs Hb Ha. unfold GetBestBidOffer. rewrite Hs, Hb, Ha.
  eexists. split; [reflexivity |]. simpl. split.
  - apply highest_bid_first_best.
  - apply lowest_offer_first_best.
Qed.

(** Once the static object exists, a call that returns hands it back. *)
Lemma GetBidAsk_later_call (book : OrderBook) (v r : BidOffer) (slot : option BidOffer) :
  GetBidAsk book (Some v) = Returns (r, slot) -> r = v /\ slot = Some v.
Proof.
  unfold GetBidAsk. destruct (GetBidStack book), (GetOfferStack book); simpl; try done.
  intros [= <- <-]. done.
Qed.

Lemma GetBestBidOffer_later_call {W : Type} (svc : MarketDataService W) (productId : string)
    (v r : BidOffer) (slot : option BidOffer) :
  GetBestBidOffer svc productId (Some v) = Returns (r, slot) -> r = v /\ slot = Some v.
Proof.
  unfold GetBestBidOffer. destruct (orderBooks svc !! productId) as [book|]; [|done].
  destruct (GetBidStack book), (GetOfferStack book); simpl; try done.
  intros [= <- <-]. done.
Qed.

Lemma AggregateDepth_later_call {W : Type} (iteration : gmap double Z -> list (double * Z))
    (svc : MarketDataService W) (productId : string) (v r : OrderBook)
    (slot : option OrderBook) :
  AggregateDepth iteration svc productId (Some v) = Returns (r, slot) ->
  r = v /\ slot = Some v.
Proof.
  unfold AggregateDepth. destruct (orderBooks svc !! productId) as [book|]; [|done].
  simpl. intros [= <- <-]. done.
Qed.

(** Any number of later calls: whatever they return is the first value. *)
Lemma later_calls_static {A B : Type} (call : A -> option B -> outcome (B * option B))
    (v : B) :
  (forall a r slot, call a (Some v) = Returns (r, slot) -> r = v /\ slot = Some v) ->
  forall (args : list A) (vs : list B),
    later_calls call args (Some v) = Returns vs -> Forall (fun r => r = v) vs.
Proof.
  intros Hcall args. induction args as [|a args IH]; intros vs; simpl.
  - intros [= <-]. constructor.
  - destruct (call a (Some v)) as [[r slot]| | |] eqn:Hc; simpl; try done.
    apply Hcall in Hc as [-> ->].
    destruct (later_calls call args (Some v)) as [vs'| | |] eqn:Hl; simpl; try done.
    intros [= <-]. constructor; auto.
Qed.

(** Later calls that each return the static object return it every
    time. *)
Lemma later_calls_returns {A B : Type} (call : A -> option B -> outcome (B * option B))
    (v : B) (args : list A) :
  Forall (fun a => call a (Some v) = Returns (v, Some v)) args ->
  later_calls call args (Some v) = Returns (replicate (length args) v).
Proof.
  induction 1 as [|a args Ha _ IH]; simpl; [done |]. rewrite Ha. simpl. by rewrite IH.
Qed.

(** With the static object constructed, a call on a two-sided book hands
    it back. *)
Lemma GetBidAsk_static (book : OrderBook) (v : BidOffer) :
  two_sided book -> GetBidAsk book (Some v) = Returns (v, Some v).
Proof.
  intros [Hb Ha]. unfold GetBidAsk.
  destruct (GetBidStack book), (GetOfferStack book); done.
Qed.

Lemma GetBestBidOffer_static {W : Type} (svc : MarketDataService W) (productId : string)
    (book : OrderBook) (v : BidOffer) :
  orderBooks svc !! productId = Some book -> two_sided book ->
  GetBestBidOffer svc productId (Some v) = Returns (v, Some v).
Proof.
  intros Hs [Hb Ha]. unfold GetBestBidOffer. rewrite Hs.
  destruct (GetBidStack book), (GetOfferStack book); done.
Qed.

Lemma AggregateDepth_static {W : Type} (iteration : gmap double Z -> list (double * Z))
    (svc : MarketDataService W) (productId : string) (v : OrderBook) :
  is_Some (orderBooks svc !! productId) ->
  AggregateDepth iteration svc productId (Some v) = Returns (v, Some v).
Proof. intros [book Hs]. unfold AggregateDepth. by rewrite Hs. Qed.

End BestBidOffer.

Section BestBidOfferClaims.

Import MarketData.

(** On an empty stack [GetBestBidOffer] throws, whatever the static
    object holds. *)
Lemma GetBestBidOffer_empty_throws {W : Type} (svc : MarketDataService W)
    (productId : string) (book : OrderBook) (slot : option BidOffer) :
  orderBooks svc !! productId = Some book ->
  GetBidStack book = [] \/ GetOfferStack book = [] ->
  GetBestBidOffer svc productId slot =
    Throws ("Bid or offer stack is empty for product: " +:+ productId).
Proof.
  intros Hs He. unfold GetBestBidOffer. rewrite Hs.
  destruct He as [-> | ->]; [done |]. by destruct (GetBidStack book).
Qed.

(** C2.  In one run, query the 99-16 / 99-17 book first and the book with
    best bid and offer 99-16+ second, through either entry point: the
    second answer is still the first book's pair.  Its bid, 99-16, is
    below the 99-16+ bid of the book asked about, its offer, 99-17, is
    above that book's 99-16+ offer, and neither order is in that book. *)
Theorem best_bid_offer_stale_after_first_call :
  let first := mkBidOffer (mkOrder price_99_16 1000000 BID) (mkOrder price_99_17 2000000 OFFER) in
  let svc := market_with [book_wide; book_tight] in
  (GetBidAsk book_wide None = Returns (first, Some first) /\
   GetBidAsk book_tight (Some first) = Returns (first, Some first)) /\
  (GetBestBidOffer svc "91282CJL6" None = Returns (first, Some first) /\
   GetBestBidOffer svc "91282CJK8" (Some first) = Returns (first, Some first)) /\
  orderBooks svc !! "91282CJK8" = Some book_tight /\
  (mkOrder price_99_16_plus 4000000 BID ∈ GetBidStack book_tight) /\
  (GetPrice (GetBidOrder first) < price_99_16_plus)%Qc /\
  (mkOrder price_99_16_plus 6000000 OFFER ∈ GetOfferStack book_tight) /\
  (price_99_16_plus < GetPrice (GetOfferOrder first))%Qc /\
  (GetBidOrder first ∉ GetBidStack book_tight) /\
  (GetOfferOrder first ∉ GetOfferStack book_tight).
Proof.
  cbv zeta. repeat split; try reflexivity.
  - unfold book_tight; simpl. set_solver.
  - unfold book_tight; simpl. set_solver.
  - unfold book_tight; simpl. intros H.
    repeat (apply elem_of_cons in H as [H | H]; [by inversion H |]).
    by apply elem_of_nil in H.
  - unfold book_tight; simpl. intros H.
    repeat (apply elem_of_cons in H as [H | H]; [by inversion H |]).
    by apply elem_of_nil in H.
Qed.

(** C7.  [GetBidAsk] has no emptiness test: with an empty bid or offer
    stack it calls [front()] on the empty vector, which has no defined
    behaviour; in particular no exception is thrown. *)
Theorem GetBidAsk_empty_stack_not_reported (book : OrderBook) (slot : option BidOffer) :
  GetBidStack book = [] \/ GetOfferStack book = [] ->
  GetBidAsk book slot = Undefined /\
  forall what : string, GetBidAsk book slot <> Throws what.
Proof.
  intros He.
  assert (Hu : GetBidAsk book slot = Undefined).
  { unfold GetBidAsk. destruct He as [-> | ->]; [done |]. by destruct (GetBidStack book). }
  split; [done |]. intros what. by rewrite Hu.
Qed.

Lemma GetBidAsk_empty_stack_not_reported_witness :
  (GetBidStack book_no_bids = [] \/ GetOfferStack book_no_bids = []) /\
  GetBidAsk book_no_bids None = Undefined /\
  forall what : string, GetBidAsk book_no_bids None <> Throws what.
Proof.
  split; [left; reflexivity |].
  apply (GetBidAsk_empty_stack_not_reported book_no_bids None). left; reflexivity.
Defined.

(** C3.  The objects returned by [GetBidAsk], [GetBestBidOffer] and
    [AggregateDepth] are function-local statics.  For each of the three:
    the first call of a run (on a two-sided book; for the two service
    members, on a stored product) returns, and constructs the object from
    what it computed on its own book; every later call of the run on
    such an input returns that same value, whatever book it is given or
    finds stored; and whatever a later call returns is that value. *)
Theorem static_result_fixed_by_first_call {W : Type}
    (iteration : gmap double Z -> list (double * Z)) :
  (forall book : OrderBook, two_sided book ->
     exists v : BidOffer,
       GetBidAsk book None = Returns (v, Some v) /\
       first_best gt (GetBidStack book) (GetBidOrder v) /\
       first_best lt (GetOfferStack book) (GetOfferOrder v) /\
       (forall books : list OrderBook, Forall two_sided books ->
          later_calls GetBidAsk books (Some v) = Returns (replicate (length books) v)) /\
       (forall (books : list OrderBook) (vs : list BidOffer),
          later_calls GetBidAsk books (Some v) = Returns vs -> Forall (fun r => r = v) vs)) /\
  (forall (svc : MarketDataService W) (productId : string) (book : OrderBook),
     orderBooks svc !! productId = Some book -> two_sided book ->
     exists v : BidOffer,
       GetBestBidOffer svc productId None = Returns (v, Some v) /\
       first_best gt (GetBidStack book) (GetBidOrder v) /\
       first_best lt (GetOfferStack book) (GetOfferOrder v) /\
       (forall calls : list (MarketDataService W * string),
          Forall (fun c => exists stored : OrderBook,
                             orderBooks c.1 !! c.2 = Some stored /\ two_sided stored) calls ->
          later_calls (fun c => GetBestBidOffer c.1 c.2) calls (Some v)
            = Returns (replicate (length calls) v)) /\
       (forall (calls : list (MarketDataService W * string)) (vs : list BidOffer),
          later_calls (fun c => GetBestBidOffer c.1 c.2) calls (Some v) = Returns vs ->
          Forall (fun r => r = v) vs)) /\
  (forall (svc : MarketDataService W) (productId : string) (book : OrderBook),
     orderBooks svc !! productId = Some book ->
     let v := mkOrderBook (GetProduct book)
                (AggregateOrders iteration (GetBidStack book) BID)
                (AggregateOrders iteration (GetOfferStack book) OFFER) in
     AggregateDepth iteration svc productId None = Returns (v, Some v) /\
     (forall calls : list (MarketDataService W * string),
        Forall (fun c => is_Some (orderBooks c.1 !! c.2)) calls ->
        later_calls (fun c => AggregateDepth iteration c.1 c.2) calls (Some v)
          = Returns (replicate (length calls) v)) /\
     (forall (calls : list (MarketDataService W * string)) (vs : list OrderBook),
        later_calls (fun c => AggregateDepth iteration c.1 c.2) calls (Some v) = Returns vs ->
        Forall (fun r => r = v) vs)).
Proof.
  split; [| split].
  - intros book [Hb Ha].
    destruct (GetBidStack book) as [|fb bids] eqn:Hbs; [done |].
    destruct (GetOfferStack book) as [|fa asks] eqn:Has; [done |].
    destruct (GetBidAsk_first_call book fb fa bids asks Hbs Has) as (v & Hv & Hbid & Hask).
    rewrite Hbs in Hbid. rewrite Has in Hask.
    exists v. split; [done |]. split; [done |]. split; [done |]. split.
    + intros books Hbooks. apply later_calls_returns.
      eapply Forall_impl; [exact Hbooks |]. intros b Htwo. by apply GetBidAsk_static.
    + intros books vs. apply later_calls_static. intros a r s. apply GetBidAsk_later_call.
  - intros svc productId book Hs [Hb Ha].
    destruct (GetBidStack book) as [|fb bids] eqn:Hbs; [done |].
    destruct (GetOfferStack book) as [|fa asks] eqn:Has; [done |].
    destruct (GetBestBidOffer_first_call svc productId book fb fa bids asks Hs Hbs Has)
      as (v & Hv & Hbid & Hask).
    rewrite Hbs in Hbid. rewrite Has in Hask.
    exists v. split; [done |]. split; [done |]. split; [done |]. split.
    + intros calls Hcalls. apply later_calls_returns.
      eapply Forall_impl; [exact Hcalls |]. intros c (stored & Hc & Htwo).
      by apply (GetBestBidOffer_static c.1 c.2 stored).
    + intros calls vs. apply later_calls_static. intros a r s.
      apply GetBestBidOffer_later_call.
  - intros svc productId book Hs. cbv zeta. split; [| split].
    + unfold AggregateDepth. by rewrite Hs.
    + intros calls Hcalls. apply later_calls_returns.
      eapply Forall_impl; [exact Hcalls |]. intros c Hc.
      by apply AggregateDepth_static.
    + intros calls vs. apply later_calls_static. intros a r s.
      apply AggregateDepth_later_call.
Qed.

Lemma static_result_fixed_by_first_call_witness :
  let first := mkBidOffer (mkOrder price_99_16 1000000 BID) (mkOrder price_99_17 2000000 OFFER) in
  let svc : MarketDataService unit :=
    mkMarketDataService (<["91282CJK8" := book_tight]> {[ "91282CJL6" := book_wide ]}) [] 5 in
  let depth := mkOrderBook US2Y (AggregateOrders map_to_list (GetBidStack book_wide) BID)
                 (AggregateOrders map_to_list (GetOfferStack book_wide) OFFER) in
  (GetBidAsk book_wide None = Returns (first, Some first) /\
   later_calls GetBidAsk [book_tight; book_wide; book_tight] (Some first)
     = Returns [first; first; first]) /\
  (GetBestBidOffer svc "91282CJL6" None = Returns (first, Some first) /\
   later_calls (fun c => GetBestBidOffer c.1 c.2) [(svc, "91282CJK8"); (svc, "91282CJL6")]
     (Some first) = Returns [first; first]) /\
  (AggregateDepth map_to_list svc "91282CJL6" None = Returns (depth, Some depth) /\
   later_calls (fun c => AggregateDepth map_to_list c.1 c.2)
     [(svc, "91282CJK8"); (svc, "91282CJL6")] (Some depth) = Returns [depth; depth]).
Proof.
  intros first svc depth.
  assert (Hwide : two_sided book_wide) by (split; discriminate).
  assert (Htight : two_sided book_tight) by (split; discriminate).
  assert (Hs2 : orderBooks svc !! "91282CJL6" = Some book_wide).
  { unfold svc. cbn [orderBooks]. rewrite lookup_insert_ne by done.
    apply lookup_singleton_eq. }
  assert (Hs3 : orderBooks svc !! "91282CJK8" = Some book_tight).
  { unfold svc. cbn [orderBooks]. apply lookup_insert_eq. }
  destruct (static_result_fixed_by_first_call (W := unit) map_to_list)
    as (Hcall & Hquery & Hdepth).
  split; [| split].
  - destruct (Hcall book_wide Hwide) as (v & Hfirst & _ & _ & Hlater & _).
    assert (Hv : GetBidAsk book_wide None = Returns (first, Some first)) by reflexivity.
    assert (v = first) as -> by congruence.
    split; [exact Hfirst |].
    apply (Hlater [book_tight; book_wide; book_tight]). by repeat constructor.
  - destruct (Hquery svc "91282CJL6" book_wide Hs2 Hwide) as (v & Hfirst & _ & _ & Hlater & _).
    assert (Hv : GetBestBidOffer svc "91282CJL6" None = Returns (first, Some first)).
    { unfold GetBestBidOffer. rewrite Hs2. reflexivity. }
    assert (v = first) as -> by congruence.
    split; [exact Hfirst |].
    apply (Hlater [(svc, "91282CJK8"); (svc, "91282CJL6")]).
    repeat constructor; eexists; (split; [eassumption | assumption]).
  - destruct (Hdepth svc "91282CJL6" book_wide Hs2) as (Hfirst & Hlater & _).
    split; [exact Hfirst |].
    apply (Hlater [(svc, "91282CJK8"); (svc, "91282CJL6")]).
    repeat constructor; eexists; eassumption.
Defined.

End BestBidOfferClaims.

(** ** Order books: depth aggregation *)

Section AggregateOrdersFacts.

Import MarketData.

(** Every quantity in the price map is a sum formed in [long]. *)
Lemma add_order_wrapped (m : gmap double Z) (order : Order) :
  (forall p q, m !! p = Some q -> Long.wrap q = q) ->
  forall p q, add_order m order !! p = Some q -> Long.wrap q = q.
Proof.
  intros Hm p q. unfold add_order.
  destruct (decide (GetPrice order = p)) as [-> | Hne].
  - rewrite lookup_insert_eq. intros [= <-]. apply wrap_wrap.
  - rewrite lookup_insert_ne by done. apply Hm.
Qed.

Lemma foldl_add_order_wrapped (orders : list Order) (m : gmap double Z) :
  (forall p q, m !! p = Some q -> Long.wrap q = q) ->
  forall p q, foldl add_order m orders !! p = Some q -> Long.wrap q = q.
Proof.
  revert m. induction orders as [|o orders IH]; intros m Hm; simpl; [done |].
  apply IH. by apply add_order_wrapped.
Qed.

(** Feeding a list of distinct price levels, with quantities that are
    already [long] sums, rebuilds the map those levels came from. *)
Lemma foldl_add_order_levels (type : PricingSide) (levels : list (double * Z))
    (m : gmap double Z) :
  NoDup levels.*1 ->
  (forall p q, (p, q) ∈ levels -> Long.wrap q = q) ->
  (forall p q, (p, q) ∈ levels -> m !! p = None) ->
  foldl add_order m ((fun entry => mkOrder entry.1 entry.2 type) <$> levels)
    = list_to_map levels ∪ m.
Proof.
  revert m. induction levels as [|[p q] levels IH]; intros m Hnd Hw Hfresh; simpl.
  - by rewrite (left_id_L ∅ (∪)).
  - apply NoDup_cons in Hnd as [Hp Hnd].
    rewrite IH; [| done | |].
    + unfold add_order; simpl.
      rewrite (Hfresh p q) by left. simpl.
      unfold Long.add. rewrite Z.add_0_l, (Hw p q) by left.
      rewrite <- insert_union_r, insert_union_l; [done |].
      apply not_elem_of_list_to_map_1. done.
    + intros p' q' Hin. apply (Hw p' q'). by right.
    + intros p' q' Hin. unfold add_order; simpl.
      rewrite lookup_insert_ne.
      * apply (Hfresh p' q'). by right.
      * intros <-. apply Hp. apply list_elem_of_fmap. by exists (p, q').
Qed.

Section Enumerations.

(** Two traversals of the hash map, as two calls may see them. *)
Variables iteration1 iteration2 : gmap double Z -> list (double * Z).
Hypothesis iteration1_entries : forall m, iteration1 m ≡ₚ map_to_list m.
Hypothesis iteration2_entries : forall m, iteration2 m ≡ₚ map_to_list m.

Lemma AggregateOrders_map_again (orders : list Order) (type : PricingSide) :
  foldl add_order ∅ (AggregateOrders iteration1 orders type) = foldl add_order ∅ orders.
Proof.
  unfold AggregateOrders. set (m := foldl add_order ∅ orders).
  assert (Hwrapped : forall p q, m !! p = Some q -> Long.wrap q = q).
  { apply foldl_add_order_wrapped. intros p q. by rewrite lookup_empty. }
  rewrite (foldl_add_order_levels type).
  - rewrite (right_id_L ∅ (∪)).
    rewrite <- (list_to_map_to_list m) at 2.
    apply list_to_map_proper; [| apply iteration1_entries].
    rewrite iteration1_entries. apply NoDup_fst_map_to_list.
  - rewrite iteration1_entries. apply NoDup_fst_map_to_list.
  - intros p q Hin. apply (Hwrapped p q).
    rewrite iteration1_entries in Hin. by apply elem_of_map_to_list.
  - intros. apply lookup_empty.
Qed.

Lemma AggregateOrders_twice (orders : list Order) (type : PricingSide) :
  AggregateOrders iteration2 (AggregateOrders iteration1 orders type) type
    ≡ₚ AggregateOrders iteration1 orders type.
Proof.
  unfold AggregateOrders at 1. rewrite AggregateOrders_map_again.
  unfold AggregateOrders. apply fmap_Permutation.
  by rewrite iteration1_entries, iteration2_entries.
Qed.

(** One entry per distinct price. *)
Lemma AggregateOrders_distinct_prices (orders : list Order) (type : PricingSide) :
  NoDup (GetPrice <$> AggregateOrders iteration1 orders type).
Proof.
  unfold AggregateOrders. rewrite <- list_fmap_compose.
  assert (Heq : (GetPrice ∘ (fun entry : double * Z => mkOrder entry.1 entry.2 type)) <$>
                 iteration1 (foldl add_order ∅ orders)
               = (iteration1 (foldl add_order ∅ orders)).*1).
  { apply list_fmap_ext. by intros ? []. }
  rewrite Heq, iteration1_entries. apply NoDup_fst_map_to_list.
Qed.

End Enumerations.

End AggregateOrdersFacts.

Section AggregateDepthClaim.

Import MarketData.

Lemma levels_Permutation (s1 s2 : list Order) : s1 ≡ₚ s2 -> levels s1 = levels s2.
Proof. intros Hp. unfold levels. apply set_eq. intros x. by rewrite !elem_of_list_to_set, Hp. Qed.

(** C10.  Aggregating an aggregated side again gives the same price
    levels with the same quantities, in whatever order the two hash-map
    traversals produce them; so [AggregateDepth] run on its own output
    (in a new run, or later in the same run, where the static object
    answers) returns a book with the same product and, on each side, the
    same set of (price, quantity) pairs. *)
Theorem aggregate_depth_idempotent {W : Type}
    (iteration1 iteration2 : gmap double Z -> list (double * Z)) :
  (forall m, iteration1 m ≡ₚ map_to_list m) ->
  (forall m, iteration2 m ≡ₚ map_to_list m) ->
  (forall (orders : list Order) (type : PricingSide),
     AggregateOrders iteration2 (AggregateOrders iteration1 orders type) type
       ≡ₚ AggregateOrders iteration1 orders type) /\
  (forall (svc svc' : MarketDataService W) (productId : string) (once : OrderBook)
          (slot slot' : option OrderBook),
     AggregateDepth iteration1 svc productId None = Returns (once, slot) ->
     orderBooks svc' !! productId = Some once ->
     slot' = None \/ slot' = slot ->
     exists twice : OrderBook,
       AggregateDepth iteration2 svc' productId slot' = Returns (twice, Some twice) /\
       GetProduct twice = GetProduct once /\
       GetBidStack twice ≡ₚ GetBidStack once /\
       GetOfferStack twice ≡ₚ GetOfferStack once /\
       levels (GetBidStack twice) = levels (GetBidStack once) /\
       levels (GetOfferStack twice) = levels (GetOfferStack once)).
Proof.
  intros H1 H2. split.
  - intros orders type. by apply AggregateOrders_twice.
  - intros svc svc' productId once slot slot' Hfirst Hstored Hslot.
    unfold AggregateDepth in Hfirst.
    destruct (orderBooks svc !! productId) as [book|]; [| done].
    simpl in Hfirst. injection Hfirst as <- <-.
    unfold AggregateDepth. rewrite Hstored.
    destruct Hslot as [-> | ->]; simpl.
    + eexists. split; [reflexivity |]. simpl.
      pose proof (AggregateOrders_twice _ _ H1 H2 (GetBidStack book) BID) as Hb.
      pose proof (AggregateOrders_twice _ _ H1 H2 (GetOfferStack book) OFFER) as Ho.
      repeat split; try done; by apply levels_Permutation.
    + eexists. split; [reflexivity |]. done.
Qed.

Lemma aggregate_depth_idempotent_witness :
  let bids := [mkOrder price_99_16 1000000 BID; mkOrder price_99_16_plus 2000000 BID;
               mkOrder price_99_16 3000000 BID] in
  AggregateOrders map_to_list (AggregateOrders map_to_list bids BID) BID
    ≡ₚ AggregateOrders map_to_list bids BID.
Proof.
  cbv zeta.
  apply (aggregate_depth_idempotent (W := unit) map_to_list map_to_list
           (fun m => reflexivity (map_to_list m)) (fun m => reflexivity (map_to_list m))).
Defined.

(** The sample above has two price levels: 99-16 with 4,000,000 and
    99-16+ with 2,000,000. *)
Example AggregateOrders_sample :
  levels (AggregateOrders map_to_list
            [mkOrder price_99_16 1000000 BID; mkOrder price_99_16_plus 2000000 BID;
             mkOrder price_99_16 3000000 BID] BID)
  = {[ (price_99_16, 4000000); (price_99_16_plus, 2000000) ]}.
Proof. apply (bool_decide_eq_true_1 _). vm_compute. reflexivity. Qed.

End AggregateDepthClaim.

(** ** The execution engine *)

Section AlgoExecutionFacts.

Import MarketData AlgoExecution.

Context {W : Type}.

(** The toggle: BID on an even counter, OFFER on an odd one, and the
    increment changes the parity. *)
Lemma DetermineOrderSide_alternates (svc : AlgoExecutionService W) :
  0 <= side svc < Long.LONG_MAX ->
  let next := mkAlgoExecutionService (algoExe svc) (listeners svc) (spread svc)
                (Long.incr (side svc)) in
  DetermineOrderSide next =
    match DetermineOrderSide svc with BID => OFFER | OFFER => BID end.
Proof.
  intros Hs. unfold DetermineOrderSide, Long.rem; simpl.
  rewrite incr_in_range by done.
  rewrite !Z.rem_mod_nonneg by lia.
  pose proof (Z.mod_pos_bound (side svc) 2).
  assert (Hcase : (side svc + 1) mod 2 = 1 - side svc mod 2).
  { rewrite Z.add_mod by lia.
    assert (side svc mod 2 = 0 \/ side svc mod 2 = 1) as [-> | ->] by lia; reflexivity. }
  rewrite Hcase.
  assert (side svc mod 2 = 0 \/ side svc mod 2 = 1) as [-> | ->] by lia; reflexivity.
Qed.

(** What one call does with the pair [GetBidAsk] hands it: nothing when
    the spread of that pair exceeds the threshold; otherwise one market,
    non-child order carrying the given id, priced and sized from the
    pair's order on the toggle's side, put through [OnMessage], and the
    counter incremented. *)
Lemma AlgoExecuteOrder_on_pair (orderBook : OrderBook) (orderId : string)
    (slot slot' : option BidOffer) (bo : BidOffer) (svc : AlgoExecutionService W) (w : W) :
  GetBidAsk orderBook slot = Returns (bo, slot') ->
  let bidOrder := GetBidOrder bo in
  let offerOrder := GetOfferOrder bo in
  let chosen := match DetermineOrderSide svc with BID => bidOrder | OFFER => offerOrder end in
  let order :=
    new_AlgoExecution (GetProduct orderBook) (DetermineOrderSide svc) orderId
      Execution.MARKET (GetPrice chosen) (GetQuantity chosen) 0 "" false in
  AlgoExecuteOrder orderBook orderId slot svc w =
    if le (GetPrice offerOrder - GetPrice bidOrder)%Qc (spread svc) then
      '(svc', w') ← OnMessage order svc w;
      Returns (slot',
               mkAlgoExecutionService (algoExe svc') (listeners svc') (spread svc')
                 (Long.incr (side svc')), w')
    else Returns (slot', svc, w).
Proof.
  intros Hpair. unfold AlgoExecuteOrder. rewrite Hpair. simpl.
  destruct (le _ _); [| done].
  unfold CreateExecutionOrder. by destruct (DetermineOrderSide svc).
Qed.

(** The quantity of the emitted order, if it has at most 53 bits, reads
    back as the chosen order's. *)
Lemma new_AlgoExecution_quantities (product : Bond) (s : PricingSide) (orderId : string)
    (price : double) (quantity : Z) :
  Z.abs quantity <= 2 ^ 53 ->
  let order := GetExecutionOrder
                 (new_AlgoExecution product s orderId Execution.MARKET price quantity 0 "" false) in
  Execution.GetVisibleQuantity order = quantity /\
  Execution.GetHiddenQuantity order = 0 /\
  Execution.GetPrice order = price /\
  Execution.GetOrderType order = Execution.MARKET /\
  Execution.IsChildOrder order = false /\
  Execution.GetOrderId order = orderId.
Proof.
  intros Hq. simpl. unfold Execution.GetVisibleQuantity, Execution.GetHiddenQuantity; simpl.
  rewrite to_long_of_long by done.
  rewrite (to_long_of_long 0) by (simpl; lia). repeat split; reflexivity.
Qed.

(** In the first call of a run the pair is the best bid and offer of the
    book delivered. *)
Lemma AlgoExecuteOrder_first_call (orderBook : OrderBook) (orderId : string)
    (front_bid front_ask : Order) (bids asks : list Order)
    (svc : AlgoExecutionService W) (w : W) :
  GetBidStack orderBook = front_bid :: bids ->
  GetOfferStack orderBook = front_ask :: asks ->
  exists bo : BidOffer,
    first_best gt (GetBidStack orderBook) (GetBidOrder bo) /\
    first_best lt (GetOfferStack orderBook) (GetOfferOrder bo) /\
    (le (GetPrice (GetOfferOrder bo) - GetPrice (GetBidOrder bo))%Qc (spread svc) = false ->
     AlgoExecuteOrder orderBook orderId None svc w = Returns (Some bo, svc, w)) /\
    (le (GetPrice (GetOfferOrder bo) - GetPrice (GetBidOrder bo))%Qc (spread svc) = true ->
     let chosen :=
       match DetermineOrderSide svc with BID => GetBidOrder bo | OFFER => GetOfferOrder bo end in
     let order :=
       new_AlgoExecution (GetProduct orderBook) (DetermineOrderSide svc) orderId
         Execution.MARKET (GetPrice chosen) (GetQuantity chosen) 0 "" false in
     AlgoExecuteOrder orderBook orderId None svc w =
       w' ← notify (listeners svc) order w;
       Returns (Some bo,
                mkAlgoExecutionService
                  (<[GetProductId (GetProduct orderBook) := order]> (algoExe svc))
                  (listeners svc) (spread svc) (Long.incr (side svc)), w')).
Proof.
  intros Hb Ha.
  destruct (GetBidAsk_first_call orderBook front_bid front_ask bids asks Hb Ha)
    as (bo & Hbo & Hbid & Hask).
  exists bo. split; [done |]. split; [done |].
  pose proof (AlgoExecuteOrder_on_pair orderBook orderId None (Some bo) bo svc w Hbo) as Hrun.
  cbv zeta in Hrun. split; intros Hcmp; rewrite Hcmp in Hrun.
  - done.
  - cbv zeta. rewrite Hrun. unfold OnMessage. simpl.
    by destruct (notify (listeners svc) _ w).
Qed.

End AlgoExecutionFacts.

Section AlgoExecutionClaim.

Import MarketData AlgoExecution.

(** C4.  A run in which the engine first receives the 99-16 / 99-17 book
    and then the book whose best bid and best offer are both 99-16+.
    The first update rightly emits nothing.  For the second, the book's
    own best bid and offer have spread 0, within the 1/128 threshold, yet
    nothing is emitted and the engine is unchanged: the decision was
    taken on the pair of the first book, which [GetBidAsk] still
    returns. *)
Theorem AlgoExecuteOrder_decides_on_first_book :
  let first := mkBidOffer (mkOrder price_99_16 1000000 BID) (mkOrder price_99_17 2000000 OFFER) in
  let tight := mkBidOffer (mkOrder price_99_16_plus 4000000 BID)
                 (mkOrder price_99_16_plus 6000000 OFFER) in
  AlgoExecuteOrder book_wide "1703000000000-1234" None engine []
    = Returns (Some first, engine, []) /\
  GetBidAsk book_tight None = Returns (tight, Some tight) /\
  (GetPrice (GetOfferOrder tight) - GetPrice (GetBidOrder tight) <= spread engine)%Qc /\
  AlgoExecuteOrder book_tight "1703000000001-5678" (Some first) engine []
    = Returns (Some first, engine, []).
Proof.
  cbv zeta. split; [reflexivity |]. split; [reflexivity |]. split; [| reflexivity].
  vm_compute. discriminate.
Qed.

(** The same defect the other way round: after the tight book, the wide
    book (spread 1/32) triggers an order at the tight book's price and
    size. *)
Example AlgoExecuteOrder_stale_crossing :
  let tight := mkBidOffer (mkOrder price_99_16_plus 4000000 BID)
                 (mkOrder price_99_16_plus 6000000 OFFER) in
  let order1 := new_AlgoExecution US3Y BID "1703000000000-1234" Execution.MARKET
                  price_99_16_plus 4000000 0 "" false in
  let order2 := new_AlgoExecution US2Y OFFER "1703000000001-5678" Execution.MARKET
                  price_99_16_plus 6000000 0 "" false in
  exists engine1 engine2,
    AlgoExecuteOrder book_tight "1703000000000-1234" None engine []
      = Returns (Some tight, engine1, [order1]) /\
    AlgoExecuteOrder book_wide "1703000000001-5678" (Some tight) engine1 [order1]
      = Returns (Some tight, engine2, [order1; order2]) /\
    side engine1 = 1 /\ side engine2 = 2.
Proof.
  cbv zeta. eexists. eexists. split; [reflexivity |]. split; [reflexivity |].
  split; reflexivity.
Qed.

End AlgoExecutionClaim.

(** ** Booking executions as trades *)

Section BookingFacts.

Import TradeBooking.

Lemma DetermineBookFromCount_cycle (c : Z) :
  0 <= c ->
  (c mod 3 = 0 -> DetermineBookFromCount c = "TRSY1") /\
  (c mod 3 = 1 -> DetermineBookFromCount c = "TRSY2") /\
  (c mod 3 = 2 -> DetermineBookFromCount c = "TRSY3").
Proof.
  intros Hc. unfold DetermineBookFromCount, Long.rem.
  rewrite Z.rem_mod_nonneg by lia.
  repeat split; intros ->; reflexivity.
Qed.

(** Three consecutive counter values give three different labels, the
    fourth gives the first again. *)
Lemma DetermineBookFromCount_consecutive (c : Z) :
  0 <= c ->
  DetermineBookFromCount c <> DetermineBookFromCount (c + 1) /\
  DetermineBookFromCount c <> DetermineBookFromCount (c + 2) /\
  DetermineBookFromCount (c + 1) <> DetermineBookFromCount (c + 2) /\
  DetermineBookFromCount (c + 3) = DetermineBookFromCount c.
Proof.
  intros Hc.
  pose proof (Z.mod_pos_bound c 3 ltac:(lia)) as Hr.
  assert (H1 : (c + 1) mod 3 = (c mod 3 + 1) mod 3) by (rewrite Z.add_mod by lia; done).
  assert (H2 : (c + 2) mod 3 = (c mod 3 + 2) mod 3) by (rewrite Z.add_mod by lia; done).
  assert (H3 : (c + 3) mod 3 = c mod 3).
  { replace (c + 3) with (c + 1 * 3) by lia. apply Z_mod_plus_full. }
  unfold DetermineBookFromCount, Long.rem.
  rewrite !Z.rem_mod_nonneg by lia. rewrite H1, H2, H3.
  assert (c mod 3 = 0 \/ c mod 3 = 1 \/ c mod 3 = 2) as [-> | [-> | ->]] by lia;
    repeat split; done.
Qed.

Context {W : Type}.

(** One call: the counter is incremented first, the trade is built from
    the order and booked. *)
Lemma ProcessAdd_books (data : Execution.ExecutionOrder) (lstn : ExecutionBookingListener)
    (svc : TradeBookingService W) (w : W) :
  let trade :=
    mkTrade (Execution.GetProduct data) (Execution.GetOrderId data) (Execution.GetPrice data)
      (DetermineBookFromCount (Long.incr (count lstn)))
      (Long.add (Execution.GetVisibleQuantity data) (Execution.GetHiddenQuantity data))
      (match Execution.GetPricingSide data with MarketData.BID => SELL | MarketData.OFFER => BUY end) in
  ProcessAdd data lstn svc w =
    w' ← notify (listeners svc) trade w;
    Returns (mkExecutionBookingListener (Long.incr (count lstn)),
             mkTradeBookingService (<[Execution.GetOrderId data := trade]> (trades svc))
               (listeners svc),
             w').
Proof.
  cbv zeta. unfold ProcessAdd, BookTrade, OnMessage, CreateTradeFromExecutionOrder,
    DetermineSideFromPricingSide. simpl.
  destruct (Execution.GetPricingSide data); by destruct (notify (listeners svc) _ w).
Qed.

End BookingFacts.

Section BookingClaim.

Import TradeBooking.

(** C6.  For a booking listener whose counter has not run out of the
    [long] range: each execution order is booked as one trade, delivered
    to the trade store and its listeners, with side SELL for a BID order
    and BUY otherwise, quantity the sum of the visible and hidden
    quantities, the order's price and the order id as trade id; of four
    consecutive executions the first three carry three different book
    labels and the fourth carries the label of the first. *)
Theorem booking_contra_side_and_round_robin
    (d1 d2 d3 d4 : Execution.ExecutionOrder) (lstn : ExecutionBookingListener)
    (store : gmap string Trade) (log : list Trade) :
  0 <= count lstn ->
  count lstn + 4 <= Long.LONG_MAX ->
  exists (t1 t2 t3 t4 : Trade) (svc' : TradeBookingService (list Trade)),
    process_all [d1; d2; d3; d4] lstn (mkTradeBookingService store [recorder]) log
      = Returns (mkExecutionBookingListener (count lstn + 4), svc', log ++ [t1; t2; t3; t4]) /\
    trades svc' =
      <[GetTradeId t4 := t4]> (<[GetTradeId t3 := t3]> (<[GetTradeId t2 := t2]>
        (<[GetTradeId t1 := t1]> store))) /\
    Forall2 (fun (d : Execution.ExecutionOrder) (t : Trade) =>
        GetSide t = (match Execution.GetPricingSide d with
                     | MarketData.BID => SELL
                     | MarketData.OFFER => BUY
                     end) /\
        GetQuantity t =
          Long.add (Execution.GetVisibleQuantity d) (Execution.GetHiddenQuantity d) /\
        (Long.in_range (Execution.GetVisibleQuantity d + Execution.GetHiddenQuantity d) ->
         GetQuantity t = Execution.GetVisibleQuantity d + Execution.GetHiddenQuantity d) /\
        GetPrice t = Execution.GetPrice d /\
        GetTradeId t = Execution.GetOrderId d /\
        GetProduct t = Execution.GetProduct d)
      [d1; d2; d3; d4] [t1; t2; t3; t4] /\
    GetBook t1 = DetermineBookFromCount (count lstn + 1) /\
    GetBook t1 <> GetBook t2 /\ GetBook t1 <> GetBook t3 /\ GetBook t2 <> GetBook t3 /\
    GetBook t4 = GetBook t1 /\
    Forall (fun t => GetBook t = "TRSY1" \/ GetBook t = "TRSY2" \/ GetBook t = "TRSY3")
      [t1; t2; t3; t4].
Proof.
  intros Hc Hmax. destruct lstn as [c]. simpl in *.
  pose proof (DetermineBookFromCount_consecutive (c + 1) ltac:(lia)) as (H12 & H13 & H23 & H41).
  replace (c + 1 + 1) with (c + 2) in * by lia.
  replace (c + 1 + 2) with (c + 3) in * by lia.
  replace (c + 1 + 3) with (c + 4) in * by lia.
  do 5 eexists. split.
  { unfold process_all.
    assert (E1 : Long.incr c = c + 1) by (apply incr_in_range; unfold Long.LONG_MAX in *; lia).
    assert (E2 : Long.incr (c + 1) = c + 2)
      by (rewrite incr_in_range; unfold Long.LONG_MAX in *; lia).
    assert (E3 : Long.incr (c + 2) = c + 3)
      by (rewrite incr_in_range; unfold Long.LONG_MAX in *; lia).
    assert (E4 : Long.incr (c + 3) = c + 4)
      by (rewrite incr_in_range; unfold Long.LONG_MAX in *; lia).
    rewrite E1, E2, E3, E4. rewrite <- !app_assoc. simpl. reflexivity. }
  simpl. split; [reflexivity |]. split.
  { repeat constructor; simpl; try reflexivity; intros Hr; by apply add_in_range. }
  split; [reflexivity |]. split; [done |]. split; [done |]. split; [done |].
  split; [done |].
  assert (Hlabel : forall k, 0 <= k ->
            DetermineBookFromCount k = "TRSY1" \/ DetermineBookFromCount k = "TRSY2" \/
            DetermineBookFromCount k = "TRSY3").
  { intros k Hk. pose proof (DetermineBookFromCount_cycle k Hk) as (Ha & Hb & Hd).
    pose proof (Z.mod_pos_bound k 3 ltac:(lia)).
    assert (k mod 3 = 0 \/ k mod 3 = 1 \/ k mod 3 = 2) as [? | [? | ?]] by lia; auto. }
  do 4 (constructor; [simpl; apply Hlabel; lia |]). constructor.
Qed.

Lemma booking_contra_side_and_round_robin_witness :
  let d (s : MarketData.PricingSide) (id : string) :=
    Execution.mkExecutionOrder US2Y s id Execution.MARKET price_99_16
      (of_long 1000000) (of_long 0) "" false in
  exists (t1 t2 t3 t4 : Trade) (svc' : TradeBookingService (list Trade)),
    process_all [d MarketData.BID "a"; d MarketData.OFFER "b"; d MarketData.BID "c";
                 d MarketData.OFFER "d"]
      new_ExecutionBookingListener (mkTradeBookingService ∅ [recorder]) []
      = Returns (mkExecutionBookingListener 4, svc', [t1; t2; t3; t4]) /\
    GetBook t1 <> GetBook t2 /\ GetBook t1 <> GetBook t3 /\ GetBook t2 <> GetBook t3 /\
    GetBook t4 = GetBook t1.
Proof.
  cbv zeta.
  set (d := fun (s : MarketData.PricingSide) (id : string) =>
    Execution.mkExecutionOrder US2Y s id Execution.MARKET price_99_16
      (of_long 1000000) (of_long 0) "" false).
  destruct (booking_contra_side_and_round_robin
              (d MarketData.BID "a") (d MarketData.OFFER "b") (d MarketData.BID "c")
              (d MarketData.OFFER "d") new_ExecutionBookingListener ∅ [])
    as (t1 & t2 & t3 & t4 & svc' & Hrun & _ & _ & _ & H12 & H13 & H23 & H41 & _).
  - simpl. lia.
  - simpl. unfold Long.LONG_MAX. lia.
  - exists t1, t2, t3, t4, svc'. simpl in Hrun. auto.
Defined.

(** The first execution of a run is booked into TRSY2, the counter being
    incremented before it is read. *)
Example first_execution_label :
  DetermineBookFromCount (Long.incr (count new_ExecutionBookingListener)) = "TRSY2".
Proof. reflexivity. Qed.

End BookingClaim.

(** ** The inquiry lifecycle *)

Section InquiryFacts.

Import Inquiry.

Context {W : Type}.

Abbreviation state := (InquiryService W * W)%type.

(** The listeners of other services only see the value. *)
Lemma notify_all_external (onMessage : reference -> state -> outcome state)
    (exts : list (ServiceListener Inquiry W)) (data : reference) (seen : Inquiry)
    (svc : InquiryService W) (w : W) :
  deref data svc = Returns seen ->
  notify_all onMessage (external <$> exts) data (svc, w) =
    w' ← notify exts seen w; Returns (svc, w').
Proof.
  intros Hd. revert w. induction exts as [|l exts IH]; intros w; simpl; [done |].
  rewrite Hd. simpl. destruct (l seen w) as [w1| | |]; simpl; [apply IH | done ..].
Qed.

(** Publishing a stored inquiry that is no longer RECEIVED: the entry is
    assigned to itself, [inqlstn] lets it pass, the others are told. *)
Lemma OnMessage_settled (fuel : nat) (exts : list (ServiceListener Inquiry W))
    (key : string) (seen : Inquiry) (svc : InquiryService W) (w : W) :
  listeners svc = inqlstn :: (external <$> exts) ->
  inquiries svc !! key = Some seen ->
  GetInquiryId seen = key ->
  GetState seen <> RECEIVED ->
  OnMessage (S fuel) (stored key) (svc, w) =
    w' ← notify exts seen w; Returns (svc, w').
Proof.
  intros Hls Hk Hid Hst. simpl. rewrite Hk. simpl. rewrite Hid, Hls.
  rewrite insert_id by done. simpl. rewrite Hk. simpl.
  assert (Hsvc : mkInquiryService (inquiries svc) (inqlstn :: (external <$> exts)) = svc)
    by (destruct svc; simpl in *; by subst).
  rewrite Hsvc.
  assert (Hpass : ProcessAdd (OnMessage fuel) seen (svc, w) = Returns (svc, w))
    by (unfold ProcessAdd; by destruct (GetState seen)).
  rewrite Hpass. simpl.
  apply notify_all_external. simpl. by rewrite Hk.
Qed.

(** A callback that publishes settled inquiries as [OnMessage] does. *)
Definition publishes_settled (exts : list (ServiceListener Inquiry W))
    (onMessage : reference -> state -> outcome state) : Prop :=
  forall (key : string) (seen : Inquiry) (svc : InquiryService W) (w : W),
    listeners svc = inqlstn :: (external <$> exts) ->
    inquiries svc !! key = Some seen ->
    GetInquiryId seen = key ->
    GetState seen <> RECEIVED ->
    onMessage (stored key) (svc, w) = w' ← notify exts seen w; Returns (svc, w').

(** The quote: price set, then QUOTED and DONE each written to the
    stored element and published. *)
Lemma SendQuote_received (onMessage : reference -> state -> outcome state)
    (exts : list (ServiceListener Inquiry W)) (data : Inquiry) (price : double)
    (m : gmap string Inquiry) (w : W) :
  publishes_settled exts onMessage ->
  GetState data = RECEIVED ->
  m !! GetInquiryId data = Some data ->
  let ls := inqlstn :: (external <$> exts) in
  let quoted := SetState QUOTED (SetPrice price data) in
  let done := SetState DONE quoted in
  SendQuote onMessage (GetInquiryId data) price (mkInquiryService m ls, w) =
    w1 ← notify exts quoted w;
    w2 ← notify exts done w1;
    Returns (mkInquiryService (<[GetInquiryId data := done]> m) ls, w2).
Proof.
  intros Hcb Hst Hm. cbv zeta.
  unfold SendQuote, GetData, Publish, update, deref. simpl.
  rewrite Hm. simpl. rewrite lookup_alter_eq, Hm. simpl. rewrite Hst.
  rewrite alter_alter_eq.
  assert (Hq : alter (SetState QUOTED ∘ SetPrice price) (GetInquiryId data) m
               = <[GetInquiryId data := SetState QUOTED (SetPrice price data)]> m).
  { rewrite <- (insert_id m _ _ Hm) at 1. by rewrite alter_insert_eq. }
  rewrite Hq.
  rewrite (Hcb (GetInquiryId data) (SetState QUOTED (SetPrice price data)));
    [| done | simpl; apply lookup_insert_eq | done | done].
  destruct (notify exts _ w) as [w1| | |]; simpl; try done.
  rewrite alter_insert_eq.
  rewrite (Hcb (GetInquiryId data) (SetState DONE (SetState QUOTED (SetPrice price data))));
    [| done | simpl; apply lookup_insert_eq | done | done].
  reflexivity.
Qed.

Lemma OnMessage_received (f : nat) (exts : list (ServiceListener Inquiry W))
    (data : Inquiry) (m : gmap string Inquiry) (w : W) :
  publishes_settled exts (OnMessage f) ->
  GetState data = RECEIVED ->
  let ls := inqlstn :: (external <$> exts) in
  let quoted := SetState QUOTED (SetPrice (of_Q 100) data) in
  let done := SetState DONE quoted in
  OnMessage (S f) (local data) (mkInquiryService m ls, w) =
    w1 ← notify exts quoted w;
    w2 ← notify exts done w1;
    w3 ← notify exts data w2;
    Returns (mkInquiryService (<[GetInquiryId data := done]> m) ls, w3).
Proof.
  intros Hcb Hst. cbv zeta. simpl. unfold ProcessAdd. rewrite Hst.
  rewrite (SendQuote_received (OnMessage f) exts data (of_Q 100)
             (<[GetInquiryId data := data]> m) w Hcb Hst) by apply lookup_insert_eq.
  rewrite insert_insert_eq.
  destruct (notify exts _ w) as [w1| | |]; simpl; try done.
  destruct (notify exts _ w1) as [w2| | |]; simpl; try done.
  by rewrite (notify_all_external _ exts (local data) data).
Qed.

End InquiryFacts.

Section InquiryClaims.

Import Inquiry.

(** C8.  An inquiry arriving in state RECEIVED at a service assembled by
    its constructor plus [AddListener] calls is, within that one call of
    [OnMessage]: stored; priced at 100 and moved to QUOTED in the store,
    and published to the listeners; moved to DONE in the store and
    published again; after which the remaining listeners of the outer
    call receive the value as it arrived.  When the call returns the
    stored inquiry is DONE at price 100. *)
Theorem received_inquiry_quoted_then_done {W : Type} (fuel : nat)
    (exts : list (ServiceListener Inquiry W)) (data : Inquiry)
    (svc : InquiryService W) (w : W) :
  GetState data = RECEIVED ->
  listeners svc = inqlstn :: (external <$> exts) ->
  (2 <= fuel)%nat ->
  let quoted := SetState QUOTED (SetPrice (of_Q 100) data) in
  let done := SetState DONE quoted in
  let final := mkInquiryService (<[GetInquiryId data := done]> (inquiries svc)) (listeners svc) in
  OnMessage fuel (local data) (svc, w) =
    (w1 ← notify exts quoted w;
     w2 ← notify exts done w1;
     w3 ← notify exts data w2;
     Returns (final, w3)) /\
  inquiries final !! GetInquiryId data = Some done /\
  GetState quoted = QUOTED /\ GetState done = DONE /\
  GetPrice quoted = of_Q 100 /\ GetPrice done = of_Q 100.
Proof.
  intros Hst Hls Hfuel. cbv zeta. split.
  2: { simpl. rewrite lookup_insert_eq. done. }
  destruct fuel as [|[|fuel]]; [lia | lia |].
  destruct svc as [m ls]. simpl in Hls. subst ls.
  apply (OnMessage_received (S fuel)); [| done].
  intros key seen svc w'. apply OnMessage_settled.
Qed.

Lemma received_inquiry_quoted_then_done_witness :
  let inq := mkInquiry "INQ1" US2Y TradeBooking.BUY 1000000 price_99_16 RECEIVED in
  let svc := AddListener (external recorder) new_InquiryService in
  let quoted := mkInquiry "INQ1" US2Y TradeBooking.BUY 1000000 (of_Q 100) QUOTED in
  let done := mkInquiry "INQ1" US2Y TradeBooking.BUY 1000000 (of_Q 100) DONE in
  OnMessage 2 (local inq) (svc, []) =
    Returns (mkInquiryService {[ "INQ1" := done ]} (listeners svc), [quoted; done; inq]).
Proof.
  cbv zeta.
  destruct (received_inquiry_quoted_then_done 2 [recorder]
              (mkInquiry "INQ1" US2Y TradeBooking.BUY 1000000 price_99_16 RECEIVED)
              (AddListener (external recorder) new_InquiryService) [])
    as [Hrun _]; [reflexivity | reflexivity | lia |].
  rewrite Hrun. reflexivity.
Defined.

(** C9.  [RejectInquiry] on a stored inquiry writes REJECTED into that
    entry and does nothing else: the other fields of the entry and every
    other entry are as before, the listener list is as before, and the
    rest of the system, on which the listeners act, is untouched: no
    listener is called. *)
Theorem reject_changes_state_only {W : Type} (inquiryId : string) (inq : Inquiry)
    (svc : InquiryService W) (w : W) :
  inquiries svc !! inquiryId = Some inq ->
  exists svc' : InquiryService W,
    RejectInquiry inquiryId (svc, w) = Returns (svc', w) /\
    listeners svc' = listeners svc /\
    inquiries svc' !! inquiryId =
      Some (mkInquiry (GetInquiryId inq) (GetProduct inq) (GetSide inq) (GetQuantity inq)
              (GetPrice inq) REJECTED) /\
    forall other : string, other <> inquiryId ->
      inquiries svc' !! other = inquiries svc !! other.
Proof.
  intros Hs. eexists. unfold RejectInquiry, GetData. simpl. rewrite Hs. simpl.
  split; [reflexivity |]. simpl. split; [reflexivity |]. split.
  - by rewrite lookup_alter_eq, Hs.
  - intros other Hne. by rewrite lookup_alter_ne.
Qed.

Lemma reject_changes_state_only_witness :
  let inq := mkInquiry "INQ1" US2Y TradeBooking.BUY 1000000 price_99_16 RECEIVED in
  let other := mkInquiry "INQ2" US3Y TradeBooking.SELL 2000000 (of_Q 100) DONE in
  let svc := mkInquiryService {[ "INQ1" := inq; "INQ2" := other ]} [inqlstn; external recorder] in
  exists svc' : InquiryService (list Inquiry),
    RejectInquiry "INQ1" (svc, []) = Returns (svc', []) /\
    inquiries svc' !! "INQ1" =
      Some (mkInquiry "INQ1" US2Y TradeBooking.BUY 1000000 price_99_16 REJECTED) /\
    inquiries svc' !! "INQ2" = Some other.
Proof.
  cbv zeta.
  destruct (reject_changes_state_only "INQ1"
              (mkInquiry "INQ1" US2Y TradeBooking.BUY 1000000 price_99_16 RECEIVED)
              (mkInquiryService
                 {[ "INQ1" := mkInquiry "INQ1" US2Y TradeBooking.BUY 1000000 price_99_16 RECEIVED;
                    "INQ2" := mkInquiry "INQ2" US3Y TradeBooking.SELL 2000000 (of_Q 100) DONE ]}
                 [inqlstn; external recorder]) [])
    as (svc' & Hrun & _ & Hentry & Hothers); [reflexivity |].
  exists svc'. split; [exact Hrun |]. split; [exact Hentry |].
  rewrite (Hothers "INQ2") by done. reflexivity.
Defined.

(** Without the entry the call throws and nothing is written. *)
Lemma RejectInquiry_not_found {W : Type} (inquiryId : string) (svc : InquiryService W) (w : W) :
  inquiries svc !! inquiryId = None ->
  RejectInquiry inquiryId (svc, w) = Throws ("inquiry not found for key: " +:+ inquiryId).
Proof. intros Hs. unfold RejectInquiry, GetData. simpl. by rewrite Hs. Qed.

End InquiryClaims.

(** ** Positions *)

Section PositionFacts.

Import TradeBooking Position.

Lemma AddPosition_product (book : string) (quantity : Z) (position : Position) :
  GetProduct (AddPosition book quantity position) = GetProduct position.
Proof. unfold AddPosition. by destruct (GetPositions position !! book). Qed.

Lemma AddPosition_lookup (book b : string) (quantity : Z) (position : Position) :
  GetPositions (AddPosition book quantity position) !! b =
    if decide (b = book) then
      Some (match GetPositions position !! book with
            | Some q => Long.add q quantity
            | None => quantity
            end)
    else GetPositions position !! b.
Proof.
  unfold AddPosition. destruct (GetPositions position !! book) eqn:Hb; simpl;
    case_decide; subst; by rewrite ?lookup_insert_eq, ?lookup_insert_ne by done.
Qed.

(** The record built for a trade holds the traded book only. *)
Lemma UpdatePositionFromTrade_new (t : Trade) (b : string) :
  GetPositions (UpdatePositionFromTrade t (new_Position (TradeBooking.GetProduct t))) !! b =
    if decide (b = GetBook t) then Some (delta t) else None.
Proof.
  unfold UpdatePositionFromTrade, delta.
  destruct (TradeBooking.GetSide t); rewrite AddPosition_lookup; simpl;
    rewrite lookup_empty; by case_decide.
Qed.

(** Merging adds every book of the stored record into the fresh one. *)
Lemma MergePositions_lookup (fromPosition toPosition : Position) (b : string) :
  GetPositions (MergePositions fromPosition toPosition) !! b =
    match GetPositions fromPosition !! b with
    | Some q =>
        Some (match GetPositions toPosition !! b with
              | Some d => Long.add d q
              | None => q
              end)
    | None => GetPositions toPosition !! b
    end.
Proof.
  unfold MergePositions. revert b.
  apply (map_fold_weak_ind
    (fun (acc : Position) (m : gmap string Z) => forall b,
       GetPositions acc !! b =
         match m !! b with
         | Some q => Some (match GetPositions toPosition !! b with
                           | Some d => Long.add d q
                           | None => q
                           end)
         | None => GetPositions toPosition !! b
         end)).
  - intros b. by rewrite lookup_empty.
  - intros book q m acc Hfresh IH b. rewrite AddPosition_lookup.
    case_decide as Hb.
    + subst b. rewrite lookup_insert_eq. rewrite (IH book), Hfresh.
      by destruct (GetPositions toPosition !! book).
    + rewrite lookup_insert_ne by done. apply IH.
Qed.

Lemma MergePositions_product (fromPosition toPosition : Position) :
  GetProduct (MergePositions fromPosition toPosition) = GetProduct toPosition.
Proof.
  unfold MergePositions.
  apply (map_fold_weak_ind
    (fun (acc : Position) (_ : gmap string Z) => GetProduct acc = GetProduct toPosition)).
  - done.
  - intros book q m acc _ IH. by rewrite AddPosition_product.
Qed.

(** The store after one trade, read book by book. *)
Lemma AddTrade_store_held (t : Trade) (store : gmap string Position)
    (productId book : string) :
  held (AddTrade_store t store).2 productId book =
    if on_book productId book t then
      Some (match held store productId book with
            | Some q => Long.add (delta t) q
            | None => delta t
            end)
    else held store productId book.
Proof.
  unfold held, AddTrade_store, on_book.
  destruct (decide (GetProductId (TradeBooking.GetProduct t) = productId)) as [Hp | Hp].
  - subst productId.
    destruct (store !! GetProductId (TradeBooking.GetProduct t)) as [stored|] eqn:Hs;
      simpl; rewrite lookup_insert_eq; simpl.
    + rewrite MergePositions_lookup, UpdatePositionFromTrade_new.
      destruct (decide (book = GetBook t)) as [-> | Hb].
      * rewrite bool_decide_eq_true_2 by done.
        by destruct (GetPositions stored !! GetBook t).
      * rewrite bool_decide_eq_false_2 by (intros [_ ?]; congruence).
        by destruct (GetPositions stored !! book).
    + rewrite UpdatePositionFromTrade_new.
      destruct (decide (book = GetBook t)) as [-> | Hb].
      * by rewrite bool_decide_eq_true_2.
      * by rewrite bool_decide_eq_false_2 by (intros [_ ?]; congruence).
  - rewrite bool_decide_eq_false_2 by (by intros [? _]).
    destruct (store !! GetProductId (TradeBooking.GetProduct t)); simpl;
      by rewrite lookup_insert_ne.
Qed.

(** The record handed to the listeners is the one stored. *)
Lemma AddTrade_store_emitted (t : Trade) (store : gmap string Position) :
  (AddTrade_store t store).2 !! GetProductId (TradeBooking.GetProduct t)
    = Some (AddTrade_store t store).1 /\
  GetProduct (AddTrade_store t store).1 = TradeBooking.GetProduct t.
Proof.
  unfold AddTrade_store.
  destruct (store !! GetProductId (TradeBooking.GetProduct t)); simpl;
    rewrite lookup_insert_eq; (split; [done |]).
  - rewrite MergePositions_product. unfold UpdatePositionFromTrade.
    destruct (TradeBooking.GetSide t); by rewrite AddPosition_product.
  - unfold UpdatePositionFromTrade.
    destruct (TradeBooking.GetSide t); by rewrite AddPosition_product.
Qed.

Lemma delta_signed (t : Trade) :
  Long.in_range (TradeBooking.GetQuantity t) -> delta t = Long.wrap (signed t).
Proof.
  intros Hq. unfold delta, signed. destruct (TradeBooking.GetSide t).
  - by rewrite wrap_in_range.
  - reflexivity.
Qed.

Lemma traded_snoc (productId book : string) (ts : list Trade) (t : Trade) :
  traded productId book (ts ++ [t]) = traded productId book ts || on_book productId book t.
Proof. unfold traded. rewrite existsb_app. simpl. by rewrite orb_false_r. Qed.

Lemma book_sum_snoc (productId book : string) (ts : list Trade) (t : Trade) :
  book_sum productId book (ts ++ [t]) =
    book_sum productId book ts + (if on_book productId book t then signed t else 0).
Proof. induction ts as [|t' ts IH]; simpl; [lia | rewrite IH; lia]. Qed.

Lemma book_sum_untraded (productId book : string) (ts : list Trade) :
  traded productId book ts = false -> book_sum productId book ts = 0.
Proof.
  unfold traded. induction ts as [|t ts IH]; simpl; [done |].
  intros [Ht Hts]%orb_false_elim. rewrite Ht, IH by done. done.
Qed.

(** The invariant of the store: per product and book, the [long] sum of
    the signed quantities traded there, and no entry where nothing was
    traded. *)
Lemma store_after_held (ts : list Trade) (productId book : string) :
  Forall (fun t => Long.in_range (TradeBooking.GetQuantity t)) ts ->
  held (store_after ts ∅) productId book =
    if traded productId book ts then Some (Long.wrap (book_sum productId book ts)) else None.
Proof.
  induction ts as [|t ts IH] using rev_ind; intros Hq.
  - done.
  - apply Forall_app in Hq as [Hts Ht]. rewrite Forall_singleton in Ht.
    unfold store_after in *. rewrite foldl_snoc.
    rewrite AddTrade_store_held, IH, traded_snoc, book_sum_snoc by done.
    destruct (on_book productId book t) eqn:Hon.
    + rewrite orb_true_r. rewrite delta_signed by done. f_equal.
      destruct (traded productId book ts) eqn:Htr.
      * unfold Long.add. rewrite wrap_add_l, wrap_add_r. f_equal. lia.
      * rewrite book_sum_untraded by done. done.
    + by rewrite orb_false_r, Z.add_0_r.
Qed.

(** The aggregate is the [long] sum of the book-level quantities. *)
Lemma GetAggregatePosition_total (position : Position) :
  GetAggregatePosition position = Long.wrap (book_total position).
Proof.
  unfold GetAggregatePosition, book_total. rewrite map_fold_foldr.
  induction (map_to_list (GetPositions position)) as [|[book q] l IH]; simpl.
  - reflexivity.
  - rewrite IH. unfold Long.add. rewrite wrap_add_l. f_equal. unfold Zsum.
    change (list_fmap (string * Z)%type Z snd l) with (l.*2). lia.
Qed.

Section Runs.

Context {W : Type}.

Lemma run_trades_store (ts : list Trade) (svc svc' : PositionService W) (w w' : W) :
  run_trades ts svc w = Returns (svc', w') ->
  positions svc' = store_after ts (positions svc) /\ listeners svc' = listeners svc.
Proof.
  revert svc w. induction ts as [|t ts IH]; intros svc w; simpl.
  - by intros [= <- <-].
  - unfold AddTrade at 1.
    destruct (AddTrade_store t (positions svc)) as [newPosition store] eqn:Hst.
    destruct (notify (listeners svc) newPosition w) as [w1| | |]; simpl; try done.
    intros Hrun. by apply IH in Hrun as [-> ->].
Qed.

(** With no listener registered every trade is processed. *)
Lemma run_trades_returns (ts : list Trade) (store : gmap string Position) (w : W) :
  run_trades ts (mkPositionService store []) w
    = Returns (mkPositionService (store_after ts store) [], w).
Proof.
  revert store. induction ts as [|t ts IH]; intros store; simpl; [done |].
  unfold AddTrade at 1. simpl.
  change (store_after (t :: ts) store) with (store_after ts (AddTrade_store t store).2).
  destruct (AddTrade_store t store) as [newPosition store'] eqn:Hst. simpl.
  by rewrite IH.
Qed.

End Runs.

End PositionFacts.

Section PositionClaim.

Import TradeBooking Position.

(** C5.  After any sequence of trades processed by [AddTrade] from the
    empty store, for every product in the store: a book is present
    exactly when a trade on it was processed, its quantity is the sum,
    formed in [long], of the signed quantities of all trades of that
    product on that book (the plain sum whenever that fits a [long]), and
    the aggregate position is the sum, formed in [long], of the
    book-level quantities (the plain sum whenever that fits). *)
Theorem positions_net_signed_quantities {W : Type}
    (ls : list (ServiceListener Position W)) (ts : list Trade)
    (svc' : PositionService W) (w w' : W) :
  Forall (fun t => Long.in_range (TradeBooking.GetQuantity t)) ts ->
  run_trades ts (new_PositionService ls) w = Returns (svc', w') ->
  forall (productId : string) (position : Position),
    positions svc' !! productId = Some position ->
    (forall book : string,
       GetPositions position !! book =
         if traded productId book ts
         then Some (Long.wrap (book_sum productId book ts))
         else None) /\
    (forall (book : string) (q : Z),
       GetPositions position !! book = Some q ->
       Long.in_range (book_sum productId book ts) ->
       q = book_sum productId book ts) /\
    GetAggregatePosition position = Long.wrap (book_total position) /\
    (Long.in_range (book_total position) ->
     GetAggregatePosition position = book_total position).
Proof.
  intros Hq Hrun productId position Hp.
  apply run_trades_store in Hrun as [Hstore _]. simpl in Hstore.
  assert (Hbooks : forall book : string,
            GetPositions position !! book =
              if traded productId book ts
              then Some (Long.wrap (book_sum productId book ts))
              else None).
  { intros book. rewrite <- (store_after_held ts productId book Hq).
    unfold held. rewrite <- Hstore, Hp. reflexivity. }
  split; [exact Hbooks |]. split.
  - intros book q Hb Hfit. rewrite Hbooks in Hb.
    destruct (traded productId book ts); [| done].
    injection Hb as <-. by apply wrap_in_range.
  - split.
    + apply GetAggregatePosition_total.
    + intros Hfit. rewrite GetAggregatePosition_total. by apply wrap_in_range.
Qed.

Lemma positions_net_signed_quantities_witness :
  let ts := [mkTrade US2Y "T1" price_99_16 "TRSY1" 3000000 BUY;
             mkTrade US2Y "T2" price_99_17 "TRSY2" 2000000 BUY;
             mkTrade US3Y "T3" price_99_16 "TRSY1" 5000000 SELL;
             mkTrade US2Y "T4" price_99_16 "TRSY1" 1000000 SELL] in
  let position := mkPosition US2Y {[ "TRSY1" := 2000000; "TRSY2" := 2000000 ]} in
  exists svc' : PositionService unit,
    run_trades ts (new_PositionService []) () = Returns (svc', ()) /\
    positions svc' !! "91282CJL6" = Some position /\
    GetPositions position !! "TRSY1" = Some (book_sum "91282CJL6" "TRSY1" ts) /\
    GetAggregatePosition position = book_total position /\
    book_total position = 4000000.
Proof.
  cbv zeta. eexists. split; [vm_compute; reflexivity |]. split; [vm_compute; reflexivity |].
  set (ts := [mkTrade US2Y "T1" price_99_16 "TRSY1" 3000000 BUY;
              mkTrade US2Y "T2" price_99_17 "TRSY2" 2000000 BUY;
              mkTrade US3Y "T3" price_99_16 "TRSY1" 5000000 SELL;
              mkTrade US2Y "T4" price_99_16 "TRSY1" 1000000 SELL]).
  assert (Hq : Forall (fun t => Long.in_range (TradeBooking.GetQuantity t)) ts).
  { repeat constructor; simpl; unfold Long.LONG_MIN, Long.LONG_MAX; lia. }
  assert (Hrun : run_trades ts (new_PositionService []) ()
                 = Returns (mkPositionService (store_after ts ∅) [], ()))
    by apply run_trades_returns.
  assert (Hpos : positions (mkPositionService (W := unit) (store_after ts ∅) []) !! "91282CJL6"
                 = Some (mkPosition US2Y {[ "TRSY1" := 2000000; "TRSY2" := 2000000 ]}))
    by (vm_compute; reflexivity).
  destruct (positions_net_signed_quantities (W := unit) [] ts _ () () Hq Hrun
              "91282CJL6" (mkPosition US2Y {[ "TRSY1" := 2000000; "TRSY2" := 2000000 ]})
              Hpos) as (_ & Hbook & _ & Hagg).
  split.
  - rewrite <- (Hbook "TRSY1" 2000000).
    + vm_compute; reflexivity.
    + vm_compute; reflexivity.
    + vm_compute. split; discriminate.
  - split; [| vm_compute; reflexivity]. apply Hagg. vm_compute. split; discriminate.
Defined.

End PositionClaim.

(** ** Risk *)

Section RiskFacts.

Import TradeBooking.

(** One trade through the position service into the risk service. *)
Lemma AddTrade_into_risk (t : Trade) (store : gmap string Position.Position)
    (pvs : gmap string (Risk.PV01 Bond)) (log : risk_log) :
  let newPosition := (Position.AddTrade_store t store).1 in
  let product := Position.GetProduct newPosition in
  let pv := Risk.mkPV01 product (Utils.calculatePV01 (GetProductId product))
              (Position.GetAggregatePosition newPosition) in
  Position.AddTrade t
    (Position.mkPositionService store [Risk.PositionRiskListner_ProcessAdd])
    (Risk.mkRiskService pvs [recorder], log)
  = Returns
      (Position.mkPositionService (Position.AddTrade_store t store).2
         [Risk.PositionRiskListner_ProcessAdd],
       (Risk.mkRiskService (<[GetProductId product := pv]> pvs) [recorder], log ++ [pv])).
Proof.
  cbv zeta. unfold Position.AddTrade. simpl.
  by destruct (Position.AddTrade_store t store) as [newPosition store'].
Qed.

(** A buy of [a] and a sell of [b] on one book leave that book, and
    nothing else, at [a - b]. *)
Lemma two_opposite_trades (product : Bond) (id1 id2 book : string) (price1 price2 : double)
    (a b : Z) :
  0 <= b -> b < a -> a <= Long.LONG_MAX ->
  let t1 := mkTrade product id1 price1 book a BUY in
  let t2 := mkTrade product id2 price2 book b SELL in
  let position := (Position.AddTrade_store t2 (Position.AddTrade_store t1 ∅).2).1 in
  Position.GetProduct position = product /\
  Position.GetPositions position = {[ book := a - b ]} /\
  Position.GetAggregatePosition position = a - b.
Proof.
  intros Hb Hab Ha. cbv zeta.
  set (t1 := mkTrade product id1 price1 book a BUY).
  set (t2 := mkTrade product id2 price2 book b SELL).
  set (position := (Position.AddTrade_store t2 (Position.AddTrade_store t1 ∅).2).1).
  destruct (AddTrade_store_emitted t2 (Position.AddTrade_store t1 ∅).2) as [Hstored Hprod].
  fold position in Hstored, Hprod. simpl in Hstored, Hprod.
  assert (Hrange : forall z, 0 <= z <= a -> Long.in_range z).
  { intros z Hz. unfold Long.in_range, Long.LONG_MIN, Long.LONG_MAX in *. lia. }
  assert (Hbooks : Position.GetPositions position = {[ book := a - b ]}).
  { apply map_eq. intros book'.
    assert (Hq : Forall (fun t => Long.in_range (GetQuantity t)) [t1; t2]).
    { repeat constructor; simpl; apply Hrange; lia. }
    pose proof (store_after_held [t1; t2] (GetProductId product) book' Hq) as Hheld.
    unfold held, store_after in Hheld. simpl in Hheld.
    rewrite Hstored in Hheld. simpl in Hheld. rewrite Hheld.
    unfold traded, on_book, signed. simpl.
    destruct (decide (book' = book)) as [-> | Hne].
    - rewrite !bool_decide_eq_true_2 by done. simpl.
      rewrite lookup_singleton_eq. f_equal.
      rewrite wrap_in_range by (apply Hrange; lia). lia.
    - rewrite !bool_decide_eq_false_2 by (intros [_ ?]; congruence). simpl.
      by rewrite lookup_singleton_ne. }
  split; [done |]. split; [done |].
  rewrite GetAggregatePosition_total. unfold book_total. rewrite Hbooks.
  rewrite map_to_list_singleton. simpl.
  rewrite wrap_in_range by (apply Hrange; lia). lia.
Qed.

End RiskFacts.

Section RiskClaim.

Import TradeBooking.

(** C1, as the code has it.  For every position update processed by
    [RiskService::AddPosition], the PV01 record stored under the product
    id and handed to the listeners carries the static per-product factor
    itself as its value and the position's aggregate quantity as its
    quantity.  After a buy of [a] and a sell of [b] on the same book,
    [0 <= b < a], the stored record has value [f] and quantity [a - b],
    [f] being the factor of the product. *)
Theorem pv01_record_factor_and_quantity :
  (forall (W : Type) (position : Position.Position) (svc : Risk.RiskService W) (w : W),
     let product := Position.GetProduct position in
     let pv := Risk.mkPV01 product (Utils.calculatePV01 (GetProductId product))
                 (Position.GetAggregatePosition position) in
     Risk.AddPosition position svc w =
       w' ← notify (Risk.listeners svc) pv w;
       Returns (Risk.mkRiskService (<[GetProductId product := pv]> (Risk.pvs svc))
                  (Risk.listeners svc), w')) /\
  (forall (product : Bond) (id1 id2 book : string) (price1 price2 : double) (a b : Z),
     0 <= b -> b < a -> a <= Long.LONG_MAX ->
     let f := Utils.calculatePV01 (GetProductId product) in
     exists (possvc : Position.PositionService (Risk.RiskService risk_log * risk_log))
            (risksvc : Risk.RiskService risk_log),
       run_trades [mkTrade product id1 price1 book a BUY;
                   mkTrade product id2 price2 book b SELL]
         position_to_risk (risk_recorded, [])
         = Returns (possvc, (risksvc,
                      [Risk.mkPV01 product f a; Risk.mkPV01 product f (a - b)])) /\
       Risk.pvs risksvc !! GetProductId product = Some (Risk.mkPV01 product f (a - b))).
Proof.
  split.
  - intros W position svc w. reflexivity.
  - intros product id1 id2 book price1 price2 a b Hb Hab Ha. cbv zeta.
    set (t1 := mkTrade product id1 price1 book a BUY).
    set (t2 := mkTrade product id2 price2 book b SELL).
    destruct (two_opposite_trades product id1 id2 book price1 price2 a b Hb Hab Ha)
      as (Hprod & _ & Hagg).
    fold t1 t2 in Hprod, Hagg.
    assert (Hfirst : Position.GetAggregatePosition (Position.AddTrade_store t1 ∅).1 = a).
    { rewrite GetAggregatePosition_total. unfold book_total.
      assert (Hone : Position.GetPositions (Position.AddTrade_store t1 ∅).1 = {[ book := a ]}).
      { unfold Position.AddTrade_store. rewrite lookup_empty. simpl.
        unfold Position.UpdatePositionFromTrade, Position.AddPosition. simpl.
        rewrite lookup_empty. simpl. apply insert_empty. }
      rewrite Hone, map_to_list_singleton. simpl.
      rewrite wrap_in_range; [lia |].
      unfold Long.in_range, Long.LONG_MIN, Long.LONG_MAX in *. lia. }
    unfold run_trades, position_to_risk, risk_recorded,
      Position.new_PositionService, Risk.new_RiskService.
    rewrite (AddTrade_into_risk t1). cbn [mbind outcome_bind].
    rewrite (AddTrade_into_risk t2). cbn [mbind outcome_bind].
    rewrite Hprod, Hagg, Hfirst.
    destruct (AddTrade_store_emitted t1 ∅) as [_ Hprod1]. rewrite Hprod1. simpl.
    eexists. eexists. split; [reflexivity |]. simpl. apply lookup_insert_eq.
Qed.

Lemma pv01_record_factor_and_quantity_witness :
  exists (possvc : Position.PositionService (Risk.RiskService risk_log * risk_log))
         (risksvc : Risk.RiskService risk_log),
    run_trades [mkTrade US2Y "T1" price_99_16 "TRSY1" 3000000 BUY;
                mkTrade US2Y "T2" price_99_17 "TRSY1" 1000000 SELL]
      position_to_risk (risk_recorded, [])
      = Returns (possvc, (risksvc,
                   [Risk.mkPV01 US2Y (of_Q (1 # 100)) 3000000;
                    Risk.mkPV01 US2Y (of_Q (1 # 100)) 2000000])) /\
    Risk.pvs risksvc !! "91282CJL6" = Some (Risk.mkPV01 US2Y (of_Q (1 # 100)) 2000000).
Proof.
  destruct pv01_record_factor_and_quantity as [_ Hscenario].
  apply (Hscenario US2Y "T1" "T2" "TRSY1" price_99_16 price_99_17 3000000 1000000).
  - lia.
  - lia.
  - unfold Long.LONG_MAX. lia.
Defined.

(** C1, as stated, fails: after a buy of 3,000,000 and a sell of
    1,000,000 of the 2-year note on TRSY1 the stored PV01 record has
    quantity 2,000,000 and value 0.01, the factor, whereas the factor
    times the quantity is 20,000. *)
Lemma pv01_value_not_factor_times_quantity :
  exists (possvc : Position.PositionService (Risk.RiskService risk_log * risk_log))
         (risksvc : Risk.RiskService risk_log) (log : risk_log) (pv : Risk.PV01 Bond),
    run_trades [mkTrade US2Y "T1" price_99_16 "TRSY1" 3000000 BUY;
                mkTrade US2Y "T2" price_99_17 "TRSY1" 1000000 SELL]
      position_to_risk (risk_recorded, [])
      = Returns (possvc, (risksvc, log)) /\
    Risk.pvs risksvc !! "91282CJL6" = Some pv /\
    last log = Some pv /\
    Risk.GetQuantity pv = 3000000 - 1000000 /\
    Risk.GetPV01 pv = Utils.calculatePV01 "91282CJL6" /\
    Risk.GetPV01 pv <>
      (Utils.calculatePV01 "91282CJL6" * of_long (3000000 - 1000000))%Qc.
Proof.
  do 4 eexists. split; [reflexivity |]. split; [reflexivity |]. split; [reflexivity |].
  split; [reflexivity |]. split; [reflexivity |].
  intros Heq. apply (f_equal this) in Heq. vm_compute in Heq. discriminate.
Qed.

End RiskClaim.

(** * Further properties *)

(** ** Prices as text *)

Section DoubleArithmetic.

Lemma this_add (x y : double) : (this (x + y)%Qc == this x + this y)%Q.
Proof. simpl. apply Qred_correct. Qed.

Lemma this_sub (x y : double) : (this (x - y)%Qc == this x - this y)%Q.
Proof.
  unfold Qcminus. rewrite this_add. simpl. rewrite Qred_correct. reflexivity.
Qed.

Lemma this_mul (x y : double) : (this (x * y)%Qc == this x * this y)%Q.
Proof. simpl. apply Qred_correct. Qed.

Lemma this_div (x y : double) : (this (x / y)%Qc == this x / this y)%Q.
Proof.
  unfold Qcdiv. rewrite this_mul. simpl. rewrite Qred_correct. reflexivity.
Qed.

Lemma this_of_long (z : Z) : Z.abs z <= 2 ^ 53 -> (this (of_long z) == inject_Z z)%Q.
Proof. intros Hz. unfold of_long. rewrite nearest_double_exact by done. apply Qred_correct. Qed.

Lemma this_of_Q (q : Q) : (this (of_Q q) == q)%Q.
Proof. simpl. apply Qred_correct. Qed.

(** Truncation of a non-negative double given as a fraction. *)
Lemma to_int_fraction (d : double) (n : Z) (den : positive) :
  (this d == n # den)%Q -> 0 <= n -> to_int d = Int.wrap (n / Zpos den).
Proof.
  intros Heq Hn. unfold to_int. f_equal.
  assert (Hnum : 0 <= Qnum (this d)).
  { assert (Hle : (0 <= this d)%Q).
    { rewrite Heq. unfold Qle. simpl. lia. }
    unfold Qle in Hle. simpl in Hle. lia. }
  rewrite Z.quot_div_nonneg by lia.
  change (Qnum (this d) / Z.pos (Qden (this d))) with (Qfloor (Qnum (this d) # Qden (this d))).
  replace (Qnum (this d) # Qden (this d)) with (this d) by (by destruct (this d)).
  rewrite Heq. reflexivity.
Qed.

Lemma Int_wrap_in_range (z : Z) : Int.in_range z -> Int.wrap z = z.
Proof.
  unfold Int.in_range, Int.INT_MIN, Int.INT_MAX, Int.wrap. intros Hz.
  rewrite Z.mod_small; lia.
Qed.

End DoubleArithmetic.

Section FormatPriceFacts.

Import Utils.

(** The value of a price string, as one fraction over 256. *)
Lemma ConvertBondPrice_value_fraction (whole thirtySecond : Z) (plus : bool) :
  Z.abs whole <= 2 ^ 53 ->
  Z.abs thirtySecond <= 2 ^ 53 ->
  (this (ConvertBondPrice_value whole thirtySecond plus)
     == (256 * whole + 8 * thirtySecond + (if plus then 4 else 0)) # 256)%Q.
Proof.
  intros Hw Ht. unfold ConvertBondPrice_value.
  rewrite !this_add, !this_div, !this_of_Q.
  rewrite (this_of_long whole), (this_of_long thirtySecond) by done.
  rewrite (this_of_long (if plus then 4 else 0)) by (destruct plus; simpl; lia).
  destruct plus; unfold Qeq, Qdiv, Qmult, Qplus, Qinv, inject_Z; simpl; lia.
Qed.

(** X1.  Writing a price that was read from [whole-thirtySecond] with an
    optional [+] gives that text back: the integer part, a dash, the
    32nds on two digits, and the [+]. *)
Theorem FormatPrice_of_ConvertBondPrice (whole thirtySecond : Z) (plus : bool) :
  0 <= whole <= Int.INT_MAX ->
  0 <= thirtySecond < 32 ->
  let digits :=
    ((to_string whole +:+ "-") +:+ (if thirtySecond <? 10 then "0" else ""))
      +:+ to_string thirtySecond in
  FormatPrice (ConvertBondPrice_value whole thirtySecond plus) =
    if plus then digits +:+ "+" else digits.
Proof.
  intros Hw Ht. cbv zeta.
  set (price := ConvertBondPrice_value whole thirtySecond plus).
  set (e := if plus then 4 else 0).
  assert (He : 0 <= e <= 4) by (unfold e; destruct plus; lia).
  assert (Hw53 : Z.abs whole <= 2 ^ 53) by (unfold Int.INT_MAX in Hw; lia).
  assert (Ht53 : Z.abs thirtySecond <= 2 ^ 53) by lia.
  pose proof (ConvertBondPrice_value_fraction whole thirtySecond plus Hw53 Ht53) as Hprice.
  fold price e in Hprice.
  assert (Hwhole : to_int price = whole).
  { rewrite (to_int_fraction price _ 256 Hprice) by lia.
    replace ((256 * whole + 8 * thirtySecond + e) / 256) with whole.
    - apply Int_wrap_in_range. unfold Int.in_range, Int.INT_MIN, Int.INT_MAX in *. lia.
    - apply Z.div_unique with (r := 8 * thirtySecond + e); lia. }
  set (fractionalPart := ((price - of_long whole) * of_Q 32)%Qc).
  assert (Hfrac : (this fractionalPart == (8 * thirtySecond + e) # 8)%Q).
  { unfold fractionalPart. rewrite this_mul, this_sub, this_of_Q, Hprice.
    rewrite (this_of_long whole) by done.
    unfold Qeq, Qmult, Qminus, Qplus, Qopp, inject_Z; simpl. lia. }
  assert (H32 : to_int fractionalPart = thirtySecond).
  { rewrite (to_int_fraction fractionalPart _ 8 Hfrac) by lia.
    replace ((8 * thirtySecond + e) / 8) with thirtySecond.
    - apply Int_wrap_in_range. unfold Int.in_range, Int.INT_MIN, Int.INT_MAX. lia.
    - apply Z.div_unique with (r := e); lia. }
  assert (H64 : to_int ((fractionalPart - of_long thirtySecond) * of_Q 2)%Qc
                = if plus then 1 else 0).
  { assert (Hq : (this ((fractionalPart - of_long thirtySecond) * of_Q 2)%Qc == e # 4)%Q).
    { rewrite this_mul, this_sub, this_of_Q, Hfrac.
      rewrite (this_of_long thirtySecond) by done.
      unfold Qeq, Qmult, Qminus, Qplus, Qopp, inject_Z; simpl. lia. }
    rewrite (to_int_fraction _ _ 4 Hq) by lia. unfold e. destruct plus; reflexivity. }
  unfold FormatPrice. fold price. rewrite Hwhole. fold fractionalPart.
  rewrite H32, H64. by destruct plus.
Qed.

Lemma FormatPrice_of_ConvertBondPrice_witness :
  FormatPrice price_99_16_plus = "99-16+" /\ FormatPrice (ConvertBondPrice_value 100 5 false) = "100-05".
Proof.
  split.
  - unfold price_99_16_plus.
    rewrite (FormatPrice_of_ConvertBondPrice 99 16 true); [reflexivity | |];
      unfold Int.INT_MAX; lia.
  - rewrite (FormatPrice_of_ConvertBondPrice 100 5 false); [reflexivity | |];
      unfold Int.INT_MAX; lia.
Defined.

(** X2.  The two reference tables agree: a CUSIP [GetBond] knows is given
    back as the bond's id and has a positive PV01 factor; for any other
    string [GetBond] returns the default bond and the factor is 0. *)
Theorem GetBond_calculatePV01_consistent (default : Bond) (cusip : string) :
  (GetProductId (GetBond default cusip) = cusip /\ (0 < calculatePV01 cusip)%Qc) \/
  (GetBond default cusip = default /\ calculatePV01 cusip = of_Q 0).
Proof.
  unfold GetBond, calculatePV01.
  destruct (String.eqb_spec cusip "91282CJL6") as [-> | _]; [left; by split |].
  destruct (String.eqb_spec cusip "91282CJK8") as [-> | _]; [left; by split |].
  destruct (String.eqb_spec cusip "91282CJN2") as [-> | _]; [left; by split |].
  destruct (String.eqb_spec cusip "91282CJM4") as [-> | _]; [left; by split |].
  destruct (String.eqb_spec cusip "91282CJJ1") as [-> | _]; [left; by split |].
  destruct (String.eqb_spec cusip "912810TW8") as [-> | _]; [left; by split |].
  destruct (String.eqb_spec cusip "912810TV0") as [-> | _]; [left; by split |].
  right. by split.
Qed.

End FormatPriceFacts.

(** ** Depth aggregation: the levels *)

Section AggregateOrdersLevels.

Import MarketData.

Lemma level_sum_unquoted (p : double) (orders : list Order) :
  quoted_at p orders = false -> level_sum p orders = 0.
Proof.
  unfold quoted_at. induction orders as [|o orders IH]; simpl; [done |].
  intros [Ho Hrest]%orb_false_elim. rewrite Ho, IH by done. done.
Qed.

Lemma foldl_add_order_lookup (orders : list Order) (m : gmap double Z) (p : double) :
  foldl add_order m orders !! p =
    if quoted_at p orders
    then Some (Long.wrap (default 0 (m !! p) + level_sum p orders))
    else m !! p.
Proof.
  revert m. induction orders as [|o orders IH]; intros m; [done |].
  simpl. rewrite IH. unfold add_order at 1 2. unfold Long.add.
  destruct (decide (GetPrice o = p)) as [Hp | Hp].
  - rewrite !bool_decide_eq_true_2 by done. subst p. rewrite lookup_insert_eq. simpl.
    destruct (quoted_at (GetPrice o) orders) eqn:Hq.
    + f_equal. rewrite wrap_add_l. f_equal. lia.
    + rewrite level_sum_unquoted by done. f_equal. f_equal. lia.
  - rewrite !bool_decide_eq_false_2 by done. simpl. by rewrite lookup_insert_ne.
Qed.

(** X5.  An aggregated side has one order per price quoted in the input, with
    the side passed to [AggregateOrders] (whatever side the input orders
    carry) and, as quantity, the sum formed in [long] of the quantities
    quoted at that price. *)
Theorem AggregateOrders_levels (iteration : gmap double Z -> list (double * Z))
    (orders : list Order) (type : PricingSide) :
  (forall m, iteration m ≡ₚ map_to_list m) ->
  NoDup (GetPrice <$> AggregateOrders iteration orders type) /\
  forall o : Order,
    o ∈ AggregateOrders iteration orders type <->
    GetSide o = type /\
    quoted_at (GetPrice o) orders = true /\
    GetQuantity o = Long.wrap (level_sum (GetPrice o) orders).
Proof.
  intros Hit. split; [by apply AggregateOrders_distinct_prices |].
  intros [p q s]. unfold AggregateOrders. rewrite list_elem_of_fmap. simpl. split.
  - intros ([p' q'] & [= -> -> ->] & Hin). simpl.
    rewrite Hit in Hin. apply elem_of_map_to_list in Hin.
    rewrite foldl_add_order_lookup, lookup_empty in Hin. simpl in Hin.
    destruct (quoted_at p' orders); [| done].
    injection Hin as <-. done.
  - intros (-> & Hq & ->). exists (p, Long.wrap (level_sum p orders)). split; [done |].
    rewrite Hit. apply elem_of_map_to_list.
    by rewrite foldl_add_order_lookup, lookup_empty, Hq.
Qed.

Lemma AggregateOrders_levels_witness :
  let bids := [mkOrder price_99_16 1000000 BID; mkOrder price_99_16_plus 2000000 OFFER;
               mkOrder price_99_16 3000000 BID] in
  mkOrder price_99_16 4000000 BID ∈ AggregateOrders map_to_list bids BID /\
  mkOrder price_99_16_plus 2000000 BID ∈ AggregateOrders map_to_list bids BID.
Proof.
  cbv zeta.
  set (bids := [mkOrder price_99_16 1000000 BID; mkOrder price_99_16_plus 2000000 OFFER;
                mkOrder price_99_16 3000000 BID]).
  destruct (AggregateOrders_levels map_to_list bids BID
              (fun m => reflexivity (map_to_list m))) as [_ Hlevels].
  split; apply Hlevels; (split; [reflexivity |]); (split; vm_compute; reflexivity).
Defined.

End AggregateOrdersLevels.

(** ** Market data ingestion *)

Section SubscribeFacts.

Import MarketData.

Context {W : Type}.
Variable default : Bond.

Lemma stacks_snoc (pending : list OrderData) (d : OrderData) :
  bids_of (pending ++ [d]) =
    match d.2 with BID => bids_of pending ++ [CreateOrder d] | OFFER => bids_of pending end /\
  offers_of (pending ++ [d]) =
    match d.2 with BID => offers_of pending | OFFER => offers_of pending ++ [CreateOrder d] end.
Proof.
  unfold bids_of, offers_of. rewrite !filter_app, !fmap_app.
  destruct d as [[[id price] quantity] side]. simpl.
  destruct side.
  - rewrite filter_cons_True by done. rewrite filter_cons_False by done.
    rewrite !filter_nil. simpl. by rewrite app_nil_r.
  - rewrite filter_cons_False by done. rewrite filter_cons_True by done.
    rewrite !filter_nil. simpl. by rewrite app_nil_r.
Qed.

(** Lines that do not complete a batch only accumulate. *)
Lemma Subscribe_loop_accumulates (n : Z) (pre rest pending : list OrderData) (c : Z)
    (mkt : MarketDataService W) (w : W) :
  0 <= c ->
  c `mod` n = Z.of_nat (length pending) ->
  Z.of_nat (length pending + length pre) < n ->
  c + Z.of_nat (length pre) <= Long.LONG_MAX ->
  Subscribe_loop default n (pre ++ rest) c (bids_of pending) (offers_of pending) mkt w =
    Subscribe_loop default n rest (c + Z.of_nat (length pre))
      (bids_of (pending ++ pre)) (offers_of (pending ++ pre)) mkt w.
Proof.
  revert pending c. induction pre as [|d pre IH]; intros pending c Hc Hmod Hlen Hmax.
  - simpl. by rewrite Z.add_0_r, app_nil_r.
  - simpl in Hlen, Hmax.
    assert (Hn : 0 < n) by lia.
    assert (Hincr : Long.incr c = c + 1).
    { apply incr_in_range. unfold Long.LONG_MAX in *. lia. }
    assert (Hnext : (c + 1) `mod` n = Z.of_nat (length (pending ++ [d]))).
    { rewrite length_app. simpl.
      rewrite Z.add_mod, Hmod by lia.
      rewrite (Z.mod_small 1) by lia.
      rewrite Z.mod_small by lia. lia. }
    destruct (stacks_snoc pending d) as [Hb Ho].
    cbn [Subscribe_loop app]. rewrite Hincr.
    rewrite (proj2 (Z.eqb_neq n 0)) by lia.
    unfold Long.rem. rewrite Z.rem_mod_nonneg by lia.
    rewrite (proj2 (Z.eqb_neq _ 0)) by (rewrite Hnext, length_app; simpl; lia).
    replace (match d.2 with BID => bids_of pending ++ [CreateOrder d] | OFFER => bids_of pending end)
      with (bids_of (pending ++ [d])) by (by rewrite Hb).
    replace (match d.2 with
             | BID => offers_of pending
             | OFFER => offers_of pending ++ [CreateOrder d]
             end)
      with (offers_of (pending ++ [d])) by (by rewrite Ho).
    rewrite (IH (pending ++ [d]) (c + 1)); [| lia | done | | ].
    + rewrite <- app_assoc. simpl. f_equal. lia.
    + rewrite length_app. simpl. lia.
    + lia.
Qed.

(** A complete batch is published as one book and the stacks start
    again. *)
Lemma Subscribe_loop_batch (n : Z) (batch rest : list OrderData) (c : Z)
    (mkt : MarketDataService W) (w : W) :
  0 <= c ->
  c `mod` n = 0 ->
  Z.of_nat (length batch) = n ->
  (0 < length batch)%nat ->
  c + n <= Long.LONG_MAX ->
  Subscribe_loop default n (batch ++ rest) c [] [] mkt w =
    '(mkt', w') ← OnMessage (book_of_batch default batch) mkt w;
    Subscribe_loop default n rest (c + n) [] [] mkt' w'.
Proof.
  intros Hc Hmod Hlen Hpos Hmax.
  destruct (exists_last (l := batch)) as (pre & d & ->).
  { intros ->. simpl in Hpos. lia. }
  rewrite length_app in Hlen. simpl in Hlen.
  rewrite <- app_assoc.
  change (@nil Order) with (bids_of []) at 1.
  change (@nil Order) with (offers_of []) at 1.
  rewrite (Subscribe_loop_accumulates n pre ([d] ++ rest) [] c); [| done | by rewrite Hmod | simpl; lia | lia].
  simpl app.
  assert (Hincr : Long.incr (c + Z.of_nat (length pre)) = c + n).
  { rewrite incr_in_range; [lia |]. unfold Long.LONG_MAX in *. lia. }
  destruct (stacks_snoc pre d) as [Hb Ho].
  cbn [Subscribe_loop]. rewrite Hincr.
  rewrite (proj2 (Z.eqb_neq n 0)) by lia.
  unfold Long.rem. rewrite Z.rem_mod_nonneg by lia.
  assert (Hflush : (c + n) `mod` n = 0).
  { rewrite Z.add_mod, Hmod, Z.mod_same by lia. simpl. apply Z.mod_0_l. lia. }
  rewrite Hflush. simpl Z.eqb. cbv iota.
  unfold book_of_batch. rewrite last_snoc. simpl from_option.
  fold (bids_of (pre ++ [d])). fold (offers_of (pre ++ [d])). rewrite Hb, Ho.
  reflexivity.
Qed.

Lemma Subscribe_loop_batches (n : nat) (k : nat) :
  forall (lines : list OrderData) (c : Z) (mkt : MarketDataService W) (w : W),
    (0 < n)%nat ->
    (length lines / n)%nat = k ->
    0 <= c ->
    c `mod` Z.of_nat n = 0 ->
    c + Z.of_nat (length lines) <= Long.LONG_MAX ->
    Subscribe_loop default (Z.of_nat n) lines c [] [] mkt w =
      publish_all (book_of_batch default <$> reshape (replicate k n) lines) mkt w.
Proof.
  induction k as [|k IH]; intros lines c mkt w Hn Hk Hc Hmod Hmax.
  - simpl. apply Nat.div_small_iff in Hk; [| lia].
    rewrite <- (app_nil_r lines) at 1.
    change (@nil Order) with (bids_of []) at 1.
    change (@nil Order) with (offers_of []) at 1.
    rewrite (Subscribe_loop_accumulates (Z.of_nat n) lines [] [] c);
      [done | done | by rewrite Hmod | simpl; lia | lia].
  - assert (Hlong : (n <= length lines)%nat).
    { destruct (decide (n <= length lines)%nat) as [? | Hshort]; [done |].
      rewrite Nat.div_small in Hk by lia. done. }
    simpl. rewrite <- (take_drop n lines) at 1.
    rewrite (Subscribe_loop_batch (Z.of_nat n) (take n lines) (drop n lines) c);
      [| done | done | rewrite length_take; lia | rewrite length_take; lia | lia].
    destruct (OnMessage (book_of_batch default (take n lines)) mkt w) as [[mkt' w']| | |];
      simpl; try done.
    apply IH; [done | | lia | | ].
    + rewrite length_drop.
      assert (Hdiv : (length lines = n + (length lines - n))%nat) by lia.
      rewrite Hdiv in Hk.
      replace (n + (length lines - n))%nat with (1 * n + (length lines - n))%nat in Hk by lia.
      rewrite Nat.add_comm, Nat.div_add in Hk by lia. lia.
    + rewrite Z.add_mod, Hmod, Z.mod_same by lia. simpl. apply Z.mod_0_l. lia.
    + rewrite length_drop. lia.
Qed.

End SubscribeFacts.

Section SubscribeProperties.

Import MarketData.

Lemma filter_none {A : Type} (P : A -> Prop) `{forall x, Decision (P x)} (l : list A) :
  (forall x, x ∈ l -> ~ P x) -> filter P l = [].
Proof.
  induction l as [|x l IH]; intros Hl; [done |].
  rewrite filter_cons_False by (apply Hl; left).
  apply IH. intros y Hy. apply Hl. by right.
Qed.

Lemma GetBidAsk_empty_undefined (book : OrderBook) (slot : option BidOffer) :
  GetBidStack book = [] \/ GetOfferStack book = [] -> GetBidAsk book slot = Undefined.
Proof.
  intros He. unfold GetBidAsk. destruct He as [-> | ->]; [done |].
  by destruct (GetBidStack book).
Qed.

(** X6.  [Subscribe] publishes one order book per complete group of
    [2 * bookDepth] consecutive lines, in file order: the first
    [length lines / (2 * bookDepth)] such groups.  Each book is labelled
    with the product of the last line of its group, whatever products the
    other lines name, and the lines after the last complete group are
    never published. *)
Theorem Subscribe_publishes_full_batches {W : Type} (default : Bond)
    (lines : list OrderData) (mkt : MarketDataService W) (w : W) :
  1 <= bookDepth mkt ->
  2 * bookDepth mkt <= Int.INT_MAX ->
  Z.of_nat (length lines) <= Long.LONG_MAX ->
  Subscribe default lines mkt w =
    publish_all
      (book_of_batch default <$> full_batches (Z.to_nat (2 * bookDepth mkt)) lines) mkt w.
Proof.
  intros Hd Hmax Hlen. unfold Subscribe, full_batches.
  assert (Hthread : Int.mul (bookDepth mkt) 2 = Z.of_nat (Z.to_nat (2 * bookDepth mkt))).
  { unfold Int.mul. rewrite Int_wrap_in_range; [lia |].
    unfold Int.in_range, Int.INT_MIN, Int.INT_MAX in *. lia. }
  rewrite Hthread.
  apply Subscribe_loop_batches; try done; try lia.
Qed.

Lemma Subscribe_publishes_full_batches_witness :
  let line (id : string) (side : PricingSide) : OrderData := (id, price_99_16, 1000000, side) in
  let batch := [line "91282CJL6" BID; line "91282CJL6" OFFER; line "91282CJL6" BID;
                line "91282CJL6" OFFER; line "91282CJL6" BID; line "91282CJL6" OFFER;
                line "91282CJL6" BID; line "91282CJL6" OFFER; line "91282CJL6" BID;
                line "91282CJK8" OFFER] in
  let lines := batch ++ [line "91282CJK8" BID; line "91282CJK8" OFFER] in
  Subscribe US2Y lines (new_MarketDataService [recorder]) []
    = publish_all [book_of_batch US2Y batch] (new_MarketDataService [recorder]) [] /\
  GetProductId (GetProduct (book_of_batch US2Y batch)) = "91282CJK8" /\
  length (GetBidStack (book_of_batch US2Y batch)) = 5%nat.
Proof.
  cbv zeta. split; [| split; reflexivity].
  rewrite Subscribe_publishes_full_batches.
  - reflexivity.
  - simpl. lia.
  - simpl. unfold Int.INT_MAX. lia.
  - simpl. unfold Long.LONG_MAX. lia.
Defined.

(** X7.  A complete batch whose lines are all on one side is published as a
    book with the other stack empty; with the execution engine listening,
    it reaches [GetBidAsk], which calls [front()] on the empty stack:
    [Subscribe] has no defined behaviour on such a file. *)
Theorem Subscribe_one_sided_batch_undefined {W : Type} (default : Bond) (orderId : string)
    (batch rest : list OrderData) (slot : option BidOffer)
    (engine : AlgoExecution.AlgoExecutionService W) (w : W) :
  length batch = 10%nat ->
  (forall d, d ∈ batch -> d.2 = OFFER) \/ (forall d, d ∈ batch -> d.2 = BID) ->
  Z.of_nat (length rest) + 10 <= Long.LONG_MAX ->
  Subscribe default (batch ++ rest)
    (new_MarketDataService [AlgoExecution.MDAlgoListener_ProcessAdd orderId])
    (slot, engine, w) = Undefined.
Proof.
  intros Hlen Hside Hmax.
  unfold Subscribe.
  change (Int.mul (bookDepth (new_MarketDataService
            [AlgoExecution.MDAlgoListener_ProcessAdd orderId])) 2) with (Z.of_nat 10).
  rewrite (Subscribe_loop_batches default 10 (length (batch ++ rest) / 10));
    [| lia | done | lia | done | rewrite length_app; lia].
  assert (Hk : exists k, (length (batch ++ rest) / 10)%nat = S k).
  { rewrite length_app, Hlen.
    replace (10 + length rest)%nat with (length rest + 1 * 10)%nat by lia.
    rewrite Nat.div_add by lia. exists (length rest / 10)%nat. lia. }
  destruct Hk as [k ->]. simpl replicate. cbn [reshape fmap list_fmap publish_all].
  rewrite take_app_length' by done.
  assert (Hbook : GetBidStack (book_of_batch default batch) = [] \/
                  GetOfferStack (book_of_batch default batch) = []).
  { destruct Hside as [Hoff | Hbid]; [left | right]; simpl.
    - rewrite filter_none; [done |]. intros d Hd Hs. rewrite (Hoff d Hd) in Hs. done.
    - rewrite filter_none; [done |]. intros d Hd Hs. rewrite (Hbid d Hd) in Hs. done. }
  unfold OnMessage. cbn [listeners new_MarketDataService notify mbind outcome_bind].
  unfold AlgoExecution.MDAlgoListener_ProcessAdd, AlgoExecution.AlgoExecuteOrder. simpl.
  by rewrite (GetBidAsk_empty_undefined (book_of_batch default batch) slot Hbook).
Qed.

Lemma Subscribe_one_sided_batch_undefined_witness :
  let line : OrderData := ("91282CJL6", price_99_17, 2000000, OFFER) in
  Subscribe US2Y (replicate 10 line ++ [line])
    (new_MarketDataService [AlgoExecution.MDAlgoListener_ProcessAdd "1703000000000-1234"])
    (None, engine, []) = Undefined.
Proof.
  cbv zeta. apply Subscribe_one_sided_batch_undefined.
  - reflexivity.
  - left. intros d [-> _]%elem_of_replicate. reflexivity.
  - simpl. unfold Long.LONG_MAX. lia.
Defined.

End SubscribeProperties.

(** ** Positions: netting across books *)

Section TotalFacts.

Lemma Zsum_Permutation (l1 l2 : list Z) : l1 ≡ₚ l2 -> Zsum l1 = Zsum l2.
Proof.
  induction 1 as [|x l1 l2 _ IH|x y l|l1 l2 l3 _ IH1 _ IH2]; simpl; unfold Zsum in *; simpl; lia.
Qed.

Lemma map_total_insert_fresh (m : gmap string Z) (k : string) (v : Z) :
  m !! k = None -> map_total (<[k := v]> m) = v + map_total m.
Proof.
  intros Hk. unfold map_total.
  rewrite (Zsum_Permutation _ ((k, v) :: map_to_list m).*2).
  - reflexivity.
  - apply fmap_Permutation. by apply map_to_list_insert.
Qed.

(** Writing [v] at [k] changes the total by [v] minus what was there. *)
Lemma map_total_insert (m : gmap string Z) (k : string) (v : Z) :
  map_total (<[k := v]> m) = map_total m + v - default 0 (m !! k).
Proof.
  destruct (m !! k) as [q|] eqn:Hk; simpl.
  - rewrite <- (insert_delete_eq m k v).
    rewrite <- (insert_delete_id m k q Hk) at 2.
    rewrite !map_total_insert_fresh by apply lookup_delete_eq. lia.
  - rewrite map_total_insert_fresh by done. lia.
Qed.

End TotalFacts.

Section NettingFacts.

Import TradeBooking Position.

(** The books of the record stored by [AddTrade]: those of the record it
    replaces, with the traded book updated. *)
Lemma AddTrade_store_books (t : Trade) (store : gmap string Position) :
  let productId := GetProductId (TradeBooking.GetProduct t) in
  let before := from_option GetPositions ∅ (store !! productId) in
  GetPositions (AddTrade_store t store).1 =
    <[GetBook t := match before !! GetBook t with
                   | Some q => Long.add (delta t) q
                   | None => delta t
                   end]> before.
Proof.
  cbv zeta. apply map_eq. intros b.
  destruct (AddTrade_store_emitted t store) as [Hstored _].
  pose proof (AddTrade_store_held t store (GetProductId (TradeBooking.GetProduct t)) b)
    as Hheld.
  unfold held in Hheld. rewrite Hstored in Hheld. simpl in Hheld. rewrite Hheld.
  unfold on_book.
  destruct (decide (b = GetBook t)) as [-> | Hb].
  - rewrite bool_decide_eq_true_2 by done. rewrite lookup_insert_eq.
    by destruct (store !! GetProductId (TradeBooking.GetProduct t)).
  - rewrite bool_decide_eq_false_2 by (intros [_ ?]; congruence).
    rewrite lookup_insert_ne by done.
    by destruct (store !! GetProductId (TradeBooking.GetProduct t)).
Qed.

Lemma AddTrade_store_other (t : Trade) (store : gmap string Position) (productId : string) :
  productId <> GetProductId (TradeBooking.GetProduct t) ->
  (AddTrade_store t store).2 !! productId = store !! productId.
Proof.
  intros Hne. unfold AddTrade_store.
  destruct (store !! GetProductId (TradeBooking.GetProduct t)); simpl;
    by rewrite lookup_insert_ne.
Qed.

(** One trade moves the product's total by its signed quantity, in
    [long] arithmetic. *)
Lemma AddTrade_store_total (t : Trade) (store : gmap string Position) (productId : string) :
  Long.in_range (TradeBooking.GetQuantity t) ->
  Long.wrap (total_held (AddTrade_store t store).2 productId) =
    Long.wrap (total_held store productId
               + (if on_product productId t then signed t else 0)).
Proof.
  intros Hq. unfold on_product.
  destruct (decide (GetProductId (TradeBooking.GetProduct t) = productId)) as [<- | Hne].
  - rewrite bool_decide_eq_true_2 by done.
    destruct (AddTrade_store_emitted t store) as [Hstored _].
    unfold total_held at 1. rewrite Hstored. simpl.
    unfold book_total. rewrite AddTrade_store_books. fold (map_total).
    change (Zsum (map_to_list ?m).*2) with (map_total m).
    rewrite map_total_insert.
    assert (Hbefore : map_total
              (from_option GetPositions ∅ (store !! GetProductId (TradeBooking.GetProduct t)))
            = total_held store (GetProductId (TradeBooking.GetProduct t))).
    { unfold total_held. destruct (store !! _); [reflexivity |].
      simpl. unfold map_total. by rewrite map_to_list_empty. }
    rewrite Hbefore. rewrite delta_signed by done.
    set (total := total_held store (GetProductId (TradeBooking.GetProduct t))).
    destruct (from_option GetPositions ∅ _ !! GetBook t) as [q|]; simpl.
    + unfold Long.add. rewrite wrap_add_l.
      replace (total + Long.wrap (signed t + q) - q)
        with (Long.wrap (signed t + q) + (total - q)) by lia.
      rewrite wrap_add_l. f_equal. lia.
    + replace (total + Long.wrap (signed t) - 0) with (Long.wrap (signed t) + total) by lia.
      rewrite wrap_add_l. f_equal. lia.
  - rewrite bool_decide_eq_false_2 by done.
    unfold total_held. rewrite AddTrade_store_other by done. f_equal. lia.
Qed.

Lemma product_sum_snoc (productId : string) (ts : list Trade) (t : Trade) :
  product_sum productId (ts ++ [t]) =
    product_sum productId ts + (if on_product productId t then signed t else 0).
Proof. induction ts as [|t' ts IH]; simpl; [lia | rewrite IH; lia]. Qed.

Lemma store_after_total (ts : list Trade) (productId : string) :
  Forall (fun t => Long.in_range (TradeBooking.GetQuantity t)) ts ->
  Long.wrap (total_held (store_after ts ∅) productId) = Long.wrap (product_sum productId ts).
Proof.
  induction ts as [|t ts IH] using rev_ind; intros Hq.
  - done.
  - apply Forall_app in Hq as [Hts Ht]. rewrite Forall_singleton in Ht.
    unfold store_after in *. rewrite foldl_snoc.
    rewrite AddTrade_store_total, product_sum_snoc by done.
    rewrite <- wrap_add_l, IH, wrap_add_l by done. reflexivity.
Qed.

End NettingFacts.

Section NettingProperties.

Import TradeBooking Position.

(** X8.  After any sequence of trades processed by [AddTrade] from the empty
    store, the aggregate position of a stored product is the sum, formed
    in [long], of the signed quantities of all its trades, whatever books
    they were booked on. *)
Theorem aggregate_position_nets_across_books {W : Type}
    (ls : list (ServiceListener Position W)) (ts : list Trade)
    (svc' : PositionService W) (w w' : W) (productId : string) (position : Position) :
  Forall (fun t => Long.in_range (TradeBooking.GetQuantity t)) ts ->
  run_trades ts (new_PositionService ls) w = Returns (svc', w') ->
  positions svc' !! productId = Some position ->
  GetAggregatePosition position = Long.wrap (product_sum productId ts) /\
  (Long.in_range (product_sum productId ts) ->
   GetAggregatePosition position = product_sum productId ts).
Proof.
  intros Hq Hrun Hp.
  apply run_trades_store in Hrun as [Hstore _]. simpl in Hstore.
  assert (Hagg : GetAggregatePosition position = Long.wrap (product_sum productId ts)).
  { rewrite GetAggregatePosition_total, <- (store_after_total ts productId Hq).
    unfold total_held. rewrite <- Hstore, Hp. reflexivity. }
  split; [done |]. intros Hfit. rewrite Hagg. by apply wrap_in_range.
Qed.

Lemma aggregate_position_nets_across_books_witness :
  let ts := [mkTrade US2Y "T1" price_99_16 "TRSY1" 3000000 BUY;
             mkTrade US2Y "T2" price_99_17 "TRSY2" 2000000 SELL;
             mkTrade US3Y "T3" price_99_16 "TRSY1" 5000000 SELL;
             mkTrade US2Y "T4" price_99_16 "TRSY3" 4000000 SELL] in
  let position :=
    mkPosition US2Y {[ "TRSY1" := 3000000; "TRSY2" := -2000000; "TRSY3" := -4000000 ]} in
  store_after ts ∅ !! "91282CJL6" = Some position /\
  GetAggregatePosition position = -3000000.
Proof.
  cbv zeta.
  set (ts := [mkTrade US2Y "T1" price_99_16 "TRSY1" 3000000 BUY;
              mkTrade US2Y "T2" price_99_17 "TRSY2" 2000000 SELL;
              mkTrade US3Y "T3" price_99_16 "TRSY1" 5000000 SELL;
              mkTrade US2Y "T4" price_99_16 "TRSY3" 4000000 SELL]).
  assert (Hstored : store_after ts ∅ !! "91282CJL6" =
            Some (mkPosition US2Y
                    {[ "TRSY1" := 3000000; "TRSY2" := -2000000; "TRSY3" := -4000000 ]}))
    by (vm_compute; reflexivity).
  split; [exact Hstored |].
  assert (Hq : Forall (fun t => Long.in_range (TradeBooking.GetQuantity t)) ts).
  { repeat constructor; simpl; unfold Long.LONG_MIN, Long.LONG_MAX; lia. }
  destruct (aggregate_position_nets_across_books (W := unit) [] ts _ () () "91282CJL6" _
              Hq (run_trades_returns ts ∅ ()) Hstored) as [_ Hfit].
  apply Hfit. vm_compute. split; discriminate.
Defined.

(** X9.  [AddTrade] touches one record only: the positions of every other
    product are as before, the traded product's record is the one handed
    to the listeners, and every book that record had is still in it. *)
Theorem AddTrade_frame {W : Type} (t : Trade) (svc svc' : PositionService W) (w w' : W) :
  AddTrade t svc w = Returns (svc', w') ->
  let traded_id := GetProductId (TradeBooking.GetProduct t) in
  let emitted := (AddTrade_store t (positions svc)).1 in
  positions svc' !! traded_id = Some emitted /\
  notify (listeners svc) emitted w = Returns w' /\
  listeners svc' = listeners svc /\
  (forall other : string, other <> traded_id ->
     positions svc' !! other = positions svc !! other) /\
  (forall (before : Position) (book : string),
     positions svc !! traded_id = Some before ->
     is_Some (GetPositions before !! book) ->
     is_Some (GetPositions emitted !! book)).
Proof.
  unfold AddTrade.
  destruct (AddTrade_store t (positions svc)) as [newPosition store] eqn:Hst.
  destruct (notify (listeners svc) newPosition w) as [w1| | |] eqn:Hn; simpl; try done.
  intros [= <- <-]. simpl.
  destruct (AddTrade_store_emitted t (positions svc)) as [Hstored _].
  rewrite Hst in Hstored. simpl in Hstored.
  split; [done |]. split; [done |]. split; [done |]. split.
  - intros other Hne.
    pose proof (AddTrade_store_other t (positions svc) other Hne) as Ho.
    by rewrite Hst in Ho.
  - intros before book Hb Hbook.
    pose proof (AddTrade_store_books t (positions svc)) as Hbooks.
    cbv zeta in Hbooks. rewrite Hst, Hb in Hbooks. simpl in Hbooks. rewrite Hbooks.
    destruct (decide (book = GetBook t)) as [-> | Hne].
    + rewrite lookup_insert_eq. eauto.
    + by rewrite lookup_insert_ne.
Qed.

Lemma AddTrade_frame_witness :
  let svc := mkPositionService (W := list Position)
               {[ "91282CJL6" := mkPosition US2Y {[ "TRSY1" := 3000000 ]};
                  "91282CJK8" := mkPosition US3Y {[ "TRSY2" := 1000000 ]} ]} [recorder] in
  let t := mkTrade US2Y "T9" price_99_16 "TRSY1" 3000000 SELL in
  exists svc' : PositionService (list Position),
    AddTrade t svc [] =
      Returns (svc', [mkPosition US2Y {[ "TRSY1" := 0 ]}]) /\
    positions svc' !! "91282CJK8" = Some (mkPosition US3Y {[ "TRSY2" := 1000000 ]}) /\
    positions svc' !! "91282CJL6" = Some (mkPosition US2Y {[ "TRSY1" := 0 ]}).
Proof.
  cbv zeta.
  set (svc := mkPositionService (W := list Position)
               {[ "91282CJL6" := mkPosition US2Y {[ "TRSY1" := 3000000 ]};
                  "91282CJK8" := mkPosition US3Y {[ "TRSY2" := 1000000 ]} ]} [recorder]).
  set (t := mkTrade US2Y "T9" price_99_16 "TRSY1" 3000000 SELL).
  assert (Hrun : AddTrade t svc [] =
            Returns (mkPositionService (AddTrade_store t (positions svc)).2 [recorder],
                     [(AddTrade_store t (positions svc)).1]))
    by (vm_compute; reflexivity).
  destruct (AddTrade_frame t svc _ [] _ Hrun) as (Hemitted & _ & _ & Hothers & _).
  exists (mkPositionService (AddTrade_store t (positions svc)).2 [recorder]).
  split; [vm_compute; reflexivity |]. split.
  - rewrite (Hothers "91282CJK8") by done. vm_compute; reflexivity.
  - transitivity (Some (AddTrade_store t (positions svc)).1); [exact Hemitted |].
    vm_compute; reflexivity.
Defined.

(** X10.  Asking a position for a book it does not have returns 0 and enters
    the book with quantity 0; asking for a book it has returns the
    quantity and changes nothing.  Either way the aggregate position is
    the same afterwards. *)
Theorem GetPosition_enters_missing_book (book : string) (position : Position) :
  let '(quantity, position') := GetPosition book position in
  quantity = default 0 (GetPositions position !! book) /\
  GetPositions position' !! book = Some quantity /\
  (forall other : string, other <> book ->
     GetPositions position' !! other = GetPositions position !! other) /\
  GetProduct position' = GetProduct position /\
  GetAggregatePosition position' = GetAggregatePosition position.
Proof.
  unfold GetPosition. destruct (GetPositions position !! book) as [q|] eqn:Hb; simpl.
  - by rewrite Hb.
  - rewrite lookup_insert_eq. repeat split; try done.
    + intros other Hne. by rewrite lookup_insert_ne.
    + rewrite !GetAggregatePosition_total. unfold book_total. simpl.
      change (Zsum (map_to_list ?m).*2) with (map_total m).
      rewrite map_total_insert, Hb. simpl. f_equal. lia.
Qed.

Lemma GetPosition_enters_missing_book_witness :
  let position := mkPosition US2Y {[ "TRSY1" := 3000000 ]} in
  GetPosition "TRSY2" position =
    (0, mkPosition US2Y {[ "TRSY1" := 3000000; "TRSY2" := 0 ]}) /\
  GetAggregatePosition (GetPosition "TRSY2" position).2 = GetAggregatePosition position.
Proof.
  cbv zeta. split; [vm_compute; reflexivity |].
  pose proof (GetPosition_enters_missing_book "TRSY2"
                (mkPosition US2Y {[ "TRSY1" := 3000000 ]})) as Hget.
  destruct (GetPosition "TRSY2" (mkPosition US2Y {[ "TRSY1" := 3000000 ]}))
    as [quantity position'].
  simpl. apply Hget.
Defined.

End NettingProperties.

(** ** From an order book to risk *)

Section PipelineFacts.

Import MarketData.

Lemma neg_in_range (q : Z) : 0 <= q <= Long.LONG_MAX -> Long.neg q = - q.
Proof.
  intros Hq. apply wrap_in_range.
  unfold Long.in_range, Long.LONG_MIN, Long.LONG_MAX in *. lia.
Qed.

(** A trade booked while the position and risk services listen. *)
Lemma BookTrade_into_position (t : TradeBooking.Trade)
    (trades : gmap string TradeBooking.Trade) (store : gmap string Position.Position)
    (pvs : gmap string (Risk.PV01 Bond)) (log : risk_log) :
  let newPosition := (Position.AddTrade_store t store).1 in
  let product := Position.GetProduct newPosition in
  let pv := Risk.mkPV01 product (Utils.calculatePV01 (GetProductId product))
              (Position.GetAggregatePosition newPosition) in
  TradeBooking.BookTrade t
    (TradeBooking.mkTradeBookingService trades [Position.TradeBookingPosListener_ProcessAdd])
    (Position.mkPositionService store [Risk.PositionRiskListner_ProcessAdd],
     (Risk.mkRiskService pvs [recorder], log))
  = Returns
      (TradeBooking.mkTradeBookingService (<[TradeBooking.GetTradeId t := t]> trades)
         [Position.TradeBookingPosListener_ProcessAdd],
       (Position.mkPositionService (Position.AddTrade_store t store).2
          [Risk.PositionRiskListner_ProcessAdd],
        (Risk.mkRiskService (<[GetProductId product := pv]> pvs) [recorder], log ++ [pv]))).
Proof.
  cbv zeta. unfold TradeBooking.BookTrade, TradeBooking.OnMessage.
  cbn [TradeBooking.listeners TradeBooking.trades notify mbind outcome_bind].
  unfold Position.TradeBookingPosListener_ProcessAdd. cbn [fst snd].
  rewrite AddTrade_into_risk. reflexivity.
Qed.

(** The position a first SELL of [q] on a book leaves. *)
Lemma first_sell (product : Bond) (id book : string) (price : double) (q : Z) :
  0 <= q <= Long.LONG_MAX ->
  let t := TradeBooking.mkTrade product id price book q TradeBooking.SELL in
  Position.AddTrade_store t ∅ =
    (Position.mkPosition product {[ book := - q ]},
     {[ GetProductId product := Position.mkPosition product {[ book := - q ]} ]}) /\
  Position.GetAggregatePosition (Position.mkPosition product {[ book := - q ]}) = - q.
Proof.
  intros Hq. cbv zeta. split.
  - unfold Position.AddTrade_store. rewrite lookup_empty. simpl.
    unfold Position.UpdatePositionFromTrade, Position.AddPosition. simpl.
    rewrite lookup_empty. simpl. rewrite neg_in_range by done.
    by rewrite !insert_empty.
  - rewrite GetAggregatePosition_total. unfold book_total. simpl.
    rewrite map_to_list_singleton. simpl. rewrite Z.add_0_r. apply wrap_in_range.
    unfold Long.in_range, Long.LONG_MIN, Long.LONG_MAX in *. lia.
Qed.

(** The stages of the cascade, each handing over to the next. *)
Lemma market_stage {W : Type} (orderId : string) (book : OrderBook)
    (store : gmap string OrderBook) (depth : Z) (slot : option BidOffer)
    (engine : AlgoExecution.AlgoExecutionService W) (w : W) :
  MarketData.OnMessage book
    (mkMarketDataService store [AlgoExecution.MDAlgoListener_ProcessAdd orderId] depth)
    (slot, engine, w) =
  st ← AlgoExecution.AlgoExecuteOrder book orderId slot engine w;
  Returns (mkMarketDataService (<[GetProductId (GetProduct book) := book]> store)
             [AlgoExecution.MDAlgoListener_ProcessAdd orderId] depth, st).
Proof.
  unfold MarketData.OnMessage. cbn [listeners orderBooks bookDepth notify].
  change (AlgoExecution.MDAlgoListener_ProcessAdd orderId book (slot, engine, w))
    with (AlgoExecution.AlgoExecuteOrder book orderId slot engine w).
  destruct (AlgoExecution.AlgoExecuteOrder book orderId slot engine w); reflexivity.
Qed.

Lemma engine_stage {W : Type} (a : AlgoExecution.AlgoExecution)
    (store : gmap string AlgoExecution.AlgoExecution) (spread : double) (side : Z)
    (exe : Execution.ExecutionService W) (w : W) :
  AlgoExecution.OnMessage a
    (AlgoExecution.mkAlgoExecutionService store
       [AlgoExecution.AlgoExeExecutionListener_ProcessAdd] spread side) (exe, w) =
  st ← Execution.OnMessage (AlgoExecution.GetExecutionOrder a) exe w;
  Returns (AlgoExecution.mkAlgoExecutionService
             (<[GetProductId (Execution.GetProduct (AlgoExecution.GetExecutionOrder a)) := a]>
                store)
             [AlgoExecution.AlgoExeExecutionListener_ProcessAdd] spread side, st).
Proof.
  unfold AlgoExecution.OnMessage.
  cbn [AlgoExecution.listeners AlgoExecution.algoExe AlgoExecution.spread
       AlgoExecution.side notify].
  change (AlgoExecution.AlgoExeExecutionListener_ProcessAdd a (exe, w))
    with (Execution.OnMessage (AlgoExecution.GetExecutionOrder a) exe w).
  destruct (Execution.OnMessage (AlgoExecution.GetExecutionOrder a) exe w); reflexivity.
Qed.

Lemma execution_stage {W : Type} (d : Execution.ExecutionOrder)
    (store : gmap string Execution.ExecutionOrder)
    (lstn : TradeBooking.ExecutionBookingListener)
    (tbs : TradeBooking.TradeBookingService W) (w : W) :
  Execution.OnMessage d
    (Execution.mkExecutionService store [TradeBooking.ExecutionBookingListener_ProcessAdd])
    (lstn, tbs, w) =
  st ← TradeBooking.ProcessAdd d lstn tbs w;
  Returns (Execution.mkExecutionService (<[GetProductId (Execution.GetProduct d) := d]> store)
             [TradeBooking.ExecutionBookingListener_ProcessAdd], st).
Proof.
  unfold Execution.OnMessage. cbn [Execution.listeners Execution.exeOrd notify].
  change (TradeBooking.ExecutionBookingListener_ProcessAdd d (lstn, tbs, w))
    with (TradeBooking.ProcessAdd d lstn tbs w).
  destruct (TradeBooking.ProcessAdd d lstn tbs w); reflexivity.
Qed.

Lemma booking_stage {W : Type} (d : Execution.ExecutionOrder)
    (lstn : TradeBooking.ExecutionBookingListener)
    (tbs : TradeBooking.TradeBookingService W) (w : W) :
  TradeBooking.ProcessAdd d lstn tbs w =
    st ← TradeBooking.BookTrade
           (TradeBooking.CreateTradeFromExecutionOrder d
              (TradeBooking.DetermineBookFromCount (Long.incr (TradeBooking.count lstn)))
              (TradeBooking.DetermineSideFromPricingSide (Execution.GetPricingSide d)))
           tbs w;
    Returns (TradeBooking.mkExecutionBookingListener (Long.incr (TradeBooking.count lstn)),
             st.1, st.2).
Proof.
  unfold TradeBooking.ProcessAdd. cbv zeta. cbn [TradeBooking.count].
  destruct (TradeBooking.BookTrade _ tbs w) as [[tbs' w']| | |]; reflexivity.
Qed.


End PipelineFacts.

Section PipelineProperties.

Import MarketData.

(** X11.  The first order book of the market data file, through the whole
    execution leg, whatever the trade file left in the trade, position
    and risk stores.  If its best offer is within 1/128 of its best bid,
    both prices being bond prices, and the best bid's quantity [q] is at
    most 2^53 (so that it passes unchanged through the [double] fields of
    the execution order), delivering the book to the market data service
    stores it, emits one MARKET order on the BID side at the best bid's
    price and quantity [q], books the trade as a SELL of [q] in TRSY2
    under the order id, nets [-q] into the product's TRSY2 position and
    stores and emits a PV01 record with the product's factor and its new
    aggregate position. *)
Theorem first_crossing_reaches_risk (orderId : string) (book : OrderBook)
    (front_bid front_ask : Order) (bids asks : list Order)
    (trades : gmap string TradeBooking.Trade) (store : gmap string Position.Position)
    (pvs : gmap string (Risk.PV01 Bond)) (log : risk_log) :
  GetBidStack book = front_bid :: bids ->
  GetOfferStack book = front_ask :: asks ->
  let bestBid := highest_bid front_bid (front_bid :: bids) in
  let bestOffer := lowest_offer front_ask (front_ask :: asks) in
  bond_price (GetPrice bestBid) ->
  bond_price (GetPrice bestOffer) ->
  (GetPrice bestOffer - GetPrice bestBid <= of_Q (1 # 128))%Qc ->
  0 <= GetQuantity bestBid <= 2 ^ 53 ->
  let product := GetProduct book in
  let productId := GetProductId product in
  let q := GetQuantity bestBid in
  let order := AlgoExecution.new_AlgoExecution product BID orderId Execution.MARKET
                 (GetPrice bestBid) q 0 "" false in
  let trade := TradeBooking.mkTrade product orderId (GetPrice bestBid) "TRSY2" q
                 TradeBooking.SELL in
  let position := (Position.AddTrade_store trade store).1 in
  let pv := Risk.mkPV01 product (Utils.calculatePV01 productId)
              (Position.GetAggregatePosition position) in
  MarketData.OnMessage book (market_to_engine orderId)
      (before_market_data trades store pvs log) =
    Returns
      (mkMarketDataService {[ productId := book ]}
         [AlgoExecution.MDAlgoListener_ProcessAdd orderId] 5,
       (Some (mkBidOffer bestBid bestOffer),
        AlgoExecution.mkAlgoExecutionService {[ productId := order ]}
          [AlgoExecution.AlgoExeExecutionListener_ProcessAdd] (of_Q (1 # 128)) 1,
        (Execution.mkExecutionService
           {[ productId := AlgoExecution.GetExecutionOrder order ]}
           [TradeBooking.ExecutionBookingListener_ProcessAdd],
         (TradeBooking.mkExecutionBookingListener 1,
          TradeBooking.mkTradeBookingService (<[orderId := trade]> trades)
            [Position.TradeBookingPosListener_ProcessAdd],
          (Position.mkPositionService (<[productId := position]> store)
             [Risk.PositionRiskListner_ProcessAdd],
           (Risk.mkRiskService (<[productId := pv]> pvs) [recorder], log ++ [pv])))))) /\
  Position.GetProduct position = product /\
  Position.GetPositions position !! "TRSY2" =
    Some (Long.wrap (default 0 (held store productId "TRSY2") - q)) /\
  (forall other : string, other <> "TRSY2" ->
     Position.GetPositions position !! other = held store productId other).
Proof.
  intros Hb Ha bestBid bestOffer _ _ Hspread Hq. cbv zeta.
  set (trade := TradeBooking.mkTrade (GetProduct book) orderId (GetPrice bestBid) "TRSY2"
                  (GetQuantity bestBid) TradeBooking.SELL).
  destruct (AddTrade_store_emitted trade store) as [Hstored Hproduct].
  cbn [TradeBooking.GetProduct trade] in Hstored, Hproduct.
  assert (Hheld : forall b : string,
             Position.GetPositions (Position.AddTrade_store trade store).1 !! b =
               held (Position.AddTrade_store trade store).2
                 (GetProductId (GetProduct book)) b)
    by (intros b; unfold held; by rewrite Hstored).
  split; [| split; [exact Hproduct | split]].
  - match goal with |- _ = ?rhs => set (expected := rhs) end.
    unfold market_to_engine, new_MarketDataService, before_market_data, engine_to_execution,
      AlgoExecution.new_AlgoExecutionService, execution_to_booking,
      TradeBooking.new_ExecutionBookingListener.
    unfold engine_world, execution_world, booking_world, position_world, risk_world.
    rewrite market_stage.
    assert (Hpair : GetBidAsk book None =
              Returns (mkBidOffer bestBid bestOffer, Some (mkBidOffer bestBid bestOffer))).
    { unfold GetBidAsk. by rewrite Hb, Ha. }
    rewrite (AlgoExecuteOrder_on_pair book orderId None _ _ _ _ Hpair).
    cbn [GetBidOrder GetOfferOrder AlgoExecution.spread].
    unfold le. rewrite bool_decide_eq_true_2 by exact Hspread.
    change (AlgoExecution.DetermineOrderSide _) with BID. cbv iota.
    rewrite engine_stage, execution_stage, booking_stage.
    cbn [TradeBooking.count]. change (Long.incr 0) with 1.
    change (TradeBooking.DetermineBookFromCount 1) with "TRSY2".
    unfold TradeBooking.CreateTradeFromExecutionOrder,
      TradeBooking.DetermineSideFromPricingSide.
    cbn [AlgoExecution.GetExecutionOrder AlgoExecution.new_AlgoExecution
         Execution.GetProduct Execution.GetOrderId Execution.GetPrice
         Execution.GetPricingSide].
    unfold Execution.GetVisibleQuantity, Execution.GetHiddenQuantity.
    cbn [Execution.visibleQuantity Execution.hiddenQuantity].
    rewrite (to_long_of_long (GetQuantity bestBid)) by lia.
    rewrite (to_long_of_long 0) by (simpl; lia).
    rewrite add_in_range
      by (unfold Long.in_range, Long.LONG_MIN, Long.LONG_MAX; lia).
    rewrite Z.add_0_r. fold trade.
    rewrite BookTrade_into_position. cbv zeta.
    rewrite Hproduct.
    assert (Hstore : (Position.AddTrade_store trade store).2 =
              <[GetProductId (GetProduct book) := (Position.AddTrade_store trade store).1]>
                store).
    { apply map_eq. intros k.
      destruct (decide (k = GetProductId (GetProduct book))) as [-> | Hk].
      - by rewrite lookup_insert_eq.
      - rewrite lookup_insert_ne by done. by apply AddTrade_store_other. }
    rewrite Hstore.
    cbn [mbind outcome_bind fst snd].
    cbn [AlgoExecution.algoExe AlgoExecution.listeners AlgoExecution.spread
         AlgoExecution.side].
    change (Long.incr 0) with 1.
    rewrite !insert_empty. subst expected. reflexivity.
  - rewrite Hheld, AddTrade_store_held. unfold on_book.
    rewrite bool_decide_eq_true_2 by done.
    unfold delta. cbn [TradeBooking.GetSide TradeBooking.GetQuantity trade].
    rewrite neg_in_range by (unfold Long.LONG_MAX; lia). f_equal.
    destruct (held store (GetProductId (GetProduct book)) "TRSY2") as [q0|]; simpl.
    + unfold Long.add. f_equal. lia.
    + symmetry. apply wrap_in_range.
      unfold Long.in_range, Long.LONG_MIN, Long.LONG_MAX. lia.
  - intros other Hne. rewrite Hheld, AddTrade_store_held. unfold on_book.
    rewrite bool_decide_eq_false_2; [done |].
    cbn [TradeBooking.GetBook trade]. intros [_ Heq]. by apply Hne.
Qed.

Lemma first_crossing_reaches_risk_witness :
  let earlier := TradeBooking.mkTrade US3Y "T1" price_99_16 "TRSY2" 1000000 TradeBooking.BUY in
  let held_before := Position.mkPosition US3Y {[ "TRSY2" := 1000000 ]} in
  exists st,
    MarketData.OnMessage book_tight (market_to_engine "1703000000000-1234")
      (before_market_data {[ "T1" := earlier ]} {[ "91282CJK8" := held_before ]} ∅ [])
      = Returns st /\
    Position.positions st.2.2.2.2.1 !! "91282CJK8"
      = Some (Position.mkPosition US3Y {[ "TRSY2" := -3000000 ]}) /\
    Risk.GetQuantity <$> st.2.2.2.2.2.2 = [-3000000].
Proof.
  intros earlier held_before. eexists. split.
  - apply (first_crossing_reaches_risk "1703000000000-1234" book_tight
             (mkOrder price_99_16 3000000 BID) (mkOrder price_99_17 5000000 OFFER)
             [mkOrder price_99_16_plus 4000000 BID]
             [mkOrder price_99_16_plus 6000000 OFFER]).
    + reflexivity.
    + reflexivity.
    + exists 99, 16, true. repeat split; vm_compute; try discriminate; reflexivity.
    + exists 99, 16, true. repeat split; vm_compute; try discriminate; reflexivity.
    + vm_compute. discriminate.
    + vm_compute. split; discriminate.
  - split; vm_compute; reflexivity.
Defined.

(** X12.  The execution store is keyed by product and keeps only the latest
    order of a product, while the trade store is keyed by trade id and
    keeps the trades of both: after two execution orders of one product
    with different order ids, the first order is gone from the execution
    store and both trades are in the trade store. *)
Theorem execution_store_latest_trade_store_all {W : Type}
    (d1 d2 : Execution.ExecutionOrder) (store : gmap string Execution.ExecutionOrder)
    (lstn lstn2 : TradeBooking.ExecutionBookingListener)
    (tbs tbs2 : TradeBooking.TradeBookingService W) (w w2 : W)
    (exe2 : Execution.ExecutionService (TradeBooking.ExecutionBookingListener
                                        * TradeBooking.TradeBookingService W * W)) :
  GetProductId (Execution.GetProduct d1) = GetProductId (Execution.GetProduct d2) ->
  Execution.GetOrderId d1 <> Execution.GetOrderId d2 ->
  (st1 ← Execution.OnMessage d1
           (Execution.mkExecutionService store
              [TradeBooking.ExecutionBookingListener_ProcessAdd]) (lstn, tbs, w);
   Execution.OnMessage d2 st1.1 st1.2) = Returns (exe2, (lstn2, tbs2, w2)) ->
  Execution.exeOrd exe2 = <[GetProductId (Execution.GetProduct d2) := d2]> store /\
  Execution.GetData exe2 (GetProductId (Execution.GetProduct d1)) = Returns d2 /\
  (exists t1 t2 : TradeBooking.Trade,
     TradeBooking.GetData tbs2 (Execution.GetOrderId d1) = Returns t1 /\
     TradeBooking.GetData tbs2 (Execution.GetOrderId d2) = Returns t2 /\
     TradeBooking.GetTradeId t1 = Execution.GetOrderId d1 /\
     TradeBooking.GetTradeId t2 = Execution.GetOrderId d2) /\
  forall (key : string) (t : TradeBooking.Trade),
    TradeBooking.trades tbs !! key = Some t ->
    key <> Execution.GetOrderId d1 -> key <> Execution.GetOrderId d2 ->
    TradeBooking.trades tbs2 !! key = Some t.
Proof.
  intros Hpid Hids. rewrite execution_stage, (ProcessAdd_books d1).
  destruct (notify (TradeBooking.listeners tbs) _ w) as [w1| | |]; simpl; try done.
  rewrite execution_stage, (ProcessAdd_books d2). simpl.
  destruct (notify (TradeBooking.listeners tbs) _ w1) as [w2'| | |]; simpl; try done.
  intros [= <- <- <- <-]. unfold Execution.GetData, TradeBooking.GetData.
  cbn [Execution.exeOrd TradeBooking.trades]. rewrite Hpid, insert_insert_eq.
  split; [done |]. split; [| split].
  - by rewrite lookup_insert_eq.
  - eexists _, _. rewrite lookup_insert_ne by done. rewrite !lookup_insert_eq. done.
  - intros key t Ht H1 H2. by rewrite !lookup_insert_ne.
Qed.

Lemma execution_store_latest_trade_store_all_witness :
  let d1 := Execution.mkExecutionOrder US2Y BID "1703000000000-1" Execution.MARKET
              price_99_16 (Double.of_long 1000000) (Double.of_long 0) "P1" false in
  let d2 := Execution.mkExecutionOrder US2Y OFFER "1703000000000-2" Execution.MARKET
              price_99_17 (Double.of_long 2000000) (Double.of_long 0) "P2" false in
  let t1 := TradeBooking.mkTrade US2Y "1703000000000-1" price_99_16 "TRSY2" 1000000
              TradeBooking.SELL in
  let t2 := TradeBooking.mkTrade US2Y "1703000000000-2" price_99_17 "TRSY3" 2000000
              TradeBooking.BUY in
  let exe2 : Execution.ExecutionService
               (TradeBooking.ExecutionBookingListener * TradeBooking.TradeBookingService unit * unit) :=
    Execution.mkExecutionService {[ "91282CJL6" := d2 ]}
      [TradeBooking.ExecutionBookingListener_ProcessAdd] in
  let tbs2 : TradeBooking.TradeBookingService unit :=
    TradeBooking.mkTradeBookingService
      (<["1703000000000-2" := t2]> {[ "1703000000000-1" := t1 ]}) [] in
  Execution.GetData exe2 "91282CJL6" = Returns d2 /\
  TradeBooking.GetData tbs2 "1703000000000-1" = Returns t1 /\
  TradeBooking.GetData tbs2 "1703000000000-2" = Returns t2.
Proof.
  intros d1 d2 t1 t2 exe2 tbs2.
  assert (Hrun : (st1 ← Execution.OnMessage d1
                          (Execution.mkExecutionService ∅
                             [TradeBooking.ExecutionBookingListener_ProcessAdd])
                          (TradeBooking.new_ExecutionBookingListener,
                           TradeBooking.new_TradeBookingService [], tt);
                  Execution.OnMessage d2 st1.1 st1.2)
                 = Returns (exe2, (TradeBooking.mkExecutionBookingListener 2, tbs2, tt))).
  { rewrite execution_stage, (ProcessAdd_books d1).
    unfold TradeBooking.new_TradeBookingService, TradeBooking.new_ExecutionBookingListener.
    cbn [TradeBooking.listeners TradeBooking.trades TradeBooking.count notify mbind
         outcome_bind fst snd].
    rewrite execution_stage, (ProcessAdd_books d2).
    cbn [TradeBooking.listeners TradeBooking.trades TradeBooking.count notify mbind
         outcome_bind fst snd].
    subst exe2 tbs2.
    match goal with
    | |- Returns (Execution.mkExecutionService ?m _,
                  (TradeBooking.mkExecutionBookingListener ?c,
                   TradeBooking.mkTradeBookingService ?t _, _)) = _ =>
        replace m with ({[ "91282CJL6" := d2 ]} : gmap string Execution.ExecutionOrder)
          by (vm_compute; reflexivity);
        replace t with (<["1703000000000-2" := t2]> {[ "1703000000000-1" := t1 ]}
                        : gmap string TradeBooking.Trade)
          by (vm_compute; reflexivity);
        replace c with 2 by reflexivity
    end.
    reflexivity. }
  destruct (execution_store_latest_trade_store_all d1 d2 ∅ _ _ _ _ _ _ _
              eq_refl ltac:(discriminate) Hrun)
    as (_ & Hlatest & (u1 & u2 & Hu1 & Hu2 & _) & _).
  split; [exact Hlatest |].
  split; vm_compute; reflexivity.
Defined.



End PipelineProperties.

(** ** From a price line to the published stream *)

Section StreamingFacts.

Context {W : Type}.
Variable default : Bond.

Lemma two_as_sum : of_Q 2 = (1 + 1)%Qc.
Proof. apply Qc_is_canon. reflexivity. Qed.

Lemma half_spread_below (bid ask : double) :
  ((bid + ask) / of_Q 2 - (ask - bid) / of_Q 2 = bid)%Qc.
Proof. rewrite two_as_sum. field. discriminate. Qed.

Lemma half_spread_above (bid ask : double) :
  ((bid + ask) / of_Q 2 + (ask - bid) / of_Q 2 = ask)%Qc.
Proof. rewrite two_as_sum. field. discriminate. Qed.

Lemma visible_alternates (count : Z) :
  0 <= count ->
  Long.mul (Long.add (Long.rem count 2) 1) 10000000 = shown count.
Proof.
  intros Hc. unfold Long.rem, shown.
  rewrite Z.rem_mod_nonneg by lia. rewrite Zeven_mod.
  assert (Hm : count mod 2 = 0 \/ count mod 2 = 1) by (pose proof (Z.mod_pos_bound count 2); lia).
  destruct Hm as [-> | ->]; reflexivity.
Qed.

Lemma hidden_doubles (count : Z) : Long.mul (shown count) 2 = 2 * shown count.
Proof. unfold shown. by destruct (Z.even count). Qed.

Lemma pricing_stage {V : Type} (data : Pricing.Price) (prices : gmap string Pricing.Price)
    (algo : AlgoStreaming.AlgoStreamingService V) (v : V) :
  Pricing.OnMessage data
    (Pricing.mkPricingService prices [AlgoStreaming.PricingASListener_ProcessAdd]) (algo, v) =
  st ← AlgoStreaming.PublishPrice data algo v;
  Returns
    (Pricing.mkPricingService
       (match prices !! GetProductId (Pricing.GetProduct data) with
        | Some held =>
            <[GetProductId (Pricing.GetProduct data) :=
                Pricing.assign held
                  (Pricing.mkPrice (Pricing.GetProduct data) (Pricing.GetMid data)
                     (Pricing.GetBidOfferSpread data))]> prices
        | None => <[GetProductId (Pricing.GetProduct data) := data]> prices
        end)
       [AlgoStreaming.PricingASListener_ProcessAdd], st).
Proof.
  unfold Pricing.OnMessage. cbn [Pricing.listeners Pricing.prices notify].
  change (AlgoStreaming.PricingASListener_ProcessAdd data (algo, v))
    with (AlgoStreaming.PublishPrice data algo v).
  destruct (AlgoStreaming.PublishPrice data algo v); reflexivity.
Qed.

Lemma algo_stage (a : AlgoStreaming.AlgoStream)
    (streams : gmap string AlgoStreaming.AlgoStream) (count : Z)
    (strm : Streaming.StreamingService W) (w : W) :
  AlgoStreaming.OnMessage a
    (AlgoStreaming.mkAlgoStreamingService streams
       [AlgoStreaming.ASStreamingListener_ProcessAdd] count) (strm, w) =
  st ← Streaming.OnMessage (AlgoStreaming.GetPriceStream a) strm w;
  Returns
    (AlgoStreaming.mkAlgoStreamingService
       (<[GetProductId (Streaming.GetProduct (AlgoStreaming.GetPriceStream a)) := a]> streams)
       [AlgoStreaming.ASStreamingListener_ProcessAdd] count, st).
Proof.
  unfold AlgoStreaming.OnMessage.
  cbn [AlgoStreaming.listeners AlgoStreaming.as_ AlgoStreaming.count notify].
  change (AlgoStreaming.ASStreamingListener_ProcessAdd a (strm, w))
    with (Streaming.OnMessage (AlgoStreaming.GetPriceStream a) strm w).
  destruct (Streaming.OnMessage (AlgoStreaming.GetPriceStream a) strm w); reflexivity.
Qed.

(** One line through the three services. *)
Lemma ProcessCells_streams (_productId : string) (bid ask : double)
    (prices : gmap string Pricing.Price)
    (streams : gmap string AlgoStreaming.AlgoStream) (count : Z)
    (pStreams : gmap string Streaming.PriceStream)
    (ls : list (ServiceListener Streaming.PriceStream W)) (w : W) :
  0 <= count < Long.LONG_MAX ->
  let product := Utils.GetBond default _productId in
  let stream :=
    Streaming.mkPriceStream product
      (Streaming.mkPriceStreamOrder bid (shown count) (2 * shown count) MarketData.BID)
      (Streaming.mkPriceStreamOrder ask (shown count) (2 * shown count) MarketData.OFFER) in
  exists prices' : gmap string Pricing.Price,
    Pricing.ProcessCells default _productId bid ask
      (Pricing.mkPricingService prices [AlgoStreaming.PricingASListener_ProcessAdd])
      (AlgoStreaming.mkAlgoStreamingService streams
         [AlgoStreaming.ASStreamingListener_ProcessAdd] count,
       (Streaming.mkStreamingService pStreams ls, w)) =
    w' ← notify ls stream w;
    Returns
      (Pricing.mkPricingService prices' [AlgoStreaming.PricingASListener_ProcessAdd],
       (AlgoStreaming.mkAlgoStreamingService
          (<[GetProductId product := AlgoStreaming.mkAlgoStream stream]> streams)
          [AlgoStreaming.ASStreamingListener_ProcessAdd] (count + 1),
        (Streaming.mkStreamingService (<[GetProductId product := stream]> pStreams) ls, w'))).
Proof.
  intros Hc product stream. eexists.
  unfold Pricing.ProcessCells. cbv zeta. fold product.
  rewrite pricing_stage.
  unfold AlgoStreaming.PublishPrice. cbv zeta.
  cbn [Pricing.GetProduct Pricing.GetMid Pricing.GetBidOfferSpread
       AlgoStreaming.count AlgoStreaming.as_ AlgoStreaming.listeners].
  rewrite half_spread_below, half_spread_above, visible_alternates by lia.
  rewrite hidden_doubles, incr_in_range by lia.
  unfold AlgoStreaming.new_AlgoStream. fold stream.
  rewrite algo_stage.
  unfold Streaming.OnMessage, Streaming.PublishPrice.
  cbn [AlgoStreaming.GetPriceStream Streaming.listeners Streaming.pStreams].
  destruct (notify ls stream w) as [w1| | |]; reflexivity.
Qed.

(** X14.  A line of the price file with bid and ask prices, delivered
    through the pricing service to the algo streaming service and on to
    the streaming service, is published to the streaming listeners as a
    two-sided stream whose bid order is at the bid of the line and whose
    offer order is at its ask; both orders show 10,000,000 on an even
    update count and 20,000,000 on an odd one, with twice as much hidden;
    the stream is stored by both services under the product id, and the
    update count goes up by one. *)
Theorem price_line_streams_its_bid_and_ask
    (_productId : string) (wholeBid bid32 wholeAsk ask32 : Z) (bidPlus askPlus : bool)
    (prices : gmap string Pricing.Price)
    (streams : gmap string AlgoStreaming.AlgoStream) (count : Z)
    (pStreams : gmap string Streaming.PriceStream)
    (ls : list (ServiceListener Streaming.PriceStream W)) (w : W) :
  0 <= count < Long.LONG_MAX ->
  let bid := Utils.ConvertBondPrice_value wholeBid bid32 bidPlus in
  let ask := Utils.ConvertBondPrice_value wholeAsk ask32 askPlus in
  let product := Utils.GetBond default _productId in
  let stream :=
    Streaming.mkPriceStream product
      (Streaming.mkPriceStreamOrder bid (shown count) (2 * shown count) MarketData.BID)
      (Streaming.mkPriceStreamOrder ask (shown count) (2 * shown count) MarketData.OFFER) in
  exists prices' : gmap string Pricing.Price,
    Pricing.ProcessCells default _productId bid ask
      (Pricing.mkPricingService prices [AlgoStreaming.PricingASListener_ProcessAdd])
      (AlgoStreaming.mkAlgoStreamingService streams
         [AlgoStreaming.ASStreamingListener_ProcessAdd] count,
       (Streaming.mkStreamingService pStreams ls, w)) =
    w' ← notify ls stream w;
    Returns
      (Pricing.mkPricingService prices' [AlgoStreaming.PricingASListener_ProcessAdd],
       (AlgoStreaming.mkAlgoStreamingService
          (<[GetProductId product := AlgoStreaming.mkAlgoStream stream]> streams)
          [AlgoStreaming.ASStreamingListener_ProcessAdd] (count + 1),
        (Streaming.mkStreamingService (<[GetProductId product := stream]> pStreams) ls, w'))).
Proof.
  intros Hc bid ask product stream.
  exact (ProcessCells_streams _productId bid ask prices streams count pStreams ls w Hc).
Qed.

(** X15.  A price file read by [Subscribe] gives one stream per line, handed
    to the streaming listeners in file order; the shown quantity
    alternates between 10,000,000 and 20,000,000 from line to line,
    starting from the parity of the update counter, which ends up
    advanced by the number of lines; the stores of the algo streaming and
    the streaming service hold, for each product, the stream of its last
    line. *)
Theorem Subscribe_streams_every_line_in_order (lines : list price_line)
    (prices : gmap string Pricing.Price)
    (streams : gmap string AlgoStreaming.AlgoStream) (count : Z)
    (pStreams : gmap string Streaming.PriceStream)
    (ls : list (ServiceListener Streaming.PriceStream W)) (w : W) :
  0 <= count ->
  count + Z.of_nat (length lines) <= Long.LONG_MAX ->
  let published := streams_of default count lines in
  exists prices' : gmap string Pricing.Price,
    Pricing.Subscribe default (price_cells <$> lines)
      (Pricing.mkPricingService prices [AlgoStreaming.PricingASListener_ProcessAdd])
      (AlgoStreaming.mkAlgoStreamingService streams
         [AlgoStreaming.ASStreamingListener_ProcessAdd] count,
       (Streaming.mkStreamingService pStreams ls, w)) =
    w' ← deliver ls published w;
    Returns
      (Pricing.mkPricingService prices' [AlgoStreaming.PricingASListener_ProcessAdd],
       (AlgoStreaming.mkAlgoStreamingService (stored_algo_streams published streams)
          [AlgoStreaming.ASStreamingListener_ProcessAdd]
          (count + Z.of_nat (length lines)),
        (Streaming.mkStreamingService (stored_streams published pStreams) ls, w'))).
Proof.
  cbv zeta. revert prices streams count pStreams w.
  induction lines as [|[[_productId bidFields] askFields] lines IH];
    intros prices streams count pStreams w Hc Hn.
  - exists prices. simpl. by rewrite Z.add_0_r.
  - cbn [length] in Hn.
    destruct (ProcessCells_streams _productId (quote bidFields) (quote askFields)
                prices streams count pStreams ls w) as [prices1 Hstep]; [lia |].
    cbv zeta in Hstep.
    change (Streaming.mkPriceStream (Utils.GetBond default _productId) _ _)
      with (stream_of default count (_productId, bidFields, askFields)) in Hstep.
    cbn [fmap list_fmap Pricing.Subscribe price_cells fst snd streams_of deliver length].
    change (list_fmap _ _ price_cells lines) with (price_cells <$> lines).
    rewrite Hstep.
    destruct (notify ls (stream_of default count (_productId, bidFields, askFields)) w)
      as [w1| | |]; cbn [mbind outcome_bind]; [| by exists prices ..].
    destruct (IH prices1
                (<[GetProductId (Utils.GetBond default _productId) :=
                     AlgoStreaming.mkAlgoStream
                       (stream_of default count (_productId, bidFields, askFields))]> streams)
                (count + 1)
                (<[GetProductId (Utils.GetBond default _productId) :=
                     stream_of default count (_productId, bidFields, askFields)]> pStreams)
                w1)
      as [prices' Hrest]; [lia | lia |].
    exists prices'. rewrite Hrest.
    replace (count + 1 + Z.of_nat (length lines)) with (count + Z.of_nat (S (length lines)))
      by lia.
    reflexivity.
Qed.

End StreamingFacts.

Lemma Subscribe_streams_every_line_in_order_witness :
  let lines : list price_line :=
    [("91282CJL6", (99, 16, false), (99, 17, false));
     ("91282CJK8", (99, 16, true), (99, 17, false));
     ("91282CJL6", (99, 16, true), (99, 17, false))] in
  exists prices' : gmap string Pricing.Price,
    Pricing.Subscribe (mkBond "" "") (price_cells <$> lines)
      (Pricing.new_PricingService [AlgoStreaming.PricingASListener_ProcessAdd])
      (AlgoStreaming.new_AlgoStreamingService [AlgoStreaming.ASStreamingListener_ProcessAdd],
       (Streaming.new_StreamingService [recorder], [])) =
    Returns
      (Pricing.mkPricingService prices' [AlgoStreaming.PricingASListener_ProcessAdd],
       (AlgoStreaming.mkAlgoStreamingService
          (stored_algo_streams (streams_of (mkBond "" "") 0 lines) ∅)
          [AlgoStreaming.ASStreamingListener_ProcessAdd] 3,
        (Streaming.mkStreamingService (stored_streams (streams_of (mkBond "" "") 0 lines) ∅)
           [recorder],
         streams_of (mkBond "" "") 0 lines))) /\
    Streaming.GetVisibleQuantity <$> (Streaming.GetBidOrder <$> streams_of (mkBond "" "") 0 lines)
      = [10000000; 20000000; 10000000].
Proof.
  intros lines.
  destruct (Subscribe_streams_every_line_in_order (mkBond "" "") lines ∅ ∅ 0 ∅ [recorder] [])
    as [prices' Hrun]; [lia | simpl; unfold Long.LONG_MAX; lia |].
  exists prices'. split; [exact Hrun | reflexivity].
Defined.

Lemma price_line_streams_its_bid_and_ask_witness :
  let stream :=
    Streaming.mkPriceStream US2Y
      (Streaming.mkPriceStreamOrder price_99_16 20000000 40000000 MarketData.BID)
      (Streaming.mkPriceStreamOrder price_99_17 20000000 40000000 MarketData.OFFER) in
  exists prices' : gmap string Pricing.Price,
    Pricing.ProcessCells (mkBond "" "") "91282CJL6" price_99_16 price_99_17
      (Pricing.mkPricingService ∅ [AlgoStreaming.PricingASListener_ProcessAdd])
      (AlgoStreaming.mkAlgoStreamingService ∅
         [AlgoStreaming.ASStreamingListener_ProcessAdd] 7,
       (Streaming.mkStreamingService ∅ [recorder], [])) =
    Returns
      (Pricing.mkPricingService prices' [AlgoStreaming.PricingASListener_ProcessAdd],
       (AlgoStreaming.mkAlgoStreamingService
          {[ "91282CJL6" := AlgoStreaming.mkAlgoStream stream ]}
          [AlgoStreaming.ASStreamingListener_ProcessAdd] 8,
        (Streaming.mkStreamingService {[ "91282CJL6" := stream ]} [recorder], [stream]))).
Proof.
  intros stream.
  destruct (price_line_streams_its_bid_and_ask (mkBond "" "") "91282CJL6"
              99 16 99 17 false false ∅ ∅ 7 ∅ [recorder] [])
    as [prices' Hrun]; [unfold Long.LONG_MAX; lia |].
  exists prices'. exact Hrun.
Defined.

(** ** The throttle of the GUI output *)

Section GuiFacts.

Import GUI.

Context {W : Type}.

Lemma sub_in_range (a b : Z) :
  0 <= a <= Long.LONG_MAX -> 0 <= b <= Long.LONG_MAX -> Long.sub a b = a - b.
Proof.
  intros Ha Hb. apply wrap_in_range. unfold Long.in_range, Long.LONG_MIN, Long.LONG_MAX in *. lia.
Qed.

(** One [Publish]: either nothing is written and the time of the last
    write stays, or one line is appended, the clock reading is at least
    [throttle] after the last write and becomes the time of the last
    write. *)
Lemma Publish_cases (clock : Clock) (data : Pricing.Price) (gui : GUIService W) :
  0 <= lastPublishTimeMillisec gui <= Long.LONG_MAX ->
  0 <= currentTime clock <= Long.LONG_MAX ->
  let gui' := Publish clock data gui in
  guis gui' = guis gui /\ listeners gui' = listeners gui /\ throttle gui' = throttle gui /\
  (file gui' = file gui /\ lastPublishTimeMillisec gui' = lastPublishTimeMillisec gui \/
   file gui' = file gui ++ [output_line (stamp clock) data] /\
   lastPublishTimeMillisec gui' = currentTime clock /\
   throttle gui <= currentTime clock - lastPublishTimeMillisec gui).
Proof.
  intros Hl Hc. cbv zeta. unfold Publish. rewrite sub_in_range by done.
  destruct (Z.leb_spec (throttle gui) (currentTime clock - lastPublishTimeMillisec gui));
    cbn [guis listeners throttle file lastPublishTimeMillisec]; auto 10.
Qed.

Lemma OnMessage_cases (clock : Clock) (data : Pricing.Price) (gui gui' : GUIService W)
    (w w' : W) :
  0 <= lastPublishTimeMillisec gui <= Long.LONG_MAX ->
  0 <= currentTime clock <= Long.LONG_MAX ->
  OnMessage clock data gui w = Returns (gui', w') ->
  throttle gui' = throttle gui /\
  (file gui' = file gui /\ lastPublishTimeMillisec gui' = lastPublishTimeMillisec gui \/
   file gui' = file gui ++ [output_line (stamp clock) data] /\
   lastPublishTimeMillisec gui' = currentTime clock /\
   throttle gui <= currentTime clock - lastPublishTimeMillisec gui).
Proof.
  intros Hl Hc. unfold OnMessage. cbv zeta.
  destruct (notify (listeners gui) data w) as [w1| | |]; simpl; try done.
  intros [= <- <-].
  match goal with |- context [Publish clock data ?g] => set (gui1 := g) end.
  destruct (Publish_cases clock data gui1 Hl Hc) as (_ & _ & Ht & Hcases).
  split; [exact Ht | exact Hcases].
Qed.

(** X16.  Over any run of price updates, with clock readings that are valid
    times (between 0 and LONG_MAX, in any order), every line written to
    the GUI file moves the time of the last write forward by at least
    [throttle]: the file only grows, by lines whose number times
    [throttle] is at most the advance of the time of the last write, and
    that time is the reading of one of the updates as soon as a line was
    written.  With the constructor's 300 ms, at most one line per 300 ms
    of clock time. *)
Theorem GUI_writes_at_most_once_per_throttle
    (events : list (Clock * Pricing.Price)) (gui gui' : GUIService W) (w w' : W) :
  0 <= lastPublishTimeMillisec gui <= Long.LONG_MAX ->
  Forall (fun e => 0 <= currentTime e.1 <= Long.LONG_MAX) events ->
  gui_run events gui w = Returns (gui', w') ->
  throttle gui' = throttle gui /\
  exists written : list string,
    file gui' = file gui ++ written /\
    throttle gui * Z.of_nat (length written)
      <= lastPublishTimeMillisec gui' - lastPublishTimeMillisec gui /\
    (written = [] /\ lastPublishTimeMillisec gui' = lastPublishTimeMillisec gui \/
     exists e, e ∈ events /\ lastPublishTimeMillisec gui' = currentTime e.1).
Proof.
  intros Hl Hev. revert gui w Hl.
  induction Hev as [|[clock data] events Hc Hev IH]; intros gui w Hl; simpl.
  - intros [= <- <-]. split; [done |]. exists []. rewrite app_nil_r. simpl.
    split; [done |]. split; [lia | by left].
  - destruct (OnMessage clock data gui w) as [[gui1 w1]| | |] eqn:Hstep; simpl; try done.
    intros Hrun. simpl in Hc.
    destruct (OnMessage_cases clock data gui gui1 w w1 Hl Hc Hstep) as (Ht & Hcases).
    assert (Hl1 : 0 <= lastPublishTimeMillisec gui1 <= Long.LONG_MAX)
      by (destruct Hcases as [(_ & ->) | (_ & -> & _)]; done).
    destruct (IH gui1 w1 Hl1 Hrun) as (Ht' & written & Hfile & Hrate & Hlast).
    split; [congruence |].
    destruct Hcases as [(Hf & Hsame) | (Hf & Hnow & Hgap)].
    + exists written. rewrite Hfile, Hf. split; [done |]. rewrite <- Ht, <- Hsame.
      split; [done |].
      destruct Hlast as [(-> & Hl2) | (e & He & Hl2)].
      * left. split; [done | congruence].
      * right. exists e. split; [by apply elem_of_cons; right | done].
    + exists (output_line (stamp clock) data :: written). rewrite Hfile, Hf, <- app_assoc.
      split; [done |]. split.
      * rewrite Ht in Hrate. rewrite Hnow in Hrate. cbn [length]. lia.
      * right. destruct Hlast as [(_ & Hl2) | (e & He & Hl2)].
        -- exists (clock, data). split; [apply elem_of_cons; by left | simpl; congruence].
        -- exists e. split; [by apply elem_of_cons; right | done].
Qed.

End GuiFacts.

Lemma GUI_writes_at_most_once_per_throttle_witness :
  let price := Pricing.mkPrice US2Y price_99_16_plus (of_Q (1 # 128)) in
  let events := [(GUI.mkClock 1703000000000 "2023-12-19 15:33:20.000", price);
                 (GUI.mkClock 1703000000100 "2023-12-19 15:33:20.100", price);
                 (GUI.mkClock 1703000000300 "2023-12-19 15:33:20.300", price)] in
  exists gui' : GUI.GUIService unit,
    gui_run events (GUI.new_GUIService []) tt = Returns (gui', tt) /\
    length (GUI.file gui') = 2%nat /\
    exists written : list string,
      GUI.file gui' = written /\
      300 * Z.of_nat (length written) <= GUI.lastPublishTimeMillisec gui'.
Proof.
  intros price events.
  assert (Hrun : { g : GUI.GUIService unit
                 | gui_run events (GUI.new_GUIService []) tt = Returns (g, tt)
                   /\ length (GUI.file g) = 2%nat }).
  { eexists. split; vm_compute; reflexivity. }
  destruct Hrun as (g & Hrun & Hlines). exists g. split; [exact Hrun |]. split; [exact Hlines |].
  destruct (GUI_writes_at_most_once_per_throttle events (GUI.new_GUIService []) g tt tt)
    as (_ & written & Hfile & Hrate & _).
  - simpl. unfold Long.LONG_MAX. lia.
  - repeat constructor; simpl; unfold Long.LONG_MAX; lia.
  - exact Hrun.
  - exists written. split; [exact Hfile |]. simpl in Hrate. lia.
Defined.

(** ** Inquiries outside the RECEIVED state *)

Section InquiryMoreFacts.

Import Inquiry.

Context {W : Type}.

(** X17.  An inquiry that arrives in a state other than RECEIVED is stored as
    it is under its id, replacing whatever was stored there, and handed
    once to the listeners of the other services; it is not quoted: price
    and state stay as they arrived.  One level of the call budget is
    enough, as the service's own listener does not call back. *)
Theorem settled_arrival_stored_not_quoted (fuel : nat)
    (exts : list (ServiceListener Inquiry W)) (data : Inquiry)
    (svc : InquiryService W) (w : W) :
  GetState data <> RECEIVED ->
  listeners svc = inqlstn :: (external <$> exts) ->
  OnMessage (S fuel) (local data) (svc, w) =
    w' ← notify exts data w;
    Returns (mkInquiryService (<[GetInquiryId data := data]> (inquiries svc)) (listeners svc),
             w').
Proof.
  intros Hst Hls. simpl. rewrite Hls.
  cbn [notify_all deref mbind outcome_bind].
  assert (Hpass : forall st : InquiryService W * W,
             ProcessAdd (OnMessage fuel) data st = Returns st)
    by (intros st; unfold ProcessAdd; by destruct (GetState data)).
  rewrite Hpass. cbn [mbind outcome_bind].
  by apply notify_all_external.
Qed.

(** X18.  [SendQuote] on a stored inquiry that is not RECEIVED writes the price
    into the stored entry and does nothing else: the state of the entry
    and its other fields stay, every other entry stays, and no listener
    is called (the callback into [OnMessage] is not used), so a QUOTED,
    DONE or REJECTED inquiry can have its price changed without any
    notification. *)
Theorem SendQuote_outside_RECEIVED_only_sets_price
    (onMessage : reference -> InquiryService W * W -> outcome (InquiryService W * W))
    (inquiryId : string) (price : double) (inq : Inquiry)
    (svc : InquiryService W) (w : W) :
  inquiries svc !! inquiryId = Some inq ->
  GetState inq <> RECEIVED ->
  SendQuote onMessage inquiryId price (svc, w) =
    Returns (mkInquiryService
               (<[inquiryId := mkInquiry (GetInquiryId inq) (GetProduct inq) (GetSide inq)
                                 (GetQuantity inq) price (GetState inq)]> (inquiries svc))
               (listeners svc), w).
Proof.
  intros Hs Hst. unfold SendQuote, GetData, Publish, update, deref. simpl.
  rewrite Hs. simpl. rewrite lookup_alter_eq, Hs. simpl.
  assert (Hstore : alter (SetPrice price) inquiryId (inquiries svc)
                   = <[inquiryId := SetPrice price inq]> (inquiries svc)).
  { rewrite <- (insert_id (inquiries svc) _ _ Hs) at 1. by rewrite alter_insert_eq. }
  rewrite Hstore. unfold SetPrice.
  destruct (GetState inq); done.
Qed.

End InquiryMoreFacts.

Lemma settled_arrival_stored_not_quoted_witness :
  let old := Inquiry.mkInquiry "INQ1" US2Y TradeBooking.BUY 1000000 (of_Q 100) Inquiry.DONE in
  let inq := Inquiry.mkInquiry "INQ1" US2Y TradeBooking.SELL 2000000 price_99_16
               Inquiry.CUSTOMER_REJECTED in
  let ls := [Inquiry.inqlstn; Inquiry.external recorder] in
  Inquiry.OnMessage 1 (Inquiry.local inq)
    (Inquiry.mkInquiryService {[ "INQ1" := old ]} ls, []) =
    Returns (Inquiry.mkInquiryService {[ "INQ1" := inq ]} ls, [inq]).
Proof.
  cbv zeta.
  rewrite (settled_arrival_stored_not_quoted 0 [recorder]) by done.
  cbn [notify recorder mbind outcome_bind Inquiry.inquiries Inquiry.listeners
       Inquiry.GetInquiryId app].
  by rewrite insert_singleton_eq.
Defined.

Lemma SendQuote_outside_RECEIVED_only_sets_price_witness :
  let held := Inquiry.mkInquiry "INQ1" US2Y TradeBooking.BUY 1000000 (of_Q 100) Inquiry.DONE in
  let ls := [Inquiry.inqlstn; Inquiry.external recorder] in
  Inquiry.SendQuote (Inquiry.OnMessage 2) "INQ1" price_99_16
    (Inquiry.mkInquiryService {[ "INQ1" := held ]} ls, []) =
    Returns (Inquiry.mkInquiryService
               {[ "INQ1" := Inquiry.mkInquiry "INQ1" US2Y TradeBooking.BUY 1000000 price_99_16
                              Inquiry.DONE ]} ls, []).
Proof.
  cbv zeta.
  rewrite (SendQuote_outside_RECEIVED_only_sets_price (Inquiry.OnMessage 2) "INQ1" price_99_16
             (Inquiry.mkInquiry "INQ1" US2Y TradeBooking.BUY 1000000 (of_Q 100) Inquiry.DONE))
    by done.
  cbn [Inquiry.inquiries Inquiry.listeners Inquiry.GetInquiryId Inquiry.GetProduct
       Inquiry.GetSide Inquiry.GetQuantity Inquiry.GetState].
  by rewrite insert_singleton_eq.
Defined.

(** ** The history of an inquiry *)

Section InquiryHistory.

Import Inquiry.

Variable CurrentDateTimeWithMillis : nat -> string.

Abbreviation history := (HistoricalData.HistoricalDataService Inquiry).
Abbreviation persist := (HistoricalData.HistoricalDataListener_ProcessAdd CurrentDateTimeWithMillis).
Abbreviation record_line := HistoricalData.record_line.

Lemma persist_inquiry (data : Inquiry) (hist : history) :
  HistoricalData.type hist = HistoricalData.INQUIRY ->
  notify [persist] data hist =
    Returns (HistoricalData.mkHistoricalDataService
               (<[GetProductId (GetProduct data) := data]> (HistoricalData.hd hist))
               HistoricalData.INQUIRY
               (HistoricalData.file hist ++
                  [record_line (CurrentDateTimeWithMillis (HistoricalData.readings hist))
                     (HDFormat data)])
               (S (HistoricalData.readings hist))).
Proof.
  intros Ht. cbn [notify]. unfold HistoricalData.HistoricalDataListener_ProcessAdd.
  unfold HistoricalData.PersistData, HistoricalData.Publish, HistoricalData.OnMessage.
  cbn [HistoricalData.type HistoricalData.hd HistoricalData.file HistoricalData.readings
       mbind outcome_bind].
  rewrite Ht. reflexivity.
Qed.

(** X19.  An inquiry arriving in state RECEIVED, with the historical data
    service listening as wired in main: the inquiry service ends with the
    inquiry DONE at price 100, but the history file gets three lines, for
    QUOTED, then DONE, then the inquiry as it arrived, so that its last
    line for the inquiry says RECEIVED at the original price; and the
    historical store, keyed by product id, holds the inquiry as it
    arrived. *)
Theorem received_inquiry_history_ends_with_RECEIVED (fuel : nat) (data : Inquiry)
    (m : gmap string Inquiry) (hist : history) :
  GetState data = RECEIVED ->
  (2 <= fuel)%nat ->
  HistoricalData.type hist = HistoricalData.INQUIRY ->
  let ls := [inqlstn; external persist] in
  let quoted := SetState QUOTED (SetPrice (of_Q 100) data) in
  let done := SetState DONE quoted in
  let k := HistoricalData.readings hist in
  OnMessage fuel (local data) (mkInquiryService m ls, hist) =
    Returns
      (mkInquiryService (<[GetInquiryId data := done]> m) ls,
       HistoricalData.mkHistoricalDataService
         (<[GetProductId (GetProduct data) := data]> (HistoricalData.hd hist))
         HistoricalData.INQUIRY
         (HistoricalData.file hist ++
            [record_line (CurrentDateTimeWithMillis k) (HDFormat quoted);
             record_line (CurrentDateTimeWithMillis (S k)) (HDFormat done);
             record_line (CurrentDateTimeWithMillis (S (S k))) (HDFormat data)])
         (S (S (S k)))) /\
  last (HDFormat quoted) = Some "QUOTED" /\
  last (HDFormat done) = Some "DONE" /\
  last (HDFormat data) = Some "RECEIVED".
Proof.
  intros Hst Hfuel Ht. cbv zeta.
  split; [| unfold HDFormat; cbn [last GetState SetState SetPrice state_name]; by rewrite Hst].
  destruct fuel as [|[|fuel]]; [lia | lia |].
  change [inqlstn; external persist] with (inqlstn :: (external <$> [persist])).
  rewrite (OnMessage_received (S fuel) [persist] data m hist);
    [| intros key seen svc w'; apply OnMessage_settled | done].
  rewrite persist_inquiry by done. cbn [mbind outcome_bind].
  rewrite persist_inquiry by done. cbn [mbind outcome_bind].
  rewrite persist_inquiry by done. cbn [mbind outcome_bind].
  cbn [HistoricalData.hd HistoricalData.file HistoricalData.readings
       GetProduct SetState SetPrice].
  rewrite !insert_insert_eq, <- !app_assoc. reflexivity.
Qed.

End InquiryHistory.

Lemma received_inquiry_history_ends_with_RECEIVED_witness :
  let clock (n : nat) : string := "2023-12-19 15:33:20.00" +:+ pretty n in
  let inq := Inquiry.mkInquiry "INQ1" US2Y TradeBooking.BUY 1000000 price_99_16
               Inquiry.RECEIVED in
  let ls := [Inquiry.inqlstn;
             Inquiry.external (HistoricalData.HistoricalDataListener_ProcessAdd clock)] in
  exists lines : list string,
    Inquiry.OnMessage 2 (Inquiry.local inq)
      (Inquiry.mkInquiryService ∅ ls,
       HistoricalData.new_HistoricalDataService HistoricalData.INQUIRY) =
      Returns
        (Inquiry.mkInquiryService
           {[ "INQ1" := Inquiry.mkInquiry "INQ1" US2Y TradeBooking.BUY 1000000 (of_Q 100)
                          Inquiry.DONE ]} ls,
         HistoricalData.mkHistoricalDataService {[ "91282CJL6" := inq ]}
           HistoricalData.INQUIRY lines 3) /\
    last lines =
      Some ("2023-12-19 15:33:20.002,INQ1,91282CJL6,BUY,1000000,99-16,RECEIVED,"
              +:+ GUI.newline).
Proof.
  intros clock inq ls.
  destruct (received_inquiry_history_ends_with_RECEIVED clock 2 inq ∅
              (HistoricalData.new_HistoricalDataService HistoricalData.INQUIRY))
    as [Hrun _]; [reflexivity | lia | reflexivity |].
  eexists. split; [exact Hrun |]. vm_compute. reflexivity.
Defined.

(** ** A trade delivered twice *)

Section Redelivery.

Import TradeBooking.

(** X20.  The trade store is keyed by trade id, the position store nets every
    delivery: a trade that reaches [TradeBookingService::OnMessage] twice
    is held once in the trade store but counted twice in the position of
    its product and book, and the risk listeners are told twice. *)
Theorem redelivered_trade_counted_twice (t : Trade) (trades : gmap string Trade)
    (store : gmap string Position.Position) (pvs : gmap string (Risk.PV01 Bond))
    (log : risk_log) :
  Long.in_range (GetQuantity t) ->
  let productId := GetProductId (GetProduct t) in
  let tbs := mkTradeBookingService trades [Position.TradeBookingPosListener_ProcessAdd] in
  let world : position_world :=
    (Position.mkPositionService store [Risk.PositionRiskListner_ProcessAdd],
     (Risk.mkRiskService pvs [recorder], log)) in
  exists (tbs2 : TradeBookingService position_world)
         (pos2 : Position.PositionService risk_world)
         (risk2 : Risk.RiskService risk_log) (log2 : risk_log),
    (st1 ← OnMessage t tbs world; OnMessage t st1.1 st1.2)
      = Returns (tbs2, (pos2, (risk2, log2))) /\
    TradeBooking.trades tbs2 = <[GetTradeId t := t]> trades /\
    held (Position.positions pos2) productId (GetBook t) =
      Some (Long.wrap (default 0 (held store productId (GetBook t)) + 2 * signed t)) /\
    length log2 = (length log + 2)%nat.
Proof.
  intros Hq productId tbs world. subst tbs world. unfold position_world, risk_world.
  change (OnMessage t ?s ?w) with (BookTrade t s w).
  rewrite BookTrade_into_position. cbn [mbind outcome_bind fst snd].
  change (OnMessage t ?s ?w) with (BookTrade t s w).
  rewrite BookTrade_into_position.
  eexists _, _, _, _. split; [reflexivity |].
  cbn [TradeBooking.trades Position.positions]. split; [by rewrite insert_insert_eq |].
  split; [| rewrite !length_app; simpl; lia].
  rewrite !AddTrade_store_held. unfold on_book.
  rewrite bool_decide_eq_true_2 by done. rewrite delta_signed by done.
  f_equal. unfold Long.add.
  destruct (held store productId (GetBook t)) as [q|]; simpl.
  - rewrite wrap_add_r, wrap_add_l.
    replace (signed t + (Long.wrap (signed t) + q)) with (Long.wrap (signed t) + (signed t + q))
      by lia.
    rewrite wrap_add_l. f_equal. lia.
  - rewrite wrap_add_l, wrap_add_r. f_equal. lia.
Qed.

Lemma redelivered_trade_counted_twice_witness :
  let t := mkTrade US2Y "T1" price_99_16 "TRSY1" 3000000 BUY in
  exists (tbs2 : TradeBookingService position_world)
         (pos2 : Position.PositionService risk_world),
    (exists risk2 log2,
       (st1 ← OnMessage t booking_to_position (position_to_risk, (risk_recorded, []));
        OnMessage t st1.1 st1.2) = Returns (tbs2, (pos2, (risk2, log2)))) /\
    TradeBooking.trades tbs2 = {[ "T1" := t ]} /\
    held (Position.positions pos2) "91282CJL6" "TRSY1" = Some 6000000.
Proof.
  intros t.
  destruct (redelivered_trade_counted_twice t ∅ ∅ ∅ [])
    as (tbs2 & pos2 & risk2 & log2 & Hrun & Htrades & Hheld & _).
  { simpl. unfold Long.in_range, Long.LONG_MIN, Long.LONG_MAX. lia. }
  exists tbs2, pos2. split; [by exists risk2, log2 |]. split.
  - etransitivity; [exact Htrades |]. by rewrite insert_empty.
  - etransitivity; [exact Hheld |]. vm_compute. reflexivity.
Defined.

End Redelivery.
